(** * ChainMonitor: the risk monitor, its analytics and its REST facade

    A shallow embedding of [backend/monitor.py], [backend/whale_cex.py] and
    [backend/api_server.py], and the properties of the design document that
    concern them.

    Python integers are [Z]; Python floats are IEEE-754 binary64 values, taken
    from the standard library's [SpecFloat] (precision 53, [emax] 1024, round
    to nearest even); exceptions are an error monad; dictionaries are [gmap]s;
    the SQLite tables are lists of rows in insertion order. *)

From Stdlib Require Import ZArith QArith Lia Bool List Sorted Ascii String DecimalString.
From Stdlib Require Import Floats.SpecFloat.
From stdpp Require Import base option list sorting gmap strings.

Local Open Scope string_scope.
Local Open Scope Z_scope.

(** ** The fragment of the Python runtime the code relies on *)

Module Py.

(** Exceptions the modelled code raises or lets through. *)
Inductive exn : Type :=
| TypeError (msg : string)
| KeyError (key : string)
| ZeroDivisionError
| OverflowError
| RuntimeError (msg : string)
| FileNotFoundError
| JSONDecodeError
| ValueError (msg : string)
| HTTPException (status : Z) (detail : string)
| AttributeError (msg : string)
| ExternalError (what : string).

Inductive result (A : Type) : Type :=
| Ok (a : A)
| Raise (e : exn).
Arguments Ok {A} a.
Arguments Raise {A} e.

#[global] Instance result_ret : MRet result := fun A a => Ok a.
#[global] Instance result_bind : MBind result := fun A B f m =>
  match m with
  | Ok a => f a
  | Raise e => Raise e
  end.
#[global] Instance result_fmap : FMap result := fun A B f m =>
  match m with
  | Ok a => Ok (f a)
  | Raise e => Raise e
  end.

Definition is_ok {A} (r : result A) : bool :=
  match r with Ok _ => true | Raise _ => false end.

(** *** Floats: binary64 *)

Definition prec : Z := 53.
Definition emax : Z := 1024.
Abbreviation float := spec_float.

(** The double nearest to an integer, ties to even; an infinity when the
    integer is out of range. *)
Definition nearest_double_of_int (z : Z) : float :=
  binary_normalize prec emax z 0 false.

(** [float(z)] for an [int]: [OverflowError] when it is out of range
    ("int too large to convert to float"). *)
Definition float_of_int (z : Z) : result float :=
  match nearest_double_of_int z with
  | S754_infinity _ => Raise OverflowError
  | f => Ok f
  end.

Definition float_is_zero (f : float) : bool :=
  match f with S754_zero _ => true | _ => false end.

(** The double nearest to the quotient of two integers, the second one not
    zero; an infinity when the quotient is out of range. *)
Definition nearest_double_of_quotient (a b : Z) : float :=
  match a with
  | Z0 => S754_zero (b <? 0)
  | _ =>
    SFdiv prec emax
          (S754_finite (a <? 0) (Z.to_pos (Z.abs a)) 0)
          (S754_finite (b <? 0) (Z.to_pos (Z.abs b)) 0)
  end.

(** [a / b] on two ints: the correctly rounded quotient;
    [ZeroDivisionError] for a zero divisor, [OverflowError] when the
    quotient is out of range. *)
Definition int_truediv (a b : Z) : result float :=
  if b =? 0 then Raise ZeroDivisionError
  else match nearest_double_of_quotient a b with
       | S754_infinity _ => Raise OverflowError
       | q => Ok q
       end.

(** The double a decimal literal [n/d] denotes. *)
Definition literal (n d : positive) : float :=
  nearest_double_of_quotient (Z.pos n) (Z.pos d).

(** *** Rounding, written out *)

(** The exponent of the last place of a double whose value has [e] binary
digits before the point. *)
Definition fexp64 (e : Z) : Z := Z.max (e - 53) (-1074).

(** What [binary_round_aux] does to a mantissa when the exponent is not in
the subnormal range: the mantissa it keeps and the number of binary places
it drops, both independent of the exponent. *)
Definition round_core (m : Z) (l : location) : Z * Z :=
  let n1 := Zdigits2 m - 53 in
  let mrs1 := (shr (shr_record_of_loc m l) 0 n1).1 in
  let m2 := round_nearest_even (shr_m mrs1) (loc_of_shr_record mrs1) in
  let n2 := Zdigits2 m2 - 53 in
  let mrs2 := (shr (shr_record_of_loc m2 loc_Exact) 0 n2).1 in
  (shr_m mrs2, Z.max 0 n1 + Z.max 0 n2).


(** *** Numbers: [int] or [float] *)

Inductive num : Type :=
| Int (z : Z)
| Flt (f : float).

Definition to_float (x : num) : result float :=
  match x with
  | Int z => float_of_int z
  | Flt f => Ok f
  end.

(** [x * y] *)
Definition mul (x y : num) : result num :=
  match x, y with
  | Int a, Int b => Ok (Int (a * b))
  | _, _ =>
    a ← to_float x;
    b ← to_float y;
    Ok (Flt (SFmul prec emax a b))
  end.

(** [x + y] *)
Definition add (x y : num) : result num :=
  match x, y with
  | Int a, Int b => Ok (Int (a + b))
  | _, _ =>
    a ← to_float x;
    b ← to_float y;
    Ok (Flt (SFadd prec emax a b))
  end.

(** [x / y] *)
Definition truediv (x y : num) : result num :=
  match x, y with
  | Int a, Int b => Flt <$> int_truediv a b
  | _, _ =>
    a ← to_float x;
    b ← to_float y;
    if float_is_zero b then Raise ZeroDivisionError
    else Ok (Flt (SFdiv prec emax a b))
  end.

(** Comparison of an int with a float is exact: the int is not rounded. *)
Definition compare_int_float (z : Z) (f : float) : option comparison :=
  match f with
  | S754_nan => None
  | S754_infinity s => Some (if s then Gt else Lt)
  | S754_zero _ => Some (z ?= 0)
  | S754_finite s m e =>
    let sm := if s then Z.neg m else Z.pos m in
    Some (if 0 <=? e then z ?= sm * 2 ^ e else z * 2 ^ (- e) ?= sm)
  end.

Definition compare (x y : num) : option comparison :=
  match x, y with
  | Int a, Int b => Some (a ?= b)
  | Int a, Flt g => compare_int_float a g
  | Flt f, Int b => CompOpp <$> compare_int_float b f
  | Flt f, Flt g => SFcompare f g
  end.

Definition lt (x y : num) : bool :=
  match compare x y with Some Lt => true | _ => false end.
Definition le (x y : num) : bool :=
  match compare x y with Some Lt | Some Eq => true | _ => false end.
Definition gt (x y : num) : bool := lt y x.
Definition ge (x y : num) : bool := le y x.

(** The value of a finite float as a rational. *)
Definition Q_of_float (f : float) : option Q :=
  match f with
  | S754_zero _ => Some 0%Q
  | S754_finite s m e =>
    let sm := if s then Z.neg m else Z.pos m in
    Some (if 0 <=? e then inject_Z (sm * 2 ^ e)
          else Qmake sm (Z.to_pos (2 ^ (- e))))
  | _ => None
  end.

(** *** Dynamically typed values, and calls by keyword *)

Inductive pyval : Type :=
| VInt (z : Z)
| VStr (s : string)
| VList (l : list string).

(** A [def]: its name and its parameters in order, each with its default
    if it has one. *)
Record signature : Type := {
  fname : string;
  params : list (string * option pyval)
}.

Definition quoted (names : list string) : string :=
  String.concat " and " (map (fun n => "'" ++ n ++ "'") names).

(** Binding the arguments of a call made with keywords only, before the
    body runs: a keyword that names no parameter, or a parameter left
    without a value, is a [TypeError]. *)
Definition bind_args (sg : signature) (kwargs : list (string * pyval))
  : result (gmap string pyval) :=
  let given : gmap string pyval := list_to_map kwargs in
  match filter (fun kv => kv.1 ∉ (params sg).*1) kwargs with
  | (k, _) :: _ =>
    Raise (TypeError (fname sg ++ "() got an unexpected keyword argument '"
                        ++ k ++ "'"))
  | [] =>
    match filter (fun p => p.2 = None ∧ given !! p.1 = None) (params sg) with
    | [] =>
      Ok (list_to_map
            (omap (fun p => match given !! p.1 with
                            | Some v => Some (p.1, v)
                            | None => (fun d => (p.1, d)) <$> p.2
                            end) (params sg)))
    | [(k, _)] =>
      Raise (TypeError (fname sg ++ "() missing 1 required positional argument: '"
                          ++ k ++ "'"))
    | missing =>
      Raise (TypeError (fname sg ++ "() missing required positional arguments: "
                          ++ quoted (missing.*1)))
    end
  end.

Definition arg_list (a : gmap string pyval) (k : string) : result (list string) :=
  match a !! k with
  | Some (VList l) => Ok l
  | _ => Raise (TypeError ("'" ++ k ++ "' is not a list"))
  end.
Definition arg_str (a : gmap string pyval) (k : string) : result string :=
  match a !! k with
  | Some (VStr s) => Ok s
  | _ => Raise (TypeError ("'" ++ k ++ "' is not a str"))
  end.
Definition arg_int (a : gmap string pyval) (k : string) : result Z :=
  match a !! k with
  | Some (VInt z) => Ok z
  | _ => Raise (TypeError ("'" ++ k ++ "' is not an int"))
  end.

(** *** Strings *)

Definition lower_ascii (c : ascii) : ascii :=
  let n := N_of_ascii c in
  if ((65 <=? n) && (n <=? 90))%N then ascii_of_N (n + 32) else c.

(** [s.lower()], on ASCII text. *)
Definition lower (s : string) : string :=
  string_of_list_ascii (map lower_ascii (list_ascii_of_string s)).

Definition digit_of_ascii (c : ascii) : option Z :=
  let n := N_of_ascii c in
  if ((48 <=? n) && (n <=? 57))%N then Some (Z.of_N (n - 48)) else None.

(** The ASCII characters that [int()] and [str.strip()] take for white
    space: tab, line feed, vertical tab, form feed, carriage return, the
    four separators 28 to 31, and the space. *)
Definition is_space (c : ascii) : bool :=
  let n := N_of_ascii c in
  (((9 <=? n) && (n <=? 13)) || ((28 <=? n) && (n <=? 31)) || (n =? 32))%N.

Fixpoint drop_spaces (cs : list ascii) : list ascii :=
  match cs with
  | c :: cs' => if is_space c then drop_spaces cs' else cs
  | [] => []
  end.

(** White space removed at both ends. *)
Definition strip (cs : list ascii) : list ascii :=
  rev (drop_spaces (rev (drop_spaces cs))).

(** The limit on the number of digits of a decimal string that [int()]
    converts: the default of [sys.int_max_str_digits], from Python 3.11 on
    and in the security releases of 3.7 to 3.10. *)
Definition int_max_str_digits : N := 4300.

(** Where the scan of a literal stands: before its first character, after
    a digit, or after an underscore. *)
Inductive scan_state : Type := AtStart | AfterDigit | AfterUnderscore.

(** The run of decimal digits at the head of a literal, in which single
    underscores may stand between two digits: its value, the number of its
    digits (underscores are not counted, leading zeros are) and the
    characters after it. There is none when the run is empty, starts or
    ends with an underscore, or has two underscores in a row. *)
Fixpoint scan_digits (acc : Z) (digits : N) (prev : scan_state)
         (cs : list ascii) : option (Z * N * list ascii) :=
  let stop := match prev with
              | AfterDigit => Some (acc, digits, cs)
              | _ => None
              end in
  match cs with
  | [] => stop
  | c :: cs' =>
    if Ascii.eqb c "_"
    then match prev with
         | AfterDigit => scan_digits acc digits AfterUnderscore cs'
         | _ => None
         end
    else match digit_of_ascii c with
         | Some d => scan_digits (10 * acc + d) (digits + 1) AfterDigit cs'
         | None => stop
         end
  end.

(** [int(s)] on ASCII text: white space at both ends, an optional sign,
    then decimal digits, with single underscores allowed between digits.
    A run of more than [int_max_str_digits] digits is refused before the
    characters after it are looked at. Every failure is a [ValueError];
    the messages are abridged. Characters outside ASCII (the decimal
    digits and the white space of other scripts, which [int()] accepts)
    are not modelled: a [string] here is ASCII text. *)
Definition int_of_string (s : string) : result Z :=
  let bad := Raise (ValueError "invalid literal for int() with base 10") in
  let unsigned (sign : Z) (cs : list ascii) : result Z :=
    match scan_digits 0 0 AtStart cs with
    | None => bad
    | Some (v, digits, rest) =>
      if (int_max_str_digits <? digits)%N
      then Raise (ValueError "Exceeds the limit (4300 digits) for integer string conversion")
      else match rest with
           | [] => Ok (sign * v)
           | _ => bad
           end
    end in
  match strip (list_ascii_of_string s) with
  | "-"%char :: cs => unsigned (-1) cs
  | "+"%char :: cs => unsigned 1 cs
  | cs => unsigned 1 cs
  end.

(** [int(v)] *)
Definition int_of (v : pyval) : result Z :=
  match v with
  | VInt z => Ok z
  | VStr s => int_of_string s
  | VList _ => Raise (TypeError "int() argument must be a string or a number, not 'list'")
  end.

(** A [for] loop that threads an accumulator and stops at the first
    exception. *)
Fixpoint for_each {A S : Type} (f : S -> A -> result S) (s : S) (l : list A)
  : result S :=
  match l with
  | [] => Ok s
  | a :: l' => s' ← f s a; for_each f s' l'
  end.

(** [d[k]] on a dictionary. *)
Definition getitem {V} (d : gmap string V) (k : string) : result V :=
  match d !! k with
  | Some v => Ok v
  | None => Raise (KeyError k)
  end.

End Py.
Import Py.

(** ** Web3.keccak: Keccak-256 (rate 1088, capacity 512, padding 0x01..0x80)

    The state is the list of the 25 lanes, lane [(x, y)] at index [x + 5 y];
    a lane is a 64-bit word. *)

Module Keccak.

Definition lane_mask : Z := 2 ^ 64 - 1.

Definition rotl (v : Z) (n : Z) : Z :=
  Z.land (Z.lor (Z.shiftl v n) (Z.shiftr v (64 - n))) lane_mask.

Definition lane (st : list Z) (x y : Z) : Z :=
  nth (Z.to_nat (x mod 5 + 5 * (y mod 5))) st 0.

Definition coords : list (Z * Z) :=
  y ← [0; 1; 2; 3; 4]; x ← [0; 1; 2; 3; 4]; [(x, y)].

Definition round_constants : list Z :=
  [ 0x0000000000000001; 0x0000000000008082; 0x800000000000808A;
    0x8000000080008000; 0x000000000000808B; 0x0000000080000001;
    0x8000000080008081; 0x8000000000008009; 0x000000000000008A;
    0x0000000000000088; 0x0000000080008009; 0x000000008000000A;
    0x000000008000808B; 0x800000000000008B; 0x8000000000008089;
    0x8000000000008003; 0x8000000000008002; 0x8000000000000080;
    0x000000000000800A; 0x800000008000000A; 0x8000000080008081;
    0x8000000000008080; 0x0000000080000001; 0x8000000080008008 ].

(** Rotation offsets, indexed like the state. *)
Definition rotation_offsets : list Z :=
  [  0;  1; 62; 28; 27;
    36; 44;  6; 55; 20;
     3; 10; 43; 25; 39;
    41; 45; 15; 21;  8;
    18;  2; 61; 56; 14 ].

Definition theta (a : list Z) : list Z :=
  let c x := fold_right Z.lxor 0 (map (lane a x) [0; 1; 2; 3; 4]) in
  let d x := Z.lxor (c (x - 1)) (rotl (c (x + 1)) 1) in
  map (fun '(x, y) => Z.lxor (lane a x y) (d x)) coords.

(** [b[y, 2x + 3y] = rotl a[x, y] r[x, y]], read backwards: the lane that
    lands on [(x', y')] comes from [x = x' + 3 y'], [y = x']. *)
Definition rho_pi (a : list Z) : list Z :=
  map (fun '(x', y') =>
         let x := (x' + 3 * y') mod 5 in
         let y := x' in
         rotl (lane a x y) (lane rotation_offsets x y)) coords.

Definition chi (b : list Z) : list Z :=
  map (fun '(x, y) =>
         Z.lxor (lane b x y)
           (Z.land (Z.lxor (lane b (x + 1) y) lane_mask) (lane b (x + 2) y)))
      coords.

Definition iota (rc : Z) (a : list Z) : list Z :=
  match a with
  | [] => []
  | a0 :: rest => Z.lxor a0 rc :: rest
  end.

Definition keccak_round (a : list Z) (rc : Z) : list Z :=
  iota rc (chi (rho_pi (theta a))).

Definition keccak_f (a : list Z) : list Z :=
  fold_left keccak_round round_constants a.

Definition rate : nat := 136.

Definition byte_of_ascii (c : ascii) : Z := Z.of_N (N_of_ascii c).

(** pad10*1 with the Keccak domain byte: the message, 0x01, zeros, and
    0x80 or-ed into the last byte of the block. *)
Definition pad (msg : list Z) : list Z :=
  let q := (rate - (length msg) mod rate)%nat in
  match q with
  | 1%nat => msg ++ [0x81]
  | _ => msg ++ [0x01] ++ repeat 0 (q - 2) ++ [0x80]
  end.

Fixpoint lanes_of_bytes (n : nat) (bs : list Z) : list Z :=
  match n with
  | O => []
  | S n' =>
    fold_right (fun b acc => b + 256 * acc) 0 (firstn 8 bs)
      :: lanes_of_bytes n' (skipn 8 bs)
  end.

(** Absorb the padded message block by block. *)
Fixpoint absorb (blocks : nat) (bs : list Z) (st : list Z) : list Z :=
  match blocks with
  | O => st
  | S n' =>
    let block := lanes_of_bytes 25 (firstn rate bs) in
    absorb n' (skipn rate bs) (keccak_f (zip_with Z.lxor st block))
  end.

Definition state_byte (st : list Z) (i : nat) : Z :=
  Z.land (Z.shiftr (nth (i / 8) st 0) (8 * Z.of_nat (i mod 8))) 255.

(** The 32-byte digest of a byte string. *)
Definition keccak256 (msg : list Z) : list Z :=
  let padded := pad msg in
  let st := absorb (length padded / rate) padded (repeat 0 25%nat) in
  map (state_byte st) (seq 0 32).

(** [Web3.keccak(text=label)]: the label is hashed as its UTF-8 bytes,
    which is what a [string] holds. *)
Definition keccak_text (label : string) : list Z :=
  keccak256 (map byte_of_ascii (list_ascii_of_string label)).

(** [HexBytes.hex()]: lower-case hexadecimal behind a [0x] prefix. *)
Definition hex_digit (n : Z) : ascii :=
  nth (Z.to_nat n) (list_ascii_of_string "0123456789abcdef") "0"%char.

Definition hex_of_bytes (bs : list Z) : string :=
  string_of_list_ascii
    (bs ≫= (fun b => [hex_digit (b / 16); hex_digit (b mod 16)])).

Definition hex (bs : list Z) : string := "0x" ++ hex_of_bytes bs.

End Keccak.

(** ** markets.json and the SQLite store *)

Module Store.

(** One entry of markets.json: a JSON object with string fields
    ([label], [type], [address] or [pairAddress]). *)
Abbreviation MarketConfigEntry := (gmap string string).

(** The state of markets.json as [open] and [json.load] meet it. *)
Inductive ConfigFile : Type :=
| Missing
| Malformed
| Json (entries : list MarketConfigEntry).

(** [with open(MARKETS_PATH, "r", encoding="utf-8") as f: return json.load(f)] *)
Definition open_json_load (file : ConfigFile) : result (list MarketConfigEntry) :=
  match file with
  | Missing => Raise FileNotFoundError
  | Malformed => Raise JSONDecodeError
  | Json entries => Ok entries
  end.

(** A swap as the fetcher hands it over. *)
Record Trade : Type := {
  tx_hash : string;
  trade_block_number : Z;
  timestamp : Z;
  token_in : string;
  token_out : string;
  amount_in : pyval;
  amount_out : pyval
}.

(** A row of [risk_levels(id, market_id, level, source, created_at)]. *)
Record RiskLevelRow : Type := {
  id : Z;
  market_id : string;
  level : Z;
  source : string;
  created_at : string
}.

(** The two tables, rows in insertion order. *)
Record Database : Type := {
  trades : list (Trade * string);
  risk_levels : list RiskLevelRow
}.

Definition next_id (rows : list RiskLevelRow) : Z :=
  1 + fold_right Z.max 0 (map id rows).

(** Modelled from the spec: [MonitorDatabase.save_trades] of db.py, which
    is not among the sources. The design document has it insert the swap
    records of the cycle without deduplication. *)
Definition save_trades (now : string) (new : list Trade) (db : Database)
  : Database :=
  {| trades := trades db ++ map (fun t => (t, now)) new;
     risk_levels := risk_levels db |}.

(** Modelled from the spec: [MonitorDatabase.save_risk_level] of db.py,
    which is not among the sources. The design document has it insert one
    new row and never overwrite; the id auto-increments and [created_at] is
    the time of the insert. *)
Definition save_risk_level (now : string) (market_id : string) (level : Z)
           (source : string) (db : Database) : Database :=
  {| trades := trades db;
     risk_levels :=
       risk_levels db ++
       [ {| id := next_id (risk_levels db); market_id := market_id;
            level := level; source := source; created_at := now |} ] |}.

End Store.

(** ** backend/whale_cex.py *)

Module WhaleCex.

(** A JSON object that an Etherscan answer holds: the entries read are
    ["status"] and ["result"], whose items are objects with string
    fields. *)
Record EtherscanData : Type := {
  data_status : option string;
  data_result : option (list (gmap string string))
}.

(** What [resp.json()] delivers: a JSON object, or a JSON value of another
    kind, given by the name of its Python type ([NoneType] for [null],
    [list], [str], [int], [float] or [bool]). *)
Inductive EtherscanReply : Type :=
| JsonObject (data : EtherscanData)
| JsonOther (python_type : string).

(** What lies outside the process: the environment variable, the
    block-explorer service, the RPC node and the address codec of Web3. *)
Record Env : Type := {
  ETHERSCAN_API_KEY : option string;
  (* requests.get(base_url, params=query, timeout=10) followed by .json() *)
  requests_get_json : string -> gmap string pyval -> result EtherscanReply;
  (* make_web3(network).eth.block_number *)
  block_number : string -> result Z;
  (* the pair contract's getReserves().call(), at a checksummed address *)
  getReserves : string -> string -> result (Z * Z * Z);
  (* Web3.to_checksum_address *)
  to_checksum_address : string -> result string
}.

Definition _etherscan_base_url (network : string) : string :=
  let network := lower network in
  if bool_decide (network ∈ ["mainnet"; "ethereum"])
  then "https://api.etherscan.io/api"
  else if bool_decide (network ∈ ["sepolia"; "sepolia-testnet"])
  then "https://api-sepolia.etherscan.io/api"
  else "https://api.etherscan.io/api".

(** Returns the result array. A missing key, a failure inside the [try]
    (the request, the decoding) and a status other than ["1"] give the
    empty list; [data.get] stands after the [try], so that an answer that
    is not a JSON object raises [AttributeError]. *)
Definition _etherscan_get (env : Env) (params : gmap string pyval)
           (network : string) : result (list (gmap string string)) :=
  match ETHERSCAN_API_KEY env with
  | None | Some "" => Ok []
  | Some key =>
    let base_url := _etherscan_base_url network in
    (* {"apikey": key, **params} *)
    let query := params ∪ {["apikey" := VStr key]} in
    match requests_get_json env base_url query with
    | Raise _ => Ok []
    | Ok (JsonOther python_type) =>
      Raise (AttributeError ("'" ++ python_type
                                 ++ "' object has no attribute 'get'"))
    | Ok (JsonObject data) =>
      Ok (if bool_decide (data_status data = Some "1")
          then default [] (data_result data)
          else [])
    end
  end.

Definition _fetch_normal_txs_in_range (env : Env) (address : string)
           (start_block end_block : Z) (network : string)
  : result (list (gmap string string)) :=
  address ← to_checksum_address env address;
  let params : gmap string pyval :=
    list_to_map
      [ ("module", VStr "account"); ("action", VStr "txlist");
        ("address", VStr address); ("startblock", VInt start_block);
        ("endblock", VInt end_block); ("page", VInt 1);
        ("offset", VInt 1000); ("sort", VStr "desc") ] in
  _etherscan_get env params network.

(** [tx.get(k, d)] *)
Definition tx_get (tx : gmap string string) (k d : string) : string :=
  default d (tx !! k).

Definition fetch_whale_metrics_sig : signature :=
  {| fname := "fetch_whale_metrics";
     params := [ ("whales", None); ("cex_addresses", None);
                 ("pair_address", None); ("blocks_back", Some (VInt 2000));
                 ("network", Some (VStr "mainnet")) ] |}.

(** The body, once the parameters are bound. *)
Definition fetch_whale_metrics_body (env : Env)
           (whales cex_addresses : list string) (pair_address : string)
           (blocks_back : Z) (network : string) : result (Z * Z) :=
  match whales with
  | [] => Ok (0, 0)
  | _ =>
    latest ← block_number env network;
    let start_block := Z.max 0 (latest - blocks_back) in
    let cex_set : gset string := list_to_set (map lower cex_addresses) in
    let cex_set := cex_set ∪ {[ lower pair_address ]} in
    for_each
      (fun '(whale_sell_total, whale_count_selling) whale =>
         whale ← to_checksum_address env whale;
         txs ← _fetch_normal_txs_in_range env whale start_block latest network;
         this_whale_sell ←
           for_each
             (fun this_whale_sell tx =>
                if bool_decide (lower (tx_get tx "from" "") = lower whale)
                   && bool_decide (lower (tx_get tx "to" "") ∈ cex_set)
                then value_wei ← int_of_string (tx_get tx "value" "0");
                     Ok (this_whale_sell + value_wei)
                else Ok this_whale_sell)
             0 txs;
         Ok (if this_whale_sell >? 0
             then (whale_sell_total + this_whale_sell, whale_count_selling + 1)
             else (whale_sell_total, whale_count_selling)))
      (0, 0) whales
  end.

(** A call [fetch_whale_metrics(k1=v1, ...)]. *)
Definition fetch_whale_metrics (env : Env) (kwargs : list (string * pyval))
  : result (Z * Z) :=
  a ← bind_args fetch_whale_metrics_sig kwargs;
  whales ← arg_list a "whales";
  cex_addresses ← arg_list a "cex_addresses";
  pair_address ← arg_str a "pair_address";
  blocks_back ← arg_int a "blocks_back";
  network ← arg_str a "network";
  fetch_whale_metrics_body env whales cex_addresses pair_address
                           blocks_back network.

Definition fetch_cex_net_inflow_sig : signature :=
  {| fname := "fetch_cex_net_inflow";
     params := [ ("cex_addresses", None); ("blocks_back", Some (VInt 2000));
                 ("network", Some (VStr "mainnet")) ] |}.

Definition fetch_cex_net_inflow_body (env : Env) (cex_addresses : list string)
           (blocks_back : Z) (network : string) : result Z :=
  match cex_addresses with
  | [] => Ok 0
  | _ =>
    latest ← block_number env network;
    let start_block := Z.max 0 (latest - blocks_back) in
    '(total_in, total_out) ←
      for_each
        (fun totals cex =>
           cex ← to_checksum_address env cex;
           txs ← _fetch_normal_txs_in_range env cex start_block latest network;
           for_each
             (fun '(total_in, total_out) tx =>
                let frm := lower (tx_get tx "from" "") in
                let to := lower (tx_get tx "to" "") in
                value_wei ← int_of_string (tx_get tx "value" "0");
                Ok (if bool_decide (to = lower cex)
                       && negb (bool_decide (frm = lower cex))
                    then (total_in + value_wei, total_out)
                    else if bool_decide (frm = lower cex)
                            && negb (bool_decide (to = lower cex))
                    then (total_in, total_out + value_wei)
                    else (total_in, total_out)))
             totals txs)
        (0, 0) cex_addresses;
    Ok (total_in - total_out)
  end.

Definition fetch_cex_net_inflow (env : Env) (kwargs : list (string * pyval))
  : result Z :=
  a ← bind_args fetch_cex_net_inflow_sig kwargs;
  cex_addresses ← arg_list a "cex_addresses";
  blocks_back ← arg_int a "blocks_back";
  network ← arg_str a "network";
  fetch_cex_net_inflow_body env cex_addresses blocks_back network.

(** The fallback of [estimate_pool_liquidity]. *)
Definition default_liquidity : Z := 10 ^ 24.

(** The [try] block of [estimate_pool_liquidity]. *)
Definition read_liquidity (env : Env) (pair_address network : string)
  : result Z :=
  address ← to_checksum_address env pair_address;
  '(reserve0, reserve1, _) ← getReserves env network address;
  let liquidity := reserve0 + reserve1 in
  Ok (if liquidity <=? 0 then default_liquidity else liquidity).

(** [except Exception] turns every failure of the block into the
    fallback. *)
Definition estimate_pool_liquidity (env : Env) (pair_address network : string)
  : Z :=
  match read_liquidity env pair_address network with
  | Ok liquidity => liquidity
  | Raise _ => default_liquidity
  end.

End WhaleCex.

(** ** backend/monitor.py: the composite score *)

Module Monitor.

(** The metrics bundle: a dictionary with six integer entries. *)
Record Metrics : Type := {
  dex_volume : Z;
  dex_trades : Z;
  whale_sell_total : Z;
  whale_count_selling : Z;
  cex_net_inflow : Z;
  pool_liquidity : Z
}.

(** The float literals of the scoring code. *)
Definition lit_0_01 : num := Flt (S754_finite false 5764607523034235 (-59)).
Definition lit_0_001 : num := Flt (S754_finite false 4611686018427388 (-62)).
Definition lit_0_03 : num := Flt (S754_finite false 8646911284551352 (-58)).
Definition lit_0_005 : num := Flt (S754_finite false 5764607523034235 (-60)).
Definition lit_0_02 : num := Flt (S754_finite false 5764607523034235 (-58)).

(** What one call prints and returns: the three component scores, their
    sum, and the level. *)
Record Scored : Type := {
  dex_score : Z;
  whale_score : Z;
  cex_score : Z;
  score : Z;
  level : Z
}.

Definition level_of_score (score : Z) : Z :=
  if score <? 20 then 0
  else if score <? 40 then 1
  else if score <? 70 then 2
  else 3.

(** [metrics["pool_liquidity"] or 1] *)
Definition liquidity_or_1 (metrics : Metrics) : Z :=
  if pool_liquidity metrics =? 0 then 1 else pool_liquidity metrics.

(** Section A, first half: [baseline_volume] and [r]. *)
Definition baseline_volume_of (pool_liquidity : Z) : result num :=
  mul (Int pool_liquidity) lit_0_01.

Definition dex_ratio (pool_liquidity dex_volume : Z) : result num :=
  baseline_volume ← baseline_volume_of pool_liquidity;
  if gt baseline_volume (Int 0)
  then truediv (Int dex_volume) baseline_volume
  else Ok (Int 0).

(** Section A: the DEX activity score. *)
Definition dex_activity_score (pool_liquidity dex_volume dex_trades : Z)
  : result Z :=
  r ← dex_ratio pool_liquidity dex_volume;
  let dex_score :=
    if le (Int 1) r && lt r (Int 2) then 10
    else if le (Int 2) r && lt r (Int 5) then 20
    else if ge r (Int 5) then 30
    else 0 in
  Ok (if dex_trades >? 200 then dex_score + 10 else dex_score).

(** Section B: the whale sell-pressure score. *)
Definition whale_pressure_score
           (pool_liquidity whale_sell_total whale_count_selling : Z)
  : result Z :=
  p ← truediv (Int whale_sell_total) (Int pool_liquidity);
  let whale_score :=
    if le lit_0_001 p && lt p lit_0_01 then 10
    else if le lit_0_01 p && lt p lit_0_03 then 20
    else if ge p lit_0_03 then 30
    else 0 in
  Ok (if whale_count_selling >=? 3 then whale_score + 5 else whale_score).

(** Section C: the exchange net-inflow score. The products are formed
    when, and as often as, the conditions of the chain are evaluated. *)
Definition cex_inflow_score (pool_liquidity cex_net_inflow : Z) : result Z :=
  c1 ← (if lt (Int 0) (Int cex_net_inflow)
        then hi ← mul lit_0_005 (Int pool_liquidity);
             Ok (lt (Int cex_net_inflow) hi)
        else Ok false);
  if c1 : bool then Ok 10
  else
    lo ← mul lit_0_005 (Int pool_liquidity);
    c2 ← (if le lo (Int cex_net_inflow)
          then hi ← mul lit_0_02 (Int pool_liquidity);
               Ok (lt (Int cex_net_inflow) hi)
          else Ok false);
    if c2 : bool then Ok 20
    else
      lo ← mul lit_0_02 (Int pool_liquidity);
      Ok (if ge (Int cex_net_inflow) lo then 30 else 0).

(** [compute_risk_level], with what it prints. *)
Definition score_metrics (metrics : Metrics) : result Scored :=
  let pool_liquidity := liquidity_or_1 metrics in
  dex_score ← dex_activity_score pool_liquidity (dex_volume metrics)
                                 (dex_trades metrics);
  whale_score ← whale_pressure_score pool_liquidity (whale_sell_total metrics)
                                     (whale_count_selling metrics);
  cex_score ← cex_inflow_score pool_liquidity (cex_net_inflow metrics);
  let score := dex_score + whale_score + cex_score in
  Ok {| dex_score := dex_score; whale_score := whale_score;
        cex_score := cex_score; score := score;
        level := level_of_score score |}.

Definition compute_risk_level (metrics : Metrics) : result Z :=
  level <$> score_metrics metrics.

(** *** Configuration *)

Definition load_markets (file : Store.ConfigFile)
  : result (list Store.MarketConfigEntry) :=
  Store.open_json_load file.

Definition get_default_dex_market (markets : list Store.MarketConfigEntry)
  : result Store.MarketConfigEntry :=
  match filter (fun m : gmap string string => m !! "type" = Some "dex_pool") markets with
  | m :: _ => Ok m
  | [] => Raise (RuntimeError "markets.json: no market of type dex_pool")
  end.

(** [Web3.keccak(text=label)]: 32 bytes. *)
Definition calc_market_id (label : string) : list Z :=
  Keccak.keccak_text label.

(** *** The loop *)

(** What the process changes: the local store and the transactions it has
    broadcast, each an [updateRisk(marketId, level)]. *)
Record Sys : Type := {
  db : Store.Database;
  broadcast : list (list Z * Z)
}.

(** A computation that changes [Sys] and may raise; what it did before
    raising stays done. *)
Definition M (A : Type) : Type := Sys -> result A * Sys.

#[global] Instance M_ret : MRet M := fun A a s => (Ok a, s).
#[global] Instance M_bind : MBind M := fun A B f m s =>
  match m s with
  | (Ok a, s') => f a s'
  | (Raise e, s') => (Raise e, s')
  end.

Definition lift {A} (r : result A) : M A := fun s => (r, s).
Definition modify_db (f : Store.Database -> Store.Database) : M unit :=
  fun s => (Ok tt, {| db := f (db s); broadcast := broadcast s |}).
Definition record_broadcast (market_id : list Z) (level : Z) : M unit :=
  fun s => (Ok tt, {| db := db s;
                      broadcast := broadcast s ++ [(market_id, level)] |}).

(** What one cycle meets outside the process. *)
Record World : Type := {
  env : WhaleCex.Env;
  (* chain_data.fetch_recent_swaps(pair_address, blocks_back, network) *)
  fetch_recent_swaps : string -> Z -> string -> result (list Store.Trade);
  (* the clock of the store *)
  now : string;
  (* os.getenv("PRIVATE_KEY") *)
  PRIVATE_KEY : option string;
  (* nonce, build_transaction, sign_transaction and send_raw_transaction,
     with the key, the market id and the level: the transaction hash *)
  send_raw_transaction : string -> list Z -> Z -> result string
}.

Definition send_update_risk_tx (w : World) (level : Z) (market_id : list Z)
  : M string :=
  match PRIVATE_KEY w with
  | None | Some "" => lift (Raise (RuntimeError "PRIVATE_KEY is not set"))
  | Some private_key =>
    tx_hash ← lift (send_raw_transaction w private_key market_id level);
    _ ← record_broadcast market_id level;
    mret tx_hash
  end.

(** What [monitor_loop] fixes before the loop. *)
Record Setup : Type := {
  pair_address : string;
  label : string;
  market_id : list Z;
  whales : list string;
  cex_addresses : list string;
  blocks_back : Z
}.

(** Lines 240-256: the row is stored, then the contract is updated when
    the level is the first one or has changed. Returns the new
    [last_level]. *)
Definition persist_and_publish (w : World) (c : Setup)
           (last_level : option Z) (level : Z) : M (option Z) :=
  _ ← modify_db (Store.save_risk_level (now w) (Keccak.hex (market_id c))
                                       level "multi_factor");
  if bool_decide (last_level = None) || negb (bool_decide (Some level = last_level))
  then _ ← send_update_risk_tx w level (market_id c);
       mret (Some level)
  else mret last_level.

(** [sum(int(t["amount_in"]) for t in trades)] *)
Definition sum_amount_in (trades : list Store.Trade) : result Z :=
  for_each (fun acc t => v ← int_of (Store.amount_in t); Ok (acc + v))
           0 trades.

(** One turn of the [while True] body. *)
Definition monitor_cycle (w : World) (c : Setup) (last_level : option Z)
  : M (option Z) :=
  (* 1 *)
  trades ← lift (fetch_recent_swaps w (pair_address c) (blocks_back c) "mainnet");
  _ ← modify_db (Store.save_trades (now w) trades);
  dex_volume ← lift (sum_amount_in trades);
  let dex_trades := Z.of_nat (length trades) in
  (* 2 *)
  let pool_liquidity :=
    WhaleCex.estimate_pool_liquidity (env w) (pair_address c) "mainnet" in
  (* 3 *)
  '(whale_sell_total, whale_count_selling) ←
    lift (WhaleCex.fetch_whale_metrics (env w)
            [ ("whales", VList (whales c));
              ("cex_addresses", VList (cex_addresses c));
              ("blocks_back", VInt (blocks_back c));
              ("network", VStr "mainnet") ]);
  (* 4 *)
  cex_net_inflow ←
    lift (WhaleCex.fetch_cex_net_inflow (env w)
            [ ("cex_addresses", VList (cex_addresses c));
              ("blocks_back", VInt (blocks_back c));
              ("network", VStr "mainnet") ]);
  let metrics :=
    {| dex_volume := dex_volume; dex_trades := dex_trades;
       whale_sell_total := whale_sell_total;
       whale_count_selling := whale_count_selling;
       cex_net_inflow := cex_net_inflow;
       pool_liquidity := pool_liquidity |} in
  level ← lift (compute_risk_level metrics);
  persist_and_publish w c last_level level.

(** [n] turns of the loop; turn [k] meets [worlds k]. *)
Fixpoint cycles (n : nat) (worlds : nat -> World) (k : nat) (c : Setup)
         (last_level : option Z) : M (option Z) :=
  match n with
  | O => mret last_level
  | S n' =>
    last_level' ← monitor_cycle (worlds k) c last_level;
    cycles n' worlds (S k) c last_level'
  end.

(** The part of [monitor_loop] before the loop. [connect] stands for
    [MonitorDatabase()] and [load_risk_monitor_contract(network)]. *)
Definition setup (connect : result unit) (file : Store.ConfigFile)
           (blocks_back : Z) : result Setup :=
  _ ← connect;
  markets ← load_markets file;
  dex_market ← get_default_dex_market markets;
  pair_address ← getitem dex_market "pairAddress";
  label ← getitem dex_market "label";
  let market_id := calc_market_id label in
  whales ← mapM (fun m : gmap string string => getitem m "address")
                (filter (fun m : gmap string string => m !! "type" = Some "whale") markets);
  cex_addresses ← mapM (fun m : gmap string string => getitem m "address")
                       (filter (fun m : gmap string string => m !! "type" = Some "exchange") markets);
  Ok {| pair_address := pair_address; label := label;
        market_id := market_id; whales := whales;
        cex_addresses := cex_addresses; blocks_back := blocks_back |}.

(** [monitor_loop], cut after [n] turns. *)
Definition monitor_loop (n : nat) (connect : result unit)
           (file : Store.ConfigFile) (worlds : nat -> World)
           (blocks_back : Z) : M (option Z) :=
  c ← lift (setup connect file blocks_back);
  cycles n worlds 0%nat c None.

End Monitor.

(** ** backend/api_server.py *)

Module ApiServer.

(** *** Configuration and market ids *)

(** [except FileNotFoundError: return []]; any other exception of the
    [try] block goes through. *)
Definition load_markets_config (file : Store.ConfigFile)
  : result (list Store.MarketConfigEntry) :=
  match Store.open_json_load file with
  | Raise FileNotFoundError => Ok []
  | r => r
  end.

(** [Web3.keccak(text=label).hex()] *)
Definition calc_market_id (label : string) : string :=
  Keccak.hex (Keccak.keccak_text label).

(** *** Queries *)

(** [ORDER BY]: [later a b] holds when [a] has to come after [b]. Rows
    that tie keep the order of the table. *)
Fixpoint insert_by {A} (later : A -> A -> bool) (a : A) (sorted : list A)
  : list A :=
  match sorted with
  | [] => [a]
  | b :: rest =>
    if later a b then b :: insert_by later a rest else a :: b :: rest
  end.

Definition order_by {A} (later : A -> A -> bool) (rows : list A) : list A :=
  fold_right (insert_by later) [] rows.

Definition created_at_desc {A} (key : A -> string) (a b : A) : bool :=
  String.ltb (key a) (key b).
Definition created_at_asc {A} (key : A -> string) (a b : A) : bool :=
  String.ltb (key b) (key a).
Definition id_desc (a b : Store.RiskLevelRow) : bool :=
  Store.id a <? Store.id b.

(** [level * 25 + 12.5] *)
Definition lit_12_5 : num := Flt (S754_finite false 7036874417766400 (-49)).
Definition score_of_level (level : Z) : result num :=
  add (Int (level * 25)) lit_12_5.

(** [0.0] *)
Definition lit_0_0 : num := Flt (S754_zero false).

(** [SELECT level, created_at FROM risk_levels WHERE market_id = ?
     ORDER BY created_at DESC LIMIT 1], then the score. *)
Definition get_latest_risk_level (db : Store.Database) (market_id : string)
  : result (Z * num * option string) :=
  let rows :=
    order_by (created_at_desc Store.created_at)
             (filter (fun r => Store.market_id r = market_id)
                     (Store.risk_levels db)) in
  match head rows with
  | Some row =>
    let level := Store.level row in
    score ← score_of_level level;
    Ok (level, score, Some (Store.created_at row))
  | None => Ok (0, lit_0_0, None)
  end.

(** *** Response models *)

Record Market : Type := {
  id : string;
  label : string;
  type : string;
  address : string;
  token0 : string;
  token1 : string;
  riskLevel : Z;
  riskScore : num;
  lastUpdated : option string;
  isActive : bool
}.

Record RiskHistoryPoint : Type := {
  timestamp : string;
  level : Z;
  score : num
}.

(** The [id] and [type] of an alert are [alert_id] and [alert_type] here. *)
Record Alert : Type := {
  alert_id : Z;
  marketId : string;
  marketLabel : string;
  alert_type : string;
  severity : string;
  previousLevel : option Z;
  newLevel : Z;
  message : string;
  isResolved : bool;
  createdAt : string
}.

(** *** Markets *)

(** [label.split("_")] *)
Fixpoint split_on (sep : ascii) (s : string) : list string :=
  match s with
  | EmptyString => [EmptyString]
  | String c s' =>
    if Ascii.eqb c sep then EmptyString :: split_on sep s'
    else match split_on sep s' with
         | p :: ps => String c p :: ps
         | [] => [String c EmptyString]
         end
  end.

(** [parts[-2] if len(parts) >= 2 else "TOKEN0"] and
    [parts[-1] if len(parts) >= 1 else "TOKEN1"] *)
Definition tokens_of_label (label : string) : string * string :=
  let parts := split_on "_"%char label in
  (match rev parts with _ :: p :: _ => p | _ => "TOKEN0" end,
   match rev parts with p :: _ => p | [] => "TOKEN1" end).

(** [config.get("pairAddress") or config.get("address", "")] *)
Definition address_of (config : gmap string string) : string :=
  match config !! "pairAddress" with
  | Some a => if bool_decide (a = "") then default "" (config !! "address") else a
  | None => default "" (config !! "address")
  end.

(** The body of the loop of [get_markets] for one [dex_pool] entry. *)
Definition market_of_config (db : Store.Database) (config : gmap string string)
  : result Market :=
  label ← getitem config "label";
  let market_id := calc_market_id label in
  '(level, score, last_updated) ← get_latest_risk_level db market_id;
  let '(token0, token1) :=
    if bool_decide (is_Some (config !! "pairAddress"))
       || bool_decide (is_Some (config !! "address"))
    then tokens_of_label label
    else ("TOKEN0", "TOKEN1") in
  Ok {| id := label; label := label;
        type := default "dex_pool" (config !! "type");
        address := address_of config;
        token0 := token0; token1 := token1;
        riskLevel := level; riskScore := score;
        lastUpdated := last_updated; isActive := true |}.

(** GET /api/markets *)
Definition get_markets (file : Store.ConfigFile) (db : Store.Database)
  : result (list Market) :=
  markets_config ← load_markets_config file;
  mapM (market_of_config db)
       (filter (fun config : gmap string string => config !! "type" = Some "dex_pool")
               markets_config).

(** The search loop of [get_market_detail]. *)
Fixpoint find_config (market_id : string) (configs : list (gmap string string))
  : result (option (gmap string string)) :=
  match configs with
  | [] => Ok None
  | config :: rest =>
    label ← getitem config "label";
    if bool_decide (label = market_id) then Ok (Some config)
    else find_config market_id rest
  end.

(** GET /api/markets/{market_id} *)
Definition get_market_detail (file : Store.ConfigFile) (db : Store.Database)
           (market_id : string) : result Market :=
  markets_config ← load_markets_config file;
  found ← find_config market_id markets_config;
  match found with
  | None => Raise (HTTPException 404 "Market not found")
  | Some market_config =>
    let market_id_hash := calc_market_id market_id in
    '(level, score, last_updated) ← get_latest_risk_level db market_id_hash;
    let '(token0, token1) := tokens_of_label market_id in
    Ok {| id := market_id; label := market_id;
          type := default "dex_pool" (market_config !! "type");
          address := address_of market_config;
          token0 := token0; token1 := token1;
          riskLevel := level; riskScore := score;
          lastUpdated := last_updated; isActive := true |}
  end.

(** GET /api/markets/{market_id}/risk-history. [cutoff] is
    [(datetime.now() - timedelta(hours=hours)).isoformat()]; the bounds of
    [Query(24, ge=1, le=168)] are checked before the handler runs. *)
Definition get_risk_history (db : Store.Database) (cutoff : Z -> string)
           (market_id : string) (hours : Z) : result (list RiskHistoryPoint) :=
  if negb ((1 <=? hours) && (hours <=? 168))
  then Raise (HTTPException 422 "hours out of range")
  else
    let market_id_hash := calc_market_id market_id in
    let cutoff_time := cutoff hours in
    let rows :=
      order_by (created_at_asc Store.created_at)
               (filter (fun r => Store.market_id r = market_id_hash
                                 ∧ String.leb cutoff_time (Store.created_at r) = true)
                       (Store.risk_levels db)) in
    mapM (fun row =>
            let level := Store.level row in
            score ← score_of_level level;
            Ok {| timestamp := Store.created_at row; level := level;
                  score := score |})
         rows.

(** *** Alerts *)

(** The scalar subquery of [get_alerts]: the level of the row of the same
    market with the greatest smaller id. *)
Definition prev_level_of (rows : list Store.RiskLevelRow)
           (r1 : Store.RiskLevelRow) : option Z :=
  Store.level <$>
    head (order_by id_desc
                   (filter (fun r2 => Store.market_id r2 = Store.market_id r1
                                      ∧ Store.id r2 < Store.id r1) rows)).

(** The query of [get_alerts]: every row with its predecessor's level,
    newest first, 50 at most. *)
Definition alert_rows (db : Store.Database)
  : list (Store.RiskLevelRow * option Z) :=
  let rows := Store.risk_levels db in
  firstn 50
    (order_by (created_at_desc (fun rp => Store.created_at rp.1))
              (map (fun r1 => (r1, prev_level_of rows r1)) rows)).

Definition severity_map : gmap Z string :=
  {[ 0 := "low"; 1 := "medium"; 2 := "high"; 3 := "critical" ]}.

(** [str(x)] of an optional int, as an f-string prints it. *)
Definition str_of_int (z : Z) : string := NilZero.string_of_int (Z.to_int z).
Definition str_of_opt_int (o : option Z) : string :=
  match o with
  | None => "None"
  | Some z => str_of_int z
  end.

(** [{calc_market_id(m["label"]): m["label"] for m in markets_config}] *)
Definition market_labels_of (markets_config : list (gmap string string))
  : result (gmap string string) :=
  for_each (fun (d : gmap string string) (m : gmap string string) =>
              label ← getitem m "label";
              Ok (<[calc_market_id label := label]> d))
           ∅ markets_config.

(** [Alert(id=alert_id, ..., createdAt=created_at)] for a row and its
predecessor's level. *)
Definition make_alert (market_labels : gmap string string)
           (row : Store.RiskLevelRow * option Z) : Alert :=
  let alert_id := Store.id row.1 in
  let market_id := Store.market_id row.1 in
  let new_level := Store.level row.1 in
  let created_at := Store.created_at row.1 in
  let prev_level := row.2 in
  let alert_severity := default "low" (severity_map !! new_level) in
  let market_label :=
    default (substring 0 8 market_id) (market_labels !! market_id) in
  {| alert_id := alert_id; marketId := market_id;
     marketLabel := market_label;
     alert_type := "risk_level_change";
     severity := alert_severity;
     previousLevel := prev_level; newLevel := new_level;
     message := "Risk level changed from " ++ str_of_opt_int prev_level
                  ++ " to " ++ str_of_int new_level;
     isResolved := false; createdAt := created_at |}.

(** The body of the loop over the rows: the alert, if the row yields
one. *)
Definition alert_of_row (market_labels : gmap string string)
           (severity : option string) (row : Store.RiskLevelRow * option Z)
  : option Alert :=
  let new_level := Store.level row.1 in
  let prev_level := row.2 in
  if bool_decide (prev_level = None)
     || negb (bool_decide (prev_level = Some new_level))
  then
    let alert_severity := default "low" (severity_map !! new_level) in
    (* if severity and alert_severity != severity: continue *)
    let skip :=
      match severity with
      | Some wanted =>
        negb (bool_decide (wanted = ""))
        && negb (bool_decide (alert_severity = wanted))
      | None => false
      end in
    if skip then None else Some (make_alert market_labels row)
  else None.

(** GET /api/alerts *)
Definition get_alerts (file : Store.ConfigFile) (db : Store.Database)
           (severity : option string) : result (list Alert) :=
  let rows := alert_rows db in
  markets_config ← load_markets_config file;
  market_labels ← market_labels_of markets_config;
  Ok (omap (alert_of_row market_labels severity) rows).

(** *** Overview *)

Record OverviewStats : Type := {
  totalMarkets : Z;
  highRiskMarkets : Z;
  todayTransactions : Z;
  unresolvedAlerts : Z
}.

(** The body of the loop that counts the markets at level 2 or 3. *)
Definition count_if_high_risk (db : Store.Database) (high_risk_count : Z)
           (market : gmap string string) : result Z :=
  label ← getitem market "label";
  let market_id := calc_market_id label in
  '(level, _, _) ← get_latest_risk_level db market_id;
  Ok (if level >=? 2 then high_risk_count + 1 else high_risk_count).

(** GET /api/stats/overview. [today] is [date('now')] and [day_ago] is
[datetime('now', '-24 hours')], as SQLite prints them; a [COUNT] is never
null, so that [or 0] leaves it as it is. *)
Definition get_overview_stats (file : Store.ConfigFile) (db : Store.Database)
           (today day_ago : string) : result OverviewStats :=
  markets_config ← load_markets_config file;
  let dex_markets :=
    filter (fun m : gmap string string => m !! "type" = Some "dex_pool")
           markets_config in
  let total_markets := Z.of_nat (length dex_markets) in
  high_risk_count ← for_each (count_if_high_risk db) 0 dex_markets;
  let today_tx :=
    Z.of_nat (length (filter (fun t : Store.Trade * string =>
                                String.leb today t.2 = true)
                             (Store.trades db))) in
  let unresolved_alerts :=
    Z.of_nat (length (filter (fun r => 2 <= Store.level r
                                       /\ String.leb day_ago (Store.created_at r) = true)
                             (Store.risk_levels db))) in
  Ok {| totalMarkets := total_markets; highRiskMarkets := high_risk_count;
        todayTransactions := today_tx; unresolvedAlerts := unresolved_alerts |}.

End ApiServer.

(** ** The design document's wording, for comparison with the code *)

Module Design.

(** A history paired with the level that precedes each row: none for the
first. *)
Fixpoint with_previous (previous : option Z) (rows : list Store.RiskLevelRow)
  : list (Store.RiskLevelRow * option Z) :=
  match rows with
  | [] => []
  | r :: rest => (r, previous) :: with_previous (Some (Store.level r)) rest
  end.

(** The rows of one market, in the order of their ids and of their
timestamps. *)
Definition history_of (market_id : string) (rows : list Store.RiskLevelRow)
  : Prop :=
  Forall (fun r => Store.market_id r = market_id) rows
  /\ StronglySorted (fun a b => Store.id a < Store.id b) rows
  /\ StronglySorted
       (fun a b => String.ltb (Store.created_at a) (Store.created_at b) = true)
       rows.

(** A row is a transition when it has no predecessor or its level differs
from its predecessor's. *)
Definition is_transition (row : Store.RiskLevelRow * option Z) : bool :=
  match row.2 with
  | None => true
  | Some previous => negb (previous =? Store.level row.1)
  end.

(** The rows of a market. *)
Definition rows_of (db : Store.Database) (market_id : string)
  : list Store.RiskLevelRow :=
  filter (fun r => Store.market_id r = market_id) (Store.risk_levels db).

(** What a market object shows of the risk levels: the level and the
creation time of one of the rows of the market, with the score of that
level; level 0, score 0.0 and no time when the market has no row. *)
Definition market_scored (db : Store.Database) (m : ApiServer.Market) : Prop :=
  match rows_of db (ApiServer.calc_market_id (ApiServer.id m)) with
  | [] =>
    ApiServer.riskLevel m = 0
    /\ ApiServer.riskScore m = ApiServer.lit_0_0
    /\ ApiServer.lastUpdated m = None
  | rows =>
    ApiServer.score_of_level (ApiServer.riskLevel m) = Ok (ApiServer.riskScore m)
    /\ exists row,
         In row rows
         /\ ApiServer.riskLevel m = Store.level row
         /\ ApiServer.lastUpdated m = Some (Store.created_at row)
  end.

(** The value of a number, when it is finite. *)
Definition value (x : num) : option Q :=
  match x with
  | Int z => Some (inject_Z z)
  | Flt f => Q_of_float f
  end.

(** *** The composite score of section 4.7 *)

Definition level_of_total (total : Z) : Z :=
  if total <? 20 then 0
  else if total <? 40 then 1
  else if total <? 70 then 2
  else 3.

(** [+ n] when the condition holds. *)
Definition points (holds : bool) (n : Z) : Z := if holds then n else 0.

(** Section 4.7 with every quantity a rational number. *)
Definition within (lo x hi : Q) : bool := Qle_bool lo x && negb (Qle_bool hi x).

Definition exact_dex (liquidity dex_volume dex_trades : Z) : Z :=
  let baseline := (inject_Z liquidity * (1 # 100))%Q in
  let r := if Qeq_bool baseline 0 then 0%Q
           else (inject_Z dex_volume / baseline)%Q in
  points (within 1 r 2) 10 + points (within 2 r 5) 20 + points (Qle_bool 5 r) 30
  + points (dex_trades >? 200) 10.

Definition exact_whale (liquidity whale_sell_total whale_count_selling : Z) : Z :=
  let p := (inject_Z whale_sell_total / inject_Z liquidity)%Q in
  points (within (1 # 1000) p (1 # 100)) 10
  + points (within (1 # 100) p (3 # 100)) 20
  + points (Qle_bool (3 # 100) p) 30
  + points (whale_count_selling >=? 3) 5.

Definition exact_cex (liquidity cex_net_inflow : Z) : Z :=
  let c := inject_Z cex_net_inflow in
  let lo := ((5 # 1000) * inject_Z liquidity)%Q in
  let hi := ((2 # 100) * inject_Z liquidity)%Q in
  points (negb (Qle_bool c 0) && negb (Qle_bool lo c)) 10
  + points (within lo c hi) 20
  + points (Qle_bool hi c) 30.

Definition exact_level (m : Monitor.Metrics) : Z :=
  let liquidity := Z.max 1 (Monitor.pool_liquidity m) in
  level_of_total
    (exact_dex liquidity (Monitor.dex_volume m) (Monitor.dex_trades m)
     + exact_whale liquidity (Monitor.whale_sell_total m)
                   (Monitor.whale_count_selling m)
     + exact_cex liquidity (Monitor.cex_net_inflow m)).

(** Section 4.7 as Python evaluates it. A decimal literal is the double
nearest to it. The baseline [L * 0.01] and the thresholds [0.005 * L] and
[0.02 * L] are the rounded products of a literal and the double nearest to
the integer [L]. The ratio [r] is the rounded quotient of the double
nearest to the DEX volume by the baseline. The ratio [p] is a quotient of
two integers: the exact quotient, rounded once. An integer is compared
with a double as it is, without rounding. *)
Definition double (z : Z) : float := nearest_double_of_int z.
Definition times (x y : float) : float := SFmul prec emax x y.
Definition over (x y : float) : float := SFdiv prec emax x y.

Definition double_dex (liquidity dex_volume dex_trades : Z) : Z :=
  let baseline := times (double liquidity) (literal 1 100) in
  let r := if float_is_zero baseline then Int 0
           else Flt (over (double dex_volume) baseline) in
  points (le (Int 1) r && lt r (Int 2)) 10
  + points (le (Int 2) r && lt r (Int 5)) 20
  + points (le (Int 5) r) 30
  + points (dex_trades >? 200) 10.

Definition double_whale (liquidity whale_sell_total whale_count_selling : Z)
  : Z :=
  let p := Flt (nearest_double_of_quotient whale_sell_total liquidity) in
  points (le (Flt (literal 1 1000)) p && lt p (Flt (literal 1 100))) 10
  + points (le (Flt (literal 1 100)) p && lt p (Flt (literal 3 100))) 20
  + points (le (Flt (literal 3 100)) p) 30
  + points (whale_count_selling >=? 3) 5.

Definition double_cex (liquidity cex_net_inflow : Z) : Z :=
  let c := Int cex_net_inflow in
  let lo := Flt (times (literal 5 1000) (double liquidity)) in
  let hi := Flt (times (literal 2 100) (double liquidity)) in
  points (lt (Int 0) c && lt c lo) 10
  + points (le lo c && lt c hi) 20
  + points (le hi c) 30.

Definition double_scored (m : Monitor.Metrics) : Monitor.Scored :=
  let liquidity := Z.max 1 (Monitor.pool_liquidity m) in
  let dex := double_dex liquidity (Monitor.dex_volume m) (Monitor.dex_trades m) in
  let whale := double_whale liquidity (Monitor.whale_sell_total m)
                            (Monitor.whale_count_selling m) in
  let cex := double_cex liquidity (Monitor.cex_net_inflow m) in
  {| Monitor.dex_score := dex; Monitor.whale_score := whale;
     Monitor.cex_score := cex; Monitor.score := dex + whale + cex;
     Monitor.level := level_of_total (dex + whale + cex) |}.

(** An integer that a double can hold with room to spare. *)
Definition in_range (z : Z) : Prop := Z.abs z < 2 ^ 1023.

(** *** Words for the properties of the analytics and of the API *)

(** An entry of markets.json that configures a DEX pool. *)
Abbreviation is_dex_pool :=
  (fun config : gmap string string => config !! "type" = Some "dex_pool").

(** A token name: a string without underscore. *)
Definition no_underscore (s : string) : Prop :=
  Forall (fun c => c <> "_"%char) (list_ascii_of_string s).

(** The markets of a list that are at level 2 or 3. *)
Definition count_high_risk (markets : list ApiServer.Market) : Z :=
  Z.of_nat (length (filter (fun m => 2 <= ApiServer.riskLevel m) markets)).

(** Addresses that the codec of Web3 accepts, as they are and once
checksummed. *)
Definition valid_addresses (env : WhaleCex.Env) (addresses : list string) : Prop :=
  Forall (fun a => exists c c',
              WhaleCex.to_checksum_address env a = Ok c
              /\ WhaleCex.to_checksum_address env c = Ok c')
         addresses.

(** The block explorer gives nothing: no key is set, or every request
fails or comes back with a JSON object whose status is not 1. *)
Definition explorer_silent (env : WhaleCex.Env) : Prop :=
  WhaleCex.ETHERSCAN_API_KEY env = None
  \/ WhaleCex.ETHERSCAN_API_KEY env = Some ""
  \/ forall url query,
       match WhaleCex.requests_get_json env url query with
       | Ok (WhaleCex.JsonObject data) => WhaleCex.data_status data <> Some "1"
       | Ok (WhaleCex.JsonOther _) => False
       | Raise _ => True
       end.

(** The block explorer answers every request with a JSON value that is
not an object, of the given Python type, and a key is set. *)
Definition explorer_not_an_object (env : WhaleCex.Env) (python_type : string)
  : Prop :=
  (exists key, WhaleCex.ETHERSCAN_API_KEY env = Some key /\ key <> "")
  /\ forall url query,
       WhaleCex.requests_get_json env url query
       = Ok (WhaleCex.JsonOther python_type).





(** A positive double, finite or not. *)
Definition positive_double (f : float) : Prop :=
  (exists m e, f = S754_finite false m e) \/ f = S754_infinity false.

(** The reserves of a pair are [uint112] values, as the ABI of
[getReserves] declares them. *)
Definition uint112_reserves (env : WhaleCex.Env) : Prop :=
  forall network address reserve0 reserve1 ts,
    WhaleCex.getReserves env network address = Ok (reserve0, reserve1, ts) ->
    0 <= reserve0 < 2 ^ 112 /\ 0 <= reserve1 < 2 ^ 112.

End Design.

(** ** Sample data *)

Module Sample.

Definition label : string := "UNISWAP_USDC_WETH".
Definition pool : string := "0xB4e16d0168e52d35CaCD2c6185b44281Ec28C9Dc".

Definition markets : list (gmap string string) :=
  [ {[ "label" := label; "type" := "dex_pool"; "pairAddress" := pool ]};
    {[ "label" := "WHALE_1"; "type" := "whale";
       "address" := "0x28C6c06298d514Db089934071355E5743bf21d60" ]} ].

Definition file : Store.ConfigFile := Store.Json markets.

Definition row (id level : Z) (created_at : string) : Store.RiskLevelRow :=
  {| Store.id := id; Store.market_id := ApiServer.calc_market_id label;
     Store.level := level; Store.source := "multi_factor";
     Store.created_at := created_at |}.

(** Levels 0, 0, 1, 1, 2 of one market, a minute apart. *)
Definition history : Store.Database :=
  {| Store.trades := [];
     Store.risk_levels :=
       [ row 1 0 "2024-01-01T00:00:00"; row 2 0 "2024-01-01T00:01:00";
         row 3 1 "2024-01-01T00:02:00"; row 4 1 "2024-01-01T00:03:00";
         row 5 2 "2024-01-01T00:04:00" ] |}.

Definition empty : Store.Database :=
  {| Store.trades := []; Store.risk_levels := [] |}.

(** A node that answers: block 19000000, reserves 600 and 400. *)
Definition env : WhaleCex.Env :=
  {| WhaleCex.ETHERSCAN_API_KEY := None;
     WhaleCex.requests_get_json := fun _ _ => Raise (ExternalError "offline");
     WhaleCex.block_number := fun _ => Ok 19000000;
     WhaleCex.getReserves := fun _ _ => Ok (600, 400, 1700000000);
     WhaleCex.to_checksum_address := fun a => Ok a |}.

(** A node that is down. *)
Definition env_down : WhaleCex.Env :=
  {| WhaleCex.ETHERSCAN_API_KEY := None;
     WhaleCex.requests_get_json := fun _ _ => Raise (ExternalError "offline");
     WhaleCex.block_number := fun _ => Raise (ExternalError "offline");
     WhaleCex.getReserves := fun _ _ => Raise (ExternalError "offline");
     WhaleCex.to_checksum_address := fun a => Ok a |}.

Definition world : Monitor.World :=
  {| Monitor.env := env;
     Monitor.fetch_recent_swaps := fun _ _ _ => Ok [];
     Monitor.now := "2024-01-01T00:05:00";
     Monitor.PRIVATE_KEY := Some "0x01";
     Monitor.send_raw_transaction := fun _ _ _ => Ok "0xfeed" |}.

Definition sys : Monitor.Sys := {| Monitor.db := empty; Monitor.broadcast := [] |}.

(** The vectors of section 8 of the design document. *)
Definition boundaries : Monitor.Metrics :=
  {| Monitor.dex_volume := 15000; Monitor.dex_trades := 50;
     Monitor.whale_sell_total := 5000; Monitor.whale_count_selling := 1;
     Monitor.cex_net_inflow := 3000; Monitor.pool_liquidity := 1000000 |}.

Definition high_case : Monitor.Metrics :=
  {| Monitor.dex_volume := 60000; Monitor.dex_trades := 250;
     Monitor.whale_sell_total := 40000; Monitor.whale_count_selling := 5;
     Monitor.cex_net_inflow := 25000; Monitor.pool_liquidity := 1000000 |}.

(** A pool of 140 units, a volume of 7 and 201 swaps. *)
Definition ratio_five : Monitor.Metrics :=
  {| Monitor.dex_volume := 7; Monitor.dex_trades := 201;
     Monitor.whale_sell_total := 0; Monitor.whale_count_selling := 0;
     Monitor.cex_net_inflow := 0; Monitor.pool_liquidity := 140 |}.

(** A volume too large for a double. *)
Definition huge_volume : Monitor.Metrics :=
  {| Monitor.dex_volume := 2 ^ 1024; Monitor.dex_trades := 0;
     Monitor.whale_sell_total := 0; Monitor.whale_count_selling := 0;
     Monitor.cex_net_inflow := 0; Monitor.pool_liquidity := 1000000 |}.

(** A pool with a negative liquidity and a small net outflow. *)
Definition negative_pool : Monitor.Metrics :=
  {| Monitor.dex_volume := 0; Monitor.dex_trades := 0;
     Monitor.whale_sell_total := 0; Monitor.whale_count_selling := 0;
     Monitor.cex_net_inflow := -1; Monitor.pool_liquidity := -100 |}.

(** The vector of section 8.2 over an empty pool. *)
Definition zero_liquidity : Monitor.Metrics :=
  {| Monitor.dex_volume := 15000; Monitor.dex_trades := 50;
     Monitor.whale_sell_total := 5000; Monitor.whale_count_selling := 1;
     Monitor.cex_net_inflow := 3000; Monitor.pool_liquidity := 0 |}.

Definition whale : string := "0x28C6c06298d514Db089934071355E5743bf21d60".
Definition exchange : string := "0x3f5CE5FBFe3E9af3971dD833D26bA9b5C936f0bE".

(** Four transfers as the block explorer lists them, addresses in lower
case: the whale to the pool, the whale to a third party, a third party to
the exchange, the exchange to a third party. *)
Definition transfers : list (gmap string string) :=
  [ {[ "from" := lower whale; "to" := lower pool; "value" := "1500" ]};
    {[ "from" := lower whale;
       "to" := "0x0000000000000000000000000000000000000001"; "value" := "700" ]};
    {[ "from" := "0x0000000000000000000000000000000000000002";
       "to" := lower exchange; "value" := "40" ]};
    {[ "from" := lower exchange;
       "to" := "0x0000000000000000000000000000000000000003"; "value" := "15" ]} ].

(** A block explorer that answers every query with these transfers. *)
Definition env_indexed : WhaleCex.Env :=
  {| WhaleCex.ETHERSCAN_API_KEY := Some "KEY";
     WhaleCex.requests_get_json := fun _ _ =>
       Ok (WhaleCex.JsonObject
             {| WhaleCex.data_status := Some "1";
                WhaleCex.data_result := Some transfers |});
     WhaleCex.block_number := fun _ => Ok 19000000;
     WhaleCex.getReserves := fun _ _ => Ok (600, 400, 1700000000);
     WhaleCex.to_checksum_address := fun a => Ok a |}.

(** A block explorer that answers every query with [null]. *)
Definition env_null : WhaleCex.Env :=
  {| WhaleCex.ETHERSCAN_API_KEY := Some "KEY";
     WhaleCex.requests_get_json := fun _ _ => Ok (WhaleCex.JsonOther "NoneType");
     WhaleCex.block_number := fun _ => Ok 19000000;
     WhaleCex.getReserves := fun _ _ => Ok (600, 400, 1700000000);
     WhaleCex.to_checksum_address := fun a => Ok a |}.

(** A world without a signing key. *)
Definition world_without_key : Monitor.World :=
  {| Monitor.env := env;
     Monitor.fetch_recent_swaps := fun _ _ _ => Ok [];
     Monitor.now := "2024-01-01T00:05:00";
     Monitor.PRIVATE_KEY := None;
     Monitor.send_raw_transaction := fun _ _ _ => Ok "0xfeed" |}.

(** What the monitor fixes for the sample pool. *)
Definition setup : Monitor.Setup :=
  {| Monitor.pair_address := pool; Monitor.label := label;
     Monitor.market_id := Monitor.calc_market_id label;
     Monitor.whales := [whale]; Monitor.cex_addresses := [exchange];
     Monitor.blocks_back := 2000 |}.

(** A pool configured with [address] in place of [pairAddress]. *)
Definition pool_by_address : gmap string string :=
  {[ "label" := label; "type" := "dex_pool"; "address" := pool ]}.

(** A quiet market over an empty pool. *)
Definition quiet : Monitor.Metrics :=
  {| Monitor.dex_volume := 0; Monitor.dex_trades := 200;
     Monitor.whale_sell_total := 0; Monitor.whale_count_selling := 2;
     Monitor.cex_net_inflow := -5; Monitor.pool_liquidity := 0 |}.

(** The vector of section 8.2 with more swaps, more selling whales and a
larger inflow. *)
Definition busier : Monitor.Metrics :=
  {| Monitor.dex_volume := 15000; Monitor.dex_trades := 250;
     Monitor.whale_sell_total := 5000; Monitor.whale_count_selling := 5;
     Monitor.cex_net_inflow := 25000; Monitor.pool_liquidity := 1000000 |}.

(** Two swaps, one with its amount as an integer and one as a string. *)
Definition swap (hash : string) (amount : pyval) : Store.Trade :=
  {| Store.tx_hash := hash; Store.trade_block_number := 19000000;
     Store.timestamp := 1700000000; Store.token_in := "USDC";
     Store.token_out := "WETH"; Store.amount_in := amount;
     Store.amount_out := VInt 1 |}.
Definition swaps : list Store.Trade := [swap "0xa1" (VInt 5); swap "0xa2" (VStr "7")].

End Sample.


(** * Properties *)

Local Open Scope list_scope.

(** ** Keyword calls and the whale metrics (step 3 of a cycle) *)

Section WhaleCall.

Variable env : WhaleCex.Env.
Variables whales cex_addresses : list string.
Variable blocks_back : Z.

(** The call of [monitor_loop], lines 203-208: four keywords, none of them
    [pair_address]. *)
Definition monitor_call : list (string * pyval) :=
  [ ("whales", VList whales); ("cex_addresses", VList cex_addresses);
    ("blocks_back", VInt blocks_back); ("network", VStr "mainnet") ].

Lemma bind_monitor_call :
  bind_args WhaleCex.fetch_whale_metrics_sig monitor_call
  = Raise (TypeError
      "fetch_whale_metrics() missing 1 required positional argument: 'pair_address'").
Proof. reflexivity. Qed.

Lemma whale_call_type_error :
  WhaleCex.fetch_whale_metrics env monitor_call
  = Raise (TypeError
      "fetch_whale_metrics() missing 1 required positional argument: 'pair_address'").
Proof. unfold WhaleCex.fetch_whale_metrics. rewrite bind_monitor_call. reflexivity. Qed.

(** With the pool address among the keywords the parameters bind, and the
    body runs: without whales it returns [(0, 0)] at once. *)
Lemma whale_call_with_pair_address (pair_address : string) :
  WhaleCex.fetch_whale_metrics env
    (("pair_address", VStr pair_address) :: monitor_call)
  = WhaleCex.fetch_whale_metrics_body env whales cex_addresses pair_address
                                      blocks_back "mainnet".
Proof. reflexivity. Qed.

End WhaleCall.

(** C1 (fails on the code). The design has step 3 of every cycle call
    [fetch_whale_metrics] with the whale list, the exchange list and the
    pool address, and complete. The call the monitor makes leaves
    [pair_address] out, a parameter without default: whatever the lists
    and the world are, the call raises [TypeError] before the body runs. *)
Theorem monitor_whale_metrics_call_raises
        (env : WhaleCex.Env) (whales cex_addresses : list string) (blocks_back : Z) :
  WhaleCex.fetch_whale_metrics env
    [ ("whales", VList whales); ("cex_addresses", VList cex_addresses);
      ("blocks_back", VInt blocks_back); ("network", VStr "mainnet") ]
  = Raise (TypeError
      "fetch_whale_metrics() missing 1 required positional argument: 'pair_address'").
Proof. apply whale_call_type_error. Qed.

(** ** The monitoring loop *)

Section Loop.

Import Monitor.

(** A cycle never gets past step 3: it raises, and neither the
    risk-level table nor the list of broadcasts has changed. *)
Lemma monitor_cycle_raises (w : World) (c : Setup) (last_level : option Z)
      (s : Sys) :
  exists e s',
    monitor_cycle w c last_level s = (Raise e, s')
    /\ Store.risk_levels (db s') = Store.risk_levels (db s)
    /\ broadcast s' = broadcast s.
Proof.
  unfold monitor_cycle, mbind, M_bind, lift, modify_db.
  destruct (fetch_recent_swaps w _ _ _) as [trades | e]; [| eauto].
  destruct (sum_amount_in trades) as [dex_volume | e]; [| eauto].
  fold (monitor_call (whales c) (cex_addresses c) (blocks_back c)).
  rewrite whale_call_type_error. eauto.
Qed.

(** When the swaps arrive and their amounts are integers, the exception
    of the cycle is the [TypeError] of step 3; the swaps have been
    stored. *)
Lemma monitor_cycle_type_error (w : World) (c : Setup)
      (last_level : option Z) (s : Sys) trades dex_volume :
  fetch_recent_swaps w (pair_address c) (blocks_back c) "mainnet" = Ok trades ->
  sum_amount_in trades = Ok dex_volume ->
  monitor_cycle w c last_level s
  = (Raise (TypeError
       "fetch_whale_metrics() missing 1 required positional argument: 'pair_address'"),
     {| db := Store.save_trades (now w) trades (db s);
        broadcast := broadcast s |}).
Proof.
  intros Hswaps Hsum.
  unfold monitor_cycle, mbind, M_bind, lift, modify_db.
  rewrite Hswaps, Hsum.
  fold (monitor_call (whales c) (cex_addresses c) (blocks_back c)).
  rewrite whale_call_type_error. reflexivity.
Qed.

(** Lines 240-256 on their own: one row is appended, tagged
    [multi_factor]; a transaction goes out exactly when [last_level] is
    unset or differs from the level, and then [last_level] becomes the
    level. *)
Lemma persist_and_publish_spec (w : World) (c : Setup)
      (last_level : option Z) (level : Z) (s : Sys) key tx_hash :
  PRIVATE_KEY w = Some key -> key <> "" ->
  send_raw_transaction w key (market_id c) level = Ok tx_hash ->
  let row :=
    {| Store.id := Store.next_id (Store.risk_levels (db s));
       Store.market_id := Keccak.hex (market_id c);
       Store.level := level; Store.source := "multi_factor";
       Store.created_at := now w |} in
  let stored :=
    {| Store.trades := Store.trades (db s);
       Store.risk_levels := Store.risk_levels (db s) ++ [row] |} in
  persist_and_publish w c last_level level s
  = if bool_decide (last_level = None \/ last_level <> Some level)
    then (Ok (Some level),
          {| db := stored; broadcast := broadcast s ++ [(market_id c, level)] |})
    else (Ok last_level, {| db := stored; broadcast := broadcast s |}).
Proof.
  intros Hkey Hne Hsend row stored.
  unfold persist_and_publish, send_update_risk_tx, mbind, M_bind, lift,
    modify_db, record_broadcast, mret, M_ret.
  cbn [db broadcast]. rewrite Hkey.
  destruct key as [| a key]; [congruence |].
  rewrite Hsend.
  destruct last_level as [l |]; repeat case_bool_decide; cbn;
    try reflexivity; exfalso; intuition congruence.
Qed.

End Loop.

(** C7 (fails on the code, through the defect of C1). The design has every
    cycle store a row and send a transaction when the level is the first or
    has changed. Every run of [monitor_loop] that enters the loop ends in an
    exception no later than step 3 of the first cycle: no row has been added
    to the risk-level table and no transaction has been sent, although
    [last_level] is unset in that cycle. *)
Theorem monitor_loop_never_persists
        (n : nat) (connect : result unit) (file : Store.ConfigFile)
        (worlds : nat -> Monitor.World) (blocks_back : Z) (s : Monitor.Sys) :
  exists e s',
    Monitor.monitor_loop (S n) connect file worlds blocks_back s = (Raise e, s')
    /\ Store.risk_levels (Monitor.db s') = Store.risk_levels (Monitor.db s)
    /\ Monitor.broadcast s' = Monitor.broadcast s.
Proof.
  unfold Monitor.monitor_loop, mbind, Monitor.M_bind, Monitor.lift.
  destruct (Monitor.setup connect file blocks_back) as [c | e]; [| eauto].
  cbn [Monitor.cycles]. unfold mbind, Monitor.M_bind.
  destruct (monitor_cycle_raises (worlds 0%nat) c None s) as (e & s' & -> & ?).
  eauto.
Qed.

(** ** Loading markets.json *)

(** C5, as stated, at a malformed file: the loader of the API server does
    not return the empty sequence, it lets the decoding error through. *)
Lemma api_loader_malformed_not_empty :
  ApiServer.load_markets_config Store.Malformed = Raise JSONDecodeError
  /\ ApiServer.load_markets_config Store.Malformed <> Ok [].
Proof. split; [reflexivity | discriminate]. Qed.

(** C5 (amended). The loader of the monitor raises when markets.json is
    missing or malformed, and the monitor stops before its first cycle; the
    loader of the API server returns the empty sequence when the file is
    missing, and raises the decoding error when it is malformed, so that the
    market list is empty in the first case and fails in the second. A file
    that holds a list is returned as it is by both. *)
Theorem load_markets_missing_and_malformed :
  Monitor.load_markets Store.Missing = Raise FileNotFoundError
  /\ Monitor.load_markets Store.Malformed = Raise JSONDecodeError
  /\ ApiServer.load_markets_config Store.Missing = Ok []
  /\ ApiServer.load_markets_config Store.Malformed = Raise JSONDecodeError
  /\ (forall entries,
        Monitor.load_markets (Store.Json entries) = Ok entries
        /\ ApiServer.load_markets_config (Store.Json entries) = Ok entries)
  /\ (forall n worlds blocks_back s,
        Monitor.monitor_loop n (Ok tt) Store.Missing worlds blocks_back s
          = (Raise FileNotFoundError, s)
        /\ Monitor.monitor_loop n (Ok tt) Store.Malformed worlds blocks_back s
          = (Raise JSONDecodeError, s))
  /\ (forall db,
        ApiServer.get_markets Store.Missing db = Ok []
        /\ ApiServer.get_markets Store.Malformed db = Raise JSONDecodeError).
Proof. repeat split. Qed.

(** ** Market ids *)

Lemma keccak256_length (msg : list Z) : length (Keccak.keccak256 msg) = 32%nat.
Proof. unfold Keccak.keccak256. rewrite length_map, length_seq. reflexivity. Qed.

Lemma keccak256_bytes (msg : list Z) :
  Forall (fun b => 0 <= b < 256) (Keccak.keccak256 msg).
Proof.
  unfold Keccak.keccak256. apply Forall_map, Forall_forall. intros i _.
  unfold Keccak.state_byte.
  change 255 with (Z.ones 8). rewrite Z.land_ones by lia.
  apply Z.mod_pos_bound. lia.
Qed.

(** The market id of the setup is the hash of its label. *)
Lemma setup_market_id connect file blocks_back c :
  Monitor.setup connect file blocks_back = Ok c ->
  Monitor.market_id c = Monitor.calc_market_id (Monitor.label c).
Proof.
  unfold Monitor.setup, mbind, result_bind. intros H.
  repeat match type of H with
         | match ?x with Ok _ => _ | Raise _ => _ end = Ok _ =>
           destruct x; [| discriminate]
         end.
  injection H as <-. reflexivity.
Qed.

(** The row that step 5 stores, whatever happens to the transaction. *)
Lemma persist_and_publish_row w c last_level level s :
  Store.risk_levels (Monitor.db (Monitor.persist_and_publish w c last_level level s).2)
  = (Store.risk_levels (Monitor.db s)
     ++ [ {| Store.id := Store.next_id (Store.risk_levels (Monitor.db s));
             Store.market_id := Keccak.hex (Monitor.market_id c);
             Store.level := level; Store.source := "multi_factor";
             Store.created_at := Monitor.now w |} ])%list.
Proof.
  unfold Monitor.persist_and_publish, Monitor.send_update_risk_tx, mbind,
    Monitor.M_bind, Monitor.lift, Monitor.modify_db, Monitor.record_broadcast,
    mret, Monitor.M_ret.
  cbn [Monitor.db Monitor.broadcast].
  destruct (_ || _); [| reflexivity].
  destruct (Monitor.PRIVATE_KEY w) as [[| a key] |]; try reflexivity.
  destruct (Monitor.send_raw_transaction w _ _ _); reflexivity.
Qed.

(** C6. The market id is a function of the label alone, in the monitor and
    in the API server: equal labels give equal ids; the id of the monitor is a
    string of 32 bytes, the Keccak-256 of the label; its hexadecimal form,
    which is the key of the rows the monitor stores, is the key the API
    server computes for the same label. *)
Theorem market_id_deterministic_and_shared :
  (forall l1 l2 : string,
      l1 = l2 ->
      Monitor.calc_market_id l1 = Monitor.calc_market_id l2
      /\ ApiServer.calc_market_id l1 = ApiServer.calc_market_id l2)
  /\ (forall label : string,
        length (Monitor.calc_market_id label) = 32%nat
        /\ Forall (fun b => 0 <= b < 256) (Monitor.calc_market_id label)
        /\ Keccak.hex (Monitor.calc_market_id label)
           = ApiServer.calc_market_id label)
  /\ (forall connect file blocks_back c w last_level level s,
        Monitor.setup connect file blocks_back = Ok c ->
        exists row,
          Store.risk_levels
            (Monitor.db (Monitor.persist_and_publish w c last_level level s).2)
          = (Store.risk_levels (Monitor.db s) ++ [row])%list
          /\ Store.market_id row = ApiServer.calc_market_id (Monitor.label c)).
Proof.
  split; [| split].
  - intros l1 l2 ->. split; reflexivity.
  - intros label. split; [| split].
    + apply keccak256_length.
    + apply keccak256_bytes.
    + reflexivity.
  - intros connect file blocks_back c w last_level level s Hsetup.
    eexists. split; [apply persist_and_publish_row |].
    cbn. rewrite (setup_market_id _ _ _ _ Hsetup). reflexivity.
Qed.

Lemma market_id_deterministic_and_shared_witness :
  exists row,
    Store.risk_levels
      (Monitor.db
         (Monitor.persist_and_publish
            Sample.world
            {| Monitor.pair_address := Sample.pool;
               Monitor.label := Sample.label;
               Monitor.market_id := Monitor.calc_market_id Sample.label;
               Monitor.whales := ["0x28C6c06298d514Db089934071355E5743bf21d60"];
               Monitor.cex_addresses := [];
               Monitor.blocks_back := 2000 |}
            None 1 Sample.sys).2)
    = [] ++ [row]
    /\ Store.market_id row = ApiServer.calc_market_id Sample.label.
Proof.
  destruct market_id_deterministic_and_shared as (_ & _ & Hrow).
  apply (Hrow (Ok tt) Sample.file 2000). reflexivity.
Defined.

(** ** Pool liquidity *)

(** C8. [estimate_pool_liquidity] returns the sum of the two reserves when
    the read succeeds and the sum is positive; it returns 10^24 when the sum
    is not positive and when the address or the read fails; its result is
    positive in every case. *)
Theorem estimate_pool_liquidity_spec
        (env : WhaleCex.Env) (pair_address network : string) :
  (forall address reserve0 reserve1 ts,
      WhaleCex.to_checksum_address env pair_address = Ok address ->
      WhaleCex.getReserves env network address = Ok (reserve0, reserve1, ts) ->
      (0 < reserve0 + reserve1 ->
       WhaleCex.estimate_pool_liquidity env pair_address network
       = reserve0 + reserve1)
      /\ (reserve0 + reserve1 <= 0 ->
          WhaleCex.estimate_pool_liquidity env pair_address network = 10 ^ 24))
  /\ (forall e,
        WhaleCex.to_checksum_address env pair_address = Raise e ->
        WhaleCex.estimate_pool_liquidity env pair_address network = 10 ^ 24)
  /\ (forall address e,
        WhaleCex.to_checksum_address env pair_address = Ok address ->
        WhaleCex.getReserves env network address = Raise e ->
        WhaleCex.estimate_pool_liquidity env pair_address network = 10 ^ 24)
  /\ 0 < WhaleCex.estimate_pool_liquidity env pair_address network.
Proof.
  unfold WhaleCex.estimate_pool_liquidity, WhaleCex.read_liquidity,
    WhaleCex.default_liquidity, mbind, result_bind.
  repeat split.
  - intros Hpos. rewrite H, H0.
    destruct (Z.leb_spec (reserve0 + reserve1) 0); [lia | reflexivity].
  - intros Hneg. rewrite H, H0.
    destruct (Z.leb_spec (reserve0 + reserve1) 0); [reflexivity | lia].
  - intros e ->. reflexivity.
  - intros address e -> ->. reflexivity.
  - destruct (WhaleCex.to_checksum_address env pair_address) as [address |];
      [| reflexivity].
    destruct (WhaleCex.getReserves env network address) as [[[r0 r1] ts] |];
      [| reflexivity].
    destruct (Z.leb_spec (r0 + r1) 0); [reflexivity | assumption].
Qed.

Lemma estimate_pool_liquidity_spec_witness :
  WhaleCex.estimate_pool_liquidity Sample.env Sample.pool "mainnet" = 600 + 400
  /\ WhaleCex.estimate_pool_liquidity Sample.env_down Sample.pool "mainnet"
     = 10 ^ 24.
Proof.
  split.
  - apply (proj1 (estimate_pool_liquidity_spec Sample.env Sample.pool "mainnet")
                 Sample.pool 600 400 1700000000 eq_refl eq_refl).
    lia.
  - apply (proj1 (proj2 (proj2 (estimate_pool_liquidity_spec
                                  Sample.env_down Sample.pool "mainnet")))
                 Sample.pool (ExternalError "offline") eq_refl eq_refl).
Defined.


(** ** Ordering rows *)

Lemma ascii_compare_lt_trans (a b c : ascii) :
  Ascii.compare a b = Lt -> Ascii.compare b c = Lt -> Ascii.compare a c = Lt.
Proof.
  unfold Ascii.compare. rewrite !N.compare_lt_iff. apply N.lt_trans.
Qed.

Lemma string_compare_lt_trans (s1 s2 s3 : string) :
  String.compare s1 s2 = Lt -> String.compare s2 s3 = Lt ->
  String.compare s1 s3 = Lt.
Proof.
  revert s2 s3.
  induction s1 as [| a s1 IH]; intros [| b s2] [| c s3]; cbn; try congruence.
  destruct (Ascii.compare a b) eqn:Hab; try discriminate;
    destruct (Ascii.compare b c) eqn:Hbc; try discriminate; intros H1 H2.
  - apply Ascii.compare_eq_iff in Hab, Hbc. subst.
    assert (Ascii.compare c c = Eq) as -> by (unfold Ascii.compare; apply N.compare_refl).
    eauto.
  - apply Ascii.compare_eq_iff in Hab. subst. rewrite Hbc. reflexivity.
  - apply Ascii.compare_eq_iff in Hbc. subst. rewrite Hab. reflexivity.
  - rewrite (ascii_compare_lt_trans _ _ _ Hab Hbc). reflexivity.
Qed.

Lemma string_ltb_trans (s1 s2 s3 : string) :
  String.ltb s1 s2 = true -> String.ltb s2 s3 = true -> String.ltb s1 s3 = true.
Proof.
  unfold String.ltb. intros H1 H2.
  destruct (String.compare s1 s2) eqn:H12; try discriminate.
  destruct (String.compare s2 s3) eqn:H23; try discriminate.
  rewrite (string_compare_lt_trans _ _ _ H12 H23). reflexivity.
Qed.

Section OrderBy.

Context {A : Type} (later : A -> A -> bool).

Lemma insert_by_Permutation (a : A) (l : list A) :
  ApiServer.insert_by later a l ≡ₚ a :: l.
Proof.
  induction l as [| b l IH]; cbn; [reflexivity |].
  destruct (later a b); [| reflexivity].
  rewrite IH. apply Permutation_swap.
Qed.

Lemma order_by_Permutation (l : list A) : ApiServer.order_by later l ≡ₚ l.
Proof.
  unfold ApiServer.order_by.
  induction l as [| a l IH]; cbn [fold_right]; [reflexivity |].
  rewrite insert_by_Permutation, IH. reflexivity.
Qed.

(** A row that comes after every row of the list goes to its end. *)
Lemma insert_by_last (a : A) (l : list A) :
  Forall (fun b => later a b = true) l ->
  ApiServer.insert_by later a l = (l ++ [a])%list.
Proof.
  induction 1 as [| b l Hb _ IH]; cbn; [reflexivity |].
  rewrite Hb, IH. reflexivity.
Qed.

(** A table whose earlier rows all come after its later rows is
    reversed. *)
Lemma order_by_rev (l : list A) :
  StronglySorted (fun a b => later a b = true) l ->
  ApiServer.order_by later l = rev l.
Proof.
  unfold ApiServer.order_by.
  induction 1 as [| a l _ IH Ha]; cbn [fold_right rev]; [reflexivity |].
  rewrite IH. apply insert_by_last.
  apply List.Forall_forall. intros b Hb.
  rewrite List.Forall_forall in Ha. apply Ha, in_rev, Hb.
Qed.

End OrderBy.

(** ** Alerts *)

Section Filter.

Context {A : Type} (P : A -> Prop) `{forall x, Decision (P x)}.

Lemma filter_all (l : list A) : Forall P l -> filter P l = l.
Proof.
  induction 1 as [| x l Hx _ IH]; [reflexivity |].
  rewrite filter_cons_True, IH by assumption. reflexivity.
Qed.

Lemma filter_none (l : list A) : Forall (fun x => ~ P x) l -> filter P l = [].
Proof.
  induction 1 as [| x l Hx _ IH]; [reflexivity |].
  rewrite filter_cons_False, IH by assumption. reflexivity.
Qed.

End Filter.

Lemma head_rev {A} (l : list A) : head (rev l) = last l.
Proof.
  induction l as [| x l _] using rev_ind; [reflexivity |].
  rewrite rev_unit, last_snoc. reflexivity.
Qed.

Lemma StronglySorted_weaken {A} (R R' : relation A) (l : list A) :
  (forall a b, R a b -> R' a b) -> StronglySorted R l -> StronglySorted R' l.
Proof.
  intros Himpl. induction 1 as [| a l _ IH Ha]; constructor; [exact IH |].
  eapply Forall_impl; [exact Ha | apply Himpl].
Qed.

Section Alerts.

Import ApiServer.

(** In the history of one market the rows a row looks back on are the rows
before it. *)
Lemma rows_before market_id before r after :
  Design.history_of market_id (before ++ r :: after) ->
  filter (fun r2 => Store.market_id r2 = Store.market_id r
                    /\ Store.id r2 < Store.id r) (before ++ r :: after)
  = before.
Proof.
  intros (Hmarket & Hid & _).
  apply StronglySorted_app in Hid as (Hcross & _ & Hright).
  apply StronglySorted_cons in Hright as [Hafter _].
  rewrite List.Forall_forall in Hmarket.
  rewrite filter_app, filter_cons_False by lia.
  rewrite (filter_none _ after), app_nil_r.
  - apply filter_all, List.Forall_forall. intros x Hx. split.
    + rewrite !Hmarket by (apply in_or_app; cbn; auto). reflexivity.
    + apply Hcross; [apply list_elem_of_In, Hx | left].
  - eapply Forall_impl; [exact Hafter |]. cbn. intros x Hx [_ Hlt]. lia.
Qed.

Lemma prev_level_of_history market_id before r after :
  Design.history_of market_id (before ++ r :: after) ->
  prev_level_of (before ++ r :: after) r = Store.level <$> last before.
Proof.
  intros Hhist. unfold prev_level_of.
  rewrite (rows_before _ _ _ _ Hhist).
  destruct Hhist as (_ & Hid & _).
  apply StronglySorted_app_1_l in Hid.
  rewrite order_by_rev, head_rev; [reflexivity |].
  eapply StronglySorted_weaken; [| exact Hid].
  intros a b Hab. apply Z.ltb_lt, Hab.
Qed.

Lemma previous_levels market_id before rows :
  Design.history_of market_id (before ++ rows) ->
  map (fun r1 => (r1, prev_level_of (before ++ rows) r1)) rows
  = Design.with_previous (Store.level <$> last before) rows.
Proof.
  revert before. induction rows as [| r rows IH]; intros before Hhist;
    [reflexivity |].
  cbn [map Design.with_previous].
  rewrite (prev_level_of_history _ _ _ _ Hhist). f_equal.
  replace (before ++ r :: rows)%list with ((before ++ [r]) ++ rows)%list in *
    by (rewrite <- app_assoc; reflexivity).
  rewrite (IH _ Hhist), last_snoc. reflexivity.
Qed.

Lemma with_previous_later previous (R : relation Store.RiskLevelRow) r rows :
  Forall (R r) rows ->
  Forall (fun rp => R r rp.1) (Design.with_previous previous rows).
Proof.
  intros Hall. revert previous.
  induction Hall as [| x rows Hx _ IH]; intros previous; cbn; constructor; auto.
Qed.

Lemma with_previous_sorted previous (R : relation Store.RiskLevelRow) rows :
  StronglySorted R rows ->
  StronglySorted (fun a b => R a.1 b.1) (Design.with_previous previous rows).
Proof.
  intros Hsorted. revert previous.
  induction Hsorted as [| r rows _ IH Hr]; intros previous; cbn; constructor;
    [apply IH |].
  apply (with_previous_later _ R r), Hr.
Qed.

(** The query of [get_alerts] on the history of one market: its rows from
the newest to the oldest, each with the level of the row before it, 50 at
most. *)
Lemma alert_rows_history market_id db :
  Design.history_of market_id (Store.risk_levels db) ->
  alert_rows db
  = firstn 50 (rev (Design.with_previous None (Store.risk_levels db))).
Proof.
  intros Hhist. unfold alert_rows.
  pose proof (previous_levels market_id [] _ Hhist) as Hprev.
  cbn in Hprev. rewrite Hprev.
  rewrite order_by_rev; [reflexivity |].
  destruct Hhist as (_ & _ & Htime).
  apply (with_previous_sorted None _ _ Htime).
Qed.

End Alerts.

Lemma severity_of_level (level : Z) :
  default "low" (ApiServer.severity_map !! level)
  ∈ ["low"; "medium"; "high"; "critical"].
Proof.
  unfold ApiServer.severity_map.
  rewrite !lookup_insert, lookup_singleton.
  repeat case_decide; cbn; set_solver.
Qed.

(** A severity that no alert can have filters every row out. *)
Lemma alert_of_row_unknown_severity labels wanted row :
  wanted <> "" ->
  wanted ∉ ["low"; "medium"; "high"; "critical"] ->
  ApiServer.alert_of_row labels (Some wanted) row = None.
Proof.
  intros Hne Hout. unfold ApiServer.alert_of_row.
  destruct (_ || _); [| reflexivity].
  rewrite (bool_decide_eq_false_2 (wanted = "")) by assumption.
  rewrite bool_decide_eq_false_2; [reflexivity |].
  intros Heq. apply Hout. rewrite <- Heq. apply severity_of_level.
Qed.

(** Without a filter, and with the empty string as the filter, a row
yields its alert exactly when it is a transition. *)
Lemma alert_of_row_unfiltered labels severity row :
  severity = None \/ severity = Some "" ->
  ApiServer.alert_of_row labels severity row
  = if Design.is_transition row
    then Some (ApiServer.make_alert labels row) else None.
Proof.
  intros Hsev. unfold ApiServer.alert_of_row, Design.is_transition.
  destruct row as [r [previous |]]; cbn [fst snd].
  - destruct (Z.eqb_spec previous (Store.level r)) as [-> | Hne].
    + rewrite bool_decide_eq_false_2 by discriminate.
      rewrite bool_decide_eq_true_2 by reflexivity. reflexivity.
    + rewrite bool_decide_eq_false_2 by discriminate.
      rewrite bool_decide_eq_false_2 by congruence.
      destruct Hsev as [-> | ->]; reflexivity.
  - destruct Hsev as [-> | ->]; reflexivity.
Qed.

Lemma omap_unknown_severity labels wanted rows :
  wanted <> "" ->
  wanted ∉ ["low"; "medium"; "high"; "critical"] ->
  omap (ApiServer.alert_of_row labels (Some wanted)) rows = [].
Proof.
  intros Hne Hout. induction rows as [| row rows IH]; [reflexivity |].
  cbn. rewrite alert_of_row_unknown_severity, IH by assumption. reflexivity.
Qed.

Lemma omap_unfiltered labels severity rows :
  severity = None \/ severity = Some "" ->
  omap (ApiServer.alert_of_row labels severity) rows
  = map (ApiServer.make_alert labels)
        (filter (fun row => Design.is_transition row = true) rows).
Proof.
  intros Hsev. induction rows as [| row rows IH]; [reflexivity |].
  cbn [omap list_omap]. rewrite (alert_of_row_unfiltered labels severity row Hsev).
  destruct (Design.is_transition row) eqn:Htr.
  - rewrite filter_cons_True by assumption. cbn [map]. f_equal. exact IH.
  - rewrite filter_cons_False by congruence. exact IH.
Qed.

(** C3, as stated, on the sample history of levels 0, 0, 1, 1, 2: the
endpoint returns three alerts, not two; the third is the first row's, with
no previous level, level 0 and severity low. *)
Lemma alerts_of_sample_history_are_three :
  exists a5 a3 a1,
    ApiServer.get_alerts Sample.file Sample.history None = Ok [a5; a3; a1]
    /\ (ApiServer.previousLevel a5, ApiServer.newLevel a5, ApiServer.severity a5)
       = (Some 1, 2, "high")
    /\ (ApiServer.previousLevel a3, ApiServer.newLevel a3, ApiServer.severity a3)
       = (Some 0, 1, "medium")
    /\ (ApiServer.previousLevel a1, ApiServer.newLevel a1, ApiServer.severity a1)
       = (None, 0, "low").
Proof. do 3 eexists. split; [vm_compute; reflexivity |]. repeat split. Qed.

(** C3 (amended). For the rows of a single market with levels 0, 0, 1, 1, 2
in the order of their ids and timestamps, and a configuration that loads,
GET /api/alerts without severity filter returns exactly three alerts, the
newest first: 1 to 2 with severity high, 0 to 1 with severity medium, and
the first row's, from no level to 0, with severity low. *)
Theorem alerts_of_history_0_0_1_1_2
        (file : Store.ConfigFile) (labels : gmap string string)
        (trades : list (Store.Trade * string))
        (market_id source : string)
        (i1 i2 i3 i4 i5 : Z) (t1 t2 t3 t4 t5 : string) :
  i1 < i2 -> i2 < i3 -> i3 < i4 -> i4 < i5 ->
  String.ltb t1 t2 = true -> String.ltb t2 t3 = true ->
  String.ltb t3 t4 = true -> String.ltb t4 t5 = true ->
  ApiServer.load_markets_config file ≫= ApiServer.market_labels_of = Ok labels ->
  let row i level t :=
    {| Store.id := i; Store.market_id := market_id; Store.level := level;
       Store.source := source; Store.created_at := t |} in
  let alert i previous new severity message t :=
    {| ApiServer.alert_id := i; ApiServer.marketId := market_id;
       ApiServer.marketLabel :=
         default (substring 0 8 market_id) (labels !! market_id);
       ApiServer.alert_type := "risk_level_change";
       ApiServer.severity := severity;
       ApiServer.previousLevel := previous; ApiServer.newLevel := new;
       ApiServer.message := message;
       ApiServer.isResolved := false; ApiServer.createdAt := t |} in
  ApiServer.get_alerts file
    {| Store.trades := trades;
       Store.risk_levels :=
         [row i1 0 t1; row i2 0 t2; row i3 1 t3; row i4 1 t4; row i5 2 t5] |}
    None
  = Ok [ alert i5 (Some 1) 2 "high" "Risk level changed from 1 to 2" t5;
         alert i3 (Some 0) 1 "medium" "Risk level changed from 0 to 1" t3;
         alert i1 None 0 "low" "Risk level changed from None to 0" t1 ].
Proof.
  intros Hi12 Hi23 Hi34 Hi45 Ht12 Ht23 Ht34 Ht45 Hlabels row alert.
  assert (Ht13 := string_ltb_trans _ _ _ Ht12 Ht23).
  assert (Ht14 := string_ltb_trans _ _ _ Ht13 Ht34).
  assert (Ht15 := string_ltb_trans _ _ _ Ht14 Ht45).
  assert (Ht24 := string_ltb_trans _ _ _ Ht23 Ht34).
  assert (Ht25 := string_ltb_trans _ _ _ Ht24 Ht45).
  assert (Ht35 := string_ltb_trans _ _ _ Ht34 Ht45).
  unfold ApiServer.get_alerts.
  rewrite (alert_rows_history market_id).
  - destruct (ApiServer.load_markets_config file) as [config |]; [| discriminate].
    cbn in Hlabels. cbn [mbind result_bind]. rewrite Hlabels.
    cbn [mbind result_bind]. vm_compute. reflexivity.
  - cbn [Store.risk_levels]. repeat split.
    + repeat constructor.
    + repeat (constructor; cbn; try lia).
    + repeat (constructor; cbn; try assumption).
Qed.

Lemma alerts_of_history_0_0_1_1_2_witness :
  exists alerts,
    ApiServer.get_alerts Sample.file Sample.history None = Ok alerts
    /\ length alerts = 3%nat.
Proof.
  eexists. split.
  - apply (alerts_of_history_0_0_1_1_2 Sample.file
             (<[ ApiServer.calc_market_id "WHALE_1" := "WHALE_1" ]>
                (<[ ApiServer.calc_market_id Sample.label := Sample.label ]> ∅))
             [] (ApiServer.calc_market_id Sample.label) "multi_factor"
             1 2 3 4 5
             "2024-01-01T00:00:00" "2024-01-01T00:01:00" "2024-01-01T00:02:00"
             "2024-01-01T00:03:00" "2024-01-01T00:04:00");
      try lia; reflexivity.
  - reflexivity.
Defined.

(** C10, as stated, at the empty severity value ([?severity=]), which is
outside the four names: the filter is not applied, and the sample history
returns its three alerts, not the empty list. *)
Lemma alerts_of_empty_severity_not_empty :
  ApiServer.get_alerts Sample.file Sample.history (Some "")
  = ApiServer.get_alerts Sample.file Sample.history None
  /\ exists a5 a3 a1,
       ApiServer.get_alerts Sample.file Sample.history (Some "")
       = Ok [a5; a3; a1].
Proof. split; [| do 3 eexists]; vm_compute; reflexivity. Qed.

(** C10 (amended). A severity value that is not empty and is none of low,
medium, high, critical is not rejected: the endpoint does what it does
without filter, except that the list it returns is empty; it succeeds when
the unfiltered call succeeds. Without filter, and with the empty value, the
same rows return one alert per transition. *)
Theorem alerts_of_unknown_severity
        (file : Store.ConfigFile) (db : Store.Database) (wanted : string) :
  wanted <> "" ->
  wanted ∉ ["low"; "medium"; "high"; "critical"] ->
  ApiServer.get_alerts file db (Some wanted)
  = (fun _ => []) <$> ApiServer.get_alerts file db None
  /\ (forall labels,
        ApiServer.load_markets_config file ≫= ApiServer.market_labels_of
        = Ok labels ->
        ApiServer.get_alerts file db (Some wanted) = Ok []
        /\ ApiServer.get_alerts file db (Some "")
           = ApiServer.get_alerts file db None
        /\ ApiServer.get_alerts file db None
           = Ok (map (ApiServer.make_alert labels)
                     (filter (fun row => Design.is_transition row = true)
                             (ApiServer.alert_rows db)))).
Proof.
  intros Hne Hout. unfold ApiServer.get_alerts.
  destruct (ApiServer.load_markets_config file) as [config | e];
    cbn [mbind result_bind fmap result_fmap]; [| split; [reflexivity | discriminate]].
  destruct (ApiServer.market_labels_of config) as [labels | e];
    cbn [mbind result_bind fmap result_fmap]; [| split; [reflexivity | discriminate]].
  rewrite omap_unknown_severity by assumption.
  split; [reflexivity |].
  intros labels' [= <-].
  rewrite !omap_unfiltered by auto. auto.
Qed.

Lemma alerts_of_unknown_severity_witness :
  ApiServer.get_alerts Sample.file Sample.history (Some "bogus") = Ok [].
Proof.
  refine (proj1 (proj2 (alerts_of_unknown_severity Sample.file Sample.history
                          "bogus" _ _) _ eq_refl)).
  - discriminate.
  - intros Hin. apply list_elem_of_In in Hin. cbn in Hin.
    intuition discriminate.
Defined.

(** ** Risk scores of the API *)

Lemma mapM_Ok {A B} (f : A -> result B) (l : list A) (k : list B) :
  mapM f l = Ok k -> Forall2 (fun x y => f x = Ok y) l k.
Proof.
  revert k. induction l as [| x l IH]; intros k; cbn.
  - intros [= <-]. constructor.
  - unfold mbind, result_bind.
    destruct (f x) as [y |] eqn:Hy; [| discriminate].
    destruct (mapM f l) as [k' |]; [| discriminate].
    intros [= <-]. constructor; auto.
Qed.

(** The score of the levels 0 to 3: 12.5, 37.5, 62.5 and 87.5, each a
double that holds the number exactly. *)
Lemma score_of_level_exact (level : Z) :
  0 <= level <= 3 ->
  exists score q,
    ApiServer.score_of_level level = Ok score
    /\ Design.value score = Some q
    /\ (q == inject_Z level * 25 + (25 # 2))%Q.
Proof.
  intros Hlevel.
  assert (level = 0 \/ level = 1 \/ level = 2 \/ level = 3) as Hcases by lia.
  destruct Hcases as [-> | [-> | [-> | ->]]];
    do 2 eexists; (split; [vm_compute; reflexivity |]);
    (split; [vm_compute; reflexivity | reflexivity]).
Qed.

Lemma get_latest_risk_level_scored db market_id level score last_updated :
  ApiServer.get_latest_risk_level db market_id = Ok (level, score, last_updated) ->
  match Design.rows_of db market_id with
  | [] => level = 0 /\ score = ApiServer.lit_0_0 /\ last_updated = None
  | rows =>
    ApiServer.score_of_level level = Ok score
    /\ exists row,
         In row rows /\ level = Store.level row
         /\ last_updated = Some (Store.created_at row)
  end.
Proof.
  unfold ApiServer.get_latest_risk_level. fold (Design.rows_of db market_id).
  set (rows := Design.rows_of db market_id).
  destruct (head _) as [row |] eqn:Hhead.
  - assert (In row rows) as Hin.
    { apply head_Some in Hhead as [rest Hrest].
      apply list_elem_of_In.
      rewrite <- (order_by_Permutation
                    (ApiServer.created_at_desc Store.created_at) rows), Hrest.
      left. }
    unfold mbind, result_bind.
    destruct (ApiServer.score_of_level (Store.level row)) as [s |] eqn:Hscore;
      [| discriminate].
    intros [= <- <- <-].
    destruct rows as [| r rows']; [destruct Hin |].
    split; [exact Hscore | eauto].
  - apply head_None in Hhead.
    assert (rows = []) as ->.
    { apply Permutation_nil_r. rewrite <- Hhead. symmetry.
      apply order_by_Permutation. }
    intros [= <- <- <-]. auto.
Qed.

Lemma market_of_config_scored db config m :
  ApiServer.market_of_config db config = Ok m -> Design.market_scored db m.
Proof.
  unfold ApiServer.market_of_config, mbind, result_bind.
  destruct (getitem config "label") as [label |]; [| discriminate].
  destruct (ApiServer.get_latest_risk_level db _)
    as [[[level score] last_updated] |] eqn:Hlatest; [| discriminate].
  apply get_latest_risk_level_scored in Hlatest.
  destruct (if _ : bool then _ else _) as [token0 token1].
  intros [= <-]. exact Hlatest.
Qed.

(** C4, as stated, at a market without rows: the market list shows level 0
with score 0.0, not 12.5. *)
Lemma market_without_rows_scores_zero :
  exists m,
    ApiServer.get_markets Sample.file Sample.empty = Ok [m]
    /\ ApiServer.riskLevel m = 0
    /\ ApiServer.riskScore m = Flt (S754_zero false)
    /\ Design.value (ApiServer.riskScore m) = Some 0%Q.
Proof. eexists. split; [vm_compute; reflexivity | repeat split]. Qed.

(** C4 (amended). Every market object of GET /api/markets and of the
detail endpoint whose market has a risk-level row, and every point of the
risk history, carries the score [level * 25 + 12.5] of its level, which is
12.5, 37.5, 62.5, 87.5 for the levels 0, 1, 2, 3; a market without rows is
shown with level 0, score 0.0 and no update time. *)
Theorem risk_score_of_level :
  (forall level, 0 <= level <= 3 ->
     exists score q,
       ApiServer.score_of_level level = Ok score
       /\ Design.value score = Some q
       /\ (q == inject_Z level * 25 + (25 # 2))%Q)
  /\ (forall file db markets,
        ApiServer.get_markets file db = Ok markets ->
        Forall (Design.market_scored db) markets)
  /\ (forall file db label m,
        ApiServer.get_market_detail file db label = Ok m ->
        Design.market_scored db m)
  /\ (forall db cutoff label hours points,
        ApiServer.get_risk_history db cutoff label hours = Ok points ->
        Forall (fun point =>
                  ApiServer.score_of_level (ApiServer.level point)
                  = Ok (ApiServer.score point)) points).
Proof.
  split; [exact score_of_level_exact | split; [| split]].
  - intros file db markets. unfold ApiServer.get_markets, mbind, result_bind.
    destruct (ApiServer.load_markets_config file) as [config |]; [| discriminate].
    intros Hmap. apply mapM_Ok in Hmap.
    induction Hmap as [| c m cs ms Hm _ IH]; constructor; [| exact IH].
    apply (market_of_config_scored _ _ _ Hm).
  - intros file db label m. unfold ApiServer.get_market_detail, mbind, result_bind.
    destruct (ApiServer.load_markets_config file) as [config |]; [| discriminate].
    destruct (ApiServer.find_config label config) as [[found |] |];
      try discriminate.
    destruct (ApiServer.get_latest_risk_level db _)
      as [[[level score] last_updated] |] eqn:Hlatest; [| discriminate].
    apply get_latest_risk_level_scored in Hlatest.
    destruct (ApiServer.tokens_of_label label) as [token0 token1].
    intros [= <-]. exact Hlatest.
  - intros db cutoff label hours points. unfold ApiServer.get_risk_history.
    destruct (negb _); [discriminate |].
    intros Hmap. apply mapM_Ok in Hmap.
    induction Hmap as [| r p rs ps Hp _ IH]; constructor; [| exact IH].
    unfold mbind, result_bind in Hp.
    destruct (ApiServer.score_of_level (Store.level r)) as [s |] eqn:Hs;
      [| discriminate].
    injection Hp as <-. exact Hs.
Qed.

Lemma risk_score_of_level_witness :
  (exists score q,
      ApiServer.score_of_level 2 = Ok score
      /\ Design.value score = Some q /\ (q == 125 # 2)%Q)
  /\ (exists m,
        ApiServer.get_markets Sample.file Sample.history = Ok [m]
        /\ Design.market_scored Sample.history m).
Proof.
  destruct risk_score_of_level as (Htable & Hmarkets & _).
  split.
  - apply (Htable 2). lia.
  - eexists. split; [vm_compute; reflexivity |].
    eapply Forall_inv. apply (Hmarkets Sample.file). vm_compute. reflexivity.
Defined.

(** ** Rounding to binary64 *)

Lemma digits2_pos_size (p : positive) : digits2_pos p = Pos.size p.
Proof. induction p as [p IH | p IH |]; cbn; congruence. Qed.

Lemma Zdigits2_log2 (z : Z) : 0 < z -> Zdigits2 z = Z.log2 z + 1.
Proof.
  destruct z as [| p | p]; try lia. intros _. cbn [Zdigits2].
  rewrite digits2_pos_size. destruct p; cbn; lia.
Qed.

Lemma Zdigits2_nonneg (z : Z) : 0 <= Zdigits2 z.
Proof. destruct z; cbn; lia. Qed.

Lemma Zdigits2_pos (z : Z) : 0 < z -> 1 <= Zdigits2 z.
Proof. intros H. rewrite Zdigits2_log2 by assumption. pose proof (Z.log2_nonneg z). lia. Qed.

(** [z < 2 ^ k] bounds the number of digits by [k]. *)
Lemma Zdigits2_le (z k : Z) : 0 <= z < 2 ^ k -> 0 <= k -> Zdigits2 z <= k.
Proof.
  intros [Hz Hlt] Hk. destruct (Z.eq_dec z 0) as [-> | Hne]; [cbn; lia |].
  rewrite Zdigits2_log2 by lia.
  apply Z.log2_lt_pow2 in Hlt; lia.
Qed.

Lemma Zdigits2_lower (z : Z) : 0 < z -> 2 ^ (Zdigits2 z - 1) <= z.
Proof.
  intros Hz. rewrite Zdigits2_log2 by assumption.
  replace (Z.log2 z + 1 - 1) with (Z.log2 z) by lia.
  apply Z.log2_spec, Hz.
Qed.

Lemma Zdigits2_upper (z : Z) : 0 <= z -> z < 2 ^ Zdigits2 z.
Proof.
  intros Hz. destruct (Z.eq_dec z 0) as [-> | Hne]; [cbn; lia |].
  rewrite Zdigits2_log2 by lia. apply Z.log2_spec. lia.
Qed.

Lemma shr_1_m (mrs : shr_record) :
  0 <= shr_m mrs -> shr_m (shr_1 mrs) = shr_m mrs / 2.
Proof.
  destruct mrs as [m r s]. cbn [shr_m]. intros Hm.
  destruct m as [| [p | p |] | p]; cbn [shr_1 shr_m];
    Z.to_euclidean_division_equations; lia.
Qed.

Lemma iter_pos_shr_1_m (n : positive) (mrs : shr_record) :
  0 <= shr_m mrs ->
  shr_m (SpecFloat.iter_pos shr_1 n mrs) = shr_m mrs / 2 ^ Z.pos n.
Proof.
  revert mrs. induction n as [n IH | n IH |]; intros mrs Hm; cbn [SpecFloat.iter_pos].
  - assert (0 <= shr_m (shr_1 mrs)) as H1
        by (rewrite shr_1_m by assumption; apply Z.div_pos; lia).
    assert (0 <= shr_m (SpecFloat.iter_pos shr_1 n (shr_1 mrs))) as H2
        by (rewrite IH by assumption; apply Z.div_pos; lia).
    rewrite IH, IH, shr_1_m by assumption.
    rewrite !Z.div_div by lia. f_equal.
    replace (Z.pos n~1) with (1 + Z.pos n + Z.pos n) by lia.
    rewrite !Z.pow_add_r by lia. ring.
  - assert (0 <= shr_m (SpecFloat.iter_pos shr_1 n mrs)) as H2
        by (rewrite IH by assumption; apply Z.div_pos; lia).
    rewrite IH, IH by assumption.
    rewrite !Z.div_div by lia. f_equal.
    replace (Z.pos n~0) with (Z.pos n + Z.pos n) by lia.
    rewrite !Z.pow_add_r by lia. ring.
  - rewrite shr_1_m by assumption. reflexivity.
Qed.

(** A shift by [n]: the mantissa is divided by [2 ^ n], the exponent grows
by [n]. *)
Lemma shr_m_e (mrs : shr_record) (e n : Z) :
  0 <= shr_m mrs ->
  shr_m (shr mrs e n).1 = shr_m mrs / 2 ^ Z.max 0 n
  /\ (shr mrs e n).2 = e + Z.max 0 n.
Proof.
  intros Hm. destruct n as [| p | p]; cbn [shr fst snd].
  - rewrite Z.div_1_r. lia.
  - rewrite iter_pos_shr_1_m by assumption. rewrite Z.max_r by lia. lia.
  - rewrite Z.div_1_r. lia.
Qed.

Lemma shr_record_of_loc_m (m : Z) (l : location) :
  shr_m (shr_record_of_loc m l) = m.
Proof. destruct l as [| []]; reflexivity. Qed.

Lemma round_nearest_even_bounds (m : Z) (l : location) :
  m <= round_nearest_even m l <= m + 1.
Proof. destruct l as [| []]; cbn; try destruct (Z.even m); lia. Qed.

Lemma fexp_64 (e : Z) : fexp prec emax e = fexp64 e.
Proof. reflexivity. Qed.

Lemma shr_fst (mrs : shr_record) (e n : Z) : (shr mrs e n).1 = (shr mrs 0 n).1.
Proof. destruct n; reflexivity. Qed.

Lemma shr_eta (mrs : shr_record) (e n : Z) :
  shr mrs e n = ((shr mrs 0 n).1, e + Z.max 0 n).
Proof. destruct n; cbn [shr fst]; f_equal; lia. Qed.

Lemma div_pow2_lower (m d k : Z) :
  0 <= k <= d - 1 -> 2 ^ (d - 1) <= m -> 2 ^ (d - 1 - k) <= m / 2 ^ k.
Proof.
  intros Hk Hm. apply Z.div_le_lower_bound; [lia |].
  rewrite <- Z.pow_add_r by lia. replace (k + (d - 1 - k)) with (d - 1) by lia.
  exact Hm.
Qed.

Lemma div_pow2_upper (m d k : Z) :
  0 <= k <= d -> 0 <= m < 2 ^ d -> m / 2 ^ k < 2 ^ (d - k).
Proof.
  intros Hk Hm. apply Z.div_lt_upper_bound; [lia |].
  rewrite <- Z.pow_add_r by lia. replace (k + (d - k)) with d by lia. lia.
Qed.

(** After the first shift a positive mantissa is still positive. *)
Lemma stage1_pos (m : Z) :
  0 < m -> 0 < m / 2 ^ Z.max 0 (Zdigits2 m - 53).
Proof.
  intros Hm. pose proof (Zdigits2_lower m Hm) as Hlow.
  pose proof (Zdigits2_pos m Hm) as Hd.
  destruct (Z.le_gt_cases (Zdigits2 m) 53) as [Hle | Hgt].
  - rewrite Z.max_l by lia. rewrite Z.div_1_r. exact Hm.
  - rewrite Z.max_r by lia.
    pose proof (div_pow2_lower m (Zdigits2 m) (Zdigits2 m - 53) ltac:(lia) Hlow).
    assert (0 < 2 ^ (Zdigits2 m - 1 - (Zdigits2 m - 53))) by lia.
    lia.
Qed.

Lemma shr_loc_m (m : Z) (l : location) (n : Z) :
  0 <= m -> shr_m (shr (shr_record_of_loc m l) 0 n).1 = m / 2 ^ Z.max 0 n.
Proof.
  intros Hm.
  pose proof (shr_m_e (shr_record_of_loc m l) 0 n) as H.
  rewrite shr_record_of_loc_m in H. apply H, Hm.
Qed.

Lemma round_core_pos (m : Z) (l : location) :
  0 < m -> 0 < (round_core m l).1 /\ 0 <= (round_core m l).2.
Proof.
  intros Hm. unfold round_core. cbn [fst snd]. split; [| lia].
  set (mrs1 := (shr (shr_record_of_loc m l) 0 (Zdigits2 m - 53)).1).
  assert (0 < shr_m mrs1) as H1
      by (unfold mrs1; rewrite shr_loc_m by lia; apply stage1_pos, Hm).
  set (m2 := round_nearest_even (shr_m mrs1) (loc_of_shr_record mrs1)).
  assert (0 < m2) as H2
      by (pose proof (round_nearest_even_bounds (shr_m mrs1)
                        (loc_of_shr_record mrs1)); unfold m2; lia).
  rewrite shr_loc_m by lia. apply stage1_pos, H2.
Qed.

(** [binary_round_aux] away from the subnormal range. *)
Lemma binary_round_aux_normal (s : bool) (m e : Z) (l : location) :
  0 < m -> -1021 <= e ->
  binary_round_aux prec emax s m e l
  = match round_core m l with
    | (Zpos p, k) =>
      if e + k <=? 971 then S754_finite s p (e + k) else S754_infinity s
    | (Z0, _) => S754_zero s
    | (Zneg _, _) => S754_nan
    end.
Proof.
  intros Hm He. unfold binary_round_aux, shr_fexp, round_core.
  change (fexp prec emax) with fexp64.
  pose proof (Zdigits2_pos m Hm) as Hd.
  assert (fexp64 (Zdigits2 m + e) - e = Zdigits2 m - 53) as ->
      by (unfold fexp64; lia).
  rewrite (shr_eta _ e).
  set (mrs1 := (shr (shr_record_of_loc m l) 0 (Zdigits2 m - 53)).1).
  assert (0 < shr_m mrs1) as H1
      by (unfold mrs1; rewrite shr_loc_m by lia; apply stage1_pos, Hm).
  set (m2 := round_nearest_even (shr_m mrs1) (loc_of_shr_record mrs1)).
  assert (0 < m2) as H2
      by (pose proof (round_nearest_even_bounds (shr_m mrs1)
                        (loc_of_shr_record mrs1)); unfold m2; lia).
  pose proof (Zdigits2_pos m2 H2) as Hd2.
  assert (fexp64 (Zdigits2 m2 + (e + Z.max 0 (Zdigits2 m - 53)))
          - (e + Z.max 0 (Zdigits2 m - 53)) = Zdigits2 m2 - 53) as ->
      by (unfold fexp64; lia).
  rewrite (shr_eta _ (e + _)).
  cbn [fst snd].
  replace (e + Z.max 0 (Zdigits2 m - 53) + Z.max 0 (Zdigits2 m2 - 53))
    with (e + (Z.max 0 (Zdigits2 m - 53) + Z.max 0 (Zdigits2 m2 - 53))) by lia.
  reflexivity.
Qed.

(** [binary_round_aux] does not overflow when the number is below
[2 ^ 1023]. *)
Lemma binary_round_aux_finite (s : bool) (m e : Z) (l : location) :
  0 <= m -> e <= 970 -> Zdigits2 m + e <= 1023 ->
  forall s', binary_round_aux prec emax s m e l <> S754_infinity s'.
Proof.
  intros Hm He Hd s'. unfold binary_round_aux, shr_fexp.
  change (fexp prec emax) with fexp64.
  rewrite (shr_eta _ e).
  set (n1 := fexp64 (Zdigits2 m + e) - e).
  set (mrs1 := (shr (shr_record_of_loc m l) 0 n1).1).
  assert (shr_m mrs1 = m / 2 ^ Z.max 0 n1) as Hm1
      by (unfold mrs1; apply shr_loc_m, Hm).
  set (m2 := round_nearest_even (shr_m mrs1) (loc_of_shr_record mrs1)).
  pose proof (round_nearest_even_bounds (shr_m mrs1) (loc_of_shr_record mrs1)) as Hm2.
  fold m2 in Hm2.
  set (e1 := e + Z.max 0 n1).
  rewrite (shr_eta _ e1).
  set (n2 := fexp64 (Zdigits2 m2 + e1) - e1).
  cbn [fst snd].
  destruct (shr_m (shr _ 0 n2).1) as [| p | p]; try discriminate.
  change (emax - prec) with 971.
  assert (e1 + Z.max 0 n2 <= 971) as Hle;
    [| rewrite (proj2 (Z.leb_le _ _) Hle); intros ?; discriminate].
  pose proof (Zdigits2_nonneg m) as Hd0.
  pose proof (Zdigits2_upper m Hm) as Hup.
  assert (0 <= shr_m mrs1) as Hm1pos by (rewrite Hm1; apply Z.div_pos; lia).
  assert (Zdigits2 m2 + e1 <= 1024) as Hd2.
  { destruct (Z.le_gt_cases (Z.max 0 n1) (Zdigits2 m)) as [Hk | Hk].
    - pose proof (div_pow2_upper m (Zdigits2 m) (Z.max 0 n1) ltac:(lia) ltac:(lia)) as Hq.
      rewrite <- Hm1 in Hq.
      assert (0 <= m2 < 2 ^ (Zdigits2 m - Z.max 0 n1 + 1)) as Hb.
      { rewrite Z.pow_add_r by lia. lia. }
      pose proof (Zdigits2_le m2 _ Hb ltac:(lia)). unfold e1. lia.
    - assert (shr_m mrs1 = 0) as H0.
      { rewrite Hm1. apply Z.div_small. split; [lia |].
        eapply Z.lt_le_trans; [exact Hup |].
        apply Z.pow_le_mono_r; lia. }
      assert (0 <= m2 < 2 ^ 1) as Hb by (cbn; lia).
      pose proof (Zdigits2_le m2 1 Hb ltac:(lia)).
      unfold e1, n1, fexp64 in *. lia. }
  unfold n2, e1, n1, fexp64 in *. lia.
Qed.

(** *** Integers as doubles *)

Lemma pos_iter_xO (p n : positive) :
  Z.pos (Pos.iter xO p n) = Z.pos p * 2 ^ Z.pos n.
Proof.
  induction n as [| n IH] using Pos.peano_ind.
  - cbn. lia.
  - rewrite Pos.iter_succ, Pos2Z.inj_xO, IH, Pos2Z.inj_succ, Z.pow_succ_r by lia.
    ring.
Qed.

Lemma Zdigits2_mul_pow2 (z n : Z) :
  0 < z -> 0 <= n -> Zdigits2 (z * 2 ^ n) = Zdigits2 z + n.
Proof.
  intros Hz Hn. rewrite !Zdigits2_log2 by nia.
  rewrite Z.log2_mul_pow2 by lia. lia.
Qed.

(** [binary_round] of an integer: the mantissa is first widened to 53
digits when it has fewer. *)
Lemma binary_round_int (s : bool) (p : positive) :
  exists mz ez,
    binary_round prec emax s p 0
    = binary_round_aux prec emax s (Z.pos mz) ez loc_Exact
    /\ -52 <= ez <= 0
    /\ Zdigits2 (Z.pos mz) + ez = Zdigits2 (Z.pos p).
Proof.
  unfold binary_round, shl_align. change (fexp prec emax) with fexp64.
  pose proof (Zdigits2_pos (Z.pos p) ltac:(lia)) as Hd.
  cbn [Zdigits2] in Hd.
  assert (fexp64 (Z.pos (digits2_pos p) + 0) = Z.pos (digits2_pos p) - 53) as ->
      by (unfold fexp64; lia).
  destruct (Z.pos (digits2_pos p) - 53 - 0) as [| q | q] eqn:Hq.
  - exists p, 0. cbn [Zdigits2]. repeat split; lia.
  - exists p, 0. cbn [Zdigits2]. repeat split; lia.
  - exists (Pos.iter xO p q), (Z.pos (digits2_pos p) - 53).
    split; [reflexivity |]. split; [lia |].
    rewrite pos_iter_xO, Zdigits2_mul_pow2 by lia. cbn [Zdigits2]. lia.
Qed.

Lemma binary_round_int_shape (s : bool) (p : positive) :
  (exists m e, binary_round prec emax s p 0 = S754_finite s m e /\ -52 <= e)
  \/ binary_round prec emax s p 0 = S754_infinity s.
Proof.
  destruct (binary_round_int s p) as (mz & ez & -> & Hez & _).
  rewrite binary_round_aux_normal by lia.
  pose proof (round_core_pos (Z.pos mz) loc_Exact ltac:(lia)) as [Hm Hk].
  destruct (round_core (Z.pos mz) loc_Exact) as [[| m3 | m3] k];
    cbn [fst snd] in *; try lia.
  destruct (_ <=? _); [left | right; reflexivity].
  do 2 eexists. split; [reflexivity | lia].
Qed.

Lemma binary_round_int_finite (s : bool) (p : positive) :
  Z.pos p < 2 ^ 1023 ->
  forall s', binary_round prec emax s p 0 <> S754_infinity s'.
Proof.
  intros Hp. destruct (binary_round_int s p) as (mz & ez & -> & Hez & Hd).
  apply binary_round_aux_finite; try lia.
  rewrite Hd. apply Zdigits2_le; lia.
Qed.

(** An integer below [2 ^ 1023] in magnitude converts to a double. *)
Lemma float_of_int_in_range (z : Z) :
  Z.abs z < 2 ^ 1023 -> float_of_int z = Ok (nearest_double_of_int z).
Proof.
  intros Hz. unfold float_of_int.
  assert (forall s, nearest_double_of_int z <> S754_infinity s) as Hfin.
  { unfold nearest_double_of_int, binary_normalize.
    destruct z as [| p | p]; [discriminate | |];
      apply binary_round_int_finite; lia. }
  destruct (nearest_double_of_int z) as [| s | |]; try reflexivity.
  destruct (Hfin s eq_refl).
Qed.

(** A positive integer below [2 ^ 1023] converts to a positive double whose
exponent is at least -52. *)
Lemma nearest_double_of_int_pos (z : Z) :
  1 <= z < 2 ^ 1023 ->
  exists m e, nearest_double_of_int z = S754_finite false m e /\ -52 <= e.
Proof.
  intros Hz. unfold nearest_double_of_int, binary_normalize.
  destruct z as [| p | p]; try lia.
  destruct (binary_round_int_shape false p) as [Hfinite | Hinf];
    [exact Hfinite |].
  destruct (binary_round_int_finite false p ltac:(lia) false Hinf).
Qed.

(** *** Products with a literal *)

Lemma SFmul_pos (m1 m2 : positive) (e1 e2 : Z) :
  -1021 <= e1 + e2 ->
  exists m k,
    round_core (Z.pos (m1 * m2)) loc_Exact = (Z.pos m, k) /\ 0 <= k
    /\ SFmul prec emax (S754_finite false m1 e1) (S754_finite false m2 e2)
       = if e1 + e2 + k <=? 971 then S754_finite false m (e1 + e2 + k)
         else S754_infinity false.
Proof.
  intros He. cbn [SFmul xorb].
  rewrite binary_round_aux_normal by lia.
  pose proof (round_core_pos (Z.pos (m1 * m2)) loc_Exact ltac:(lia)) as [Hm Hk].
  destruct (round_core (Z.pos (m1 * m2)) loc_Exact) as [[| m | m] k];
    cbn [fst snd] in *; try lia.
  eauto.
Qed.

(** *** Quotients of integers *)

Lemma SFdiv_int_finite (s1 s2 : bool) (pa pb : positive) :
  Z.pos pa < 2 ^ 1023 ->
  forall s,
    SFdiv prec emax (S754_finite s1 pa 0) (S754_finite s2 pb 0)
    <> S754_infinity s.
Proof.
  intros Ha s. cbn [SFdiv]. unfold SFdiv_core_binary.
  change (fexp prec emax) with fexp64.
  set (e' := Z.min _ (0 - 0)).
  set (m' := match 0 - 0 - e' with
             | 0 => Z.pos pa
             | Z.pos _ => Z.shiftl (Z.pos pa) (0 - 0 - e')
             | Z.neg _ => 0
             end).
  assert (e' <= 0) as He' by (unfold e'; lia).
  assert (m' = Z.pos pa * 2 ^ (- e')) as Hm'.
  { unfold m'. destruct (0 - 0 - e') as [| q | q] eqn:Hs.
    - replace (- e') with 0 by lia. lia.
    - rewrite Z.shiftl_mul_pow2 by lia. f_equal. f_equal. lia.
    - lia. }
  pose proof (Z.div_eucl_eq m' (Z.pos pb) ltac:(lia)) as Hdiv.
  pose proof (Z.mod_pos_bound m' (Z.pos pb) ltac:(lia)) as Hmod.
  unfold Z.modulo in Hmod.
  change IntDef.Z.div_eucl with Z.div_eucl.
  destruct (Z.div_eucl m' (Z.pos pb)) as [q r].
  pose proof (Zdigits2_nonneg (Z.pos pa)) as Hd0.
  pose proof (Zdigits2_upper (Z.pos pa) ltac:(lia)) as Hup.
  assert (0 <= q <= m') as Hq by nia.
  apply binary_round_aux_finite; [lia | lia |].
  assert (Zdigits2 q <= Zdigits2 (Z.pos pa) + - e') as Hdq.
  { apply Zdigits2_le; [| lia]. split; [lia |].
    eapply Z.le_lt_trans; [apply Hq |].
    rewrite Hm', Z.pow_add_r by lia.
    apply Z.mul_lt_mono_pos_r; lia. }
  pose proof (Zdigits2_le (Z.pos pa) 1023 ltac:(lia) ltac:(lia)). lia.
Qed.

(** The quotient of an integer below [2 ^ 1023] in magnitude by an integer
that is not zero is in the range of the doubles. *)
Lemma int_truediv_in_range (a b : Z) :
  Z.abs a < 2 ^ 1023 -> b <> 0 ->
  int_truediv a b = Ok (nearest_double_of_quotient a b).
Proof.
  intros Ha Hb. unfold int_truediv.
  rewrite (proj2 (Z.eqb_neq b 0) Hb).
  assert (forall s, nearest_double_of_quotient a b <> S754_infinity s) as Hfin.
  { intros s. unfold nearest_double_of_quotient.
    destruct a as [| pa | pa]; [discriminate | |];
      (destruct b as [| pb | pb]; [congruence | |]);
      apply SFdiv_int_finite; lia. }
  destruct (nearest_double_of_quotient a b) as [| s | |]; try reflexivity.
  destruct (Hfin s eq_refl).
Qed.

(** *** Comparisons *)

Lemma SFcompare_antisym (f g : float) :
  SFcompare g f = CompOpp <$> SFcompare f g.
Proof.
  destruct f as [sf | sf | | sf mf ef], g as [sg | sg | | sg mg eg];
    cbn; try reflexivity;
    try (destruct sf; reflexivity); try (destruct sg; reflexivity);
    try (destruct sf, sg; reflexivity).
  destruct sf, sg; cbn; try reflexivity;
    rewrite (Z.compare_antisym ef eg);
    destruct (ef ?= eg); cbn; try reflexivity;
    rewrite !Pos.compare_cont_spec; cbn;
    rewrite (Pos.compare_antisym mf mg);
    destruct (mf ?= mg)%positive; reflexivity.
Qed.

Lemma compare_antisym (x y : num) : compare y x = CompOpp <$> compare x y.
Proof.
  destruct x as [a | f], y as [b | g]; cbn.
  - rewrite (Z.compare_antisym a b). reflexivity.
  - reflexivity.
  - destruct (compare_int_float b f) as [[] |]; reflexivity.
  - apply SFcompare_antisym.
Qed.

(** [x < y] excludes [y <= x]. *)
Lemma lt_not_le (x y : num) : lt x y = true -> le y x = false.
Proof.
  unfold lt, le. rewrite (compare_antisym x y).
  destruct (compare x y) as [[] |]; cbn; congruence.
Qed.

Lemma compare_int_float_Gt_mono (a b : Z) (f : float) :
  compare_int_float a f = Some Gt -> a <= b -> compare_int_float b f = Some Gt.
Proof.
  destruct f as [s | s | | s m e]; cbn; try congruence.
  - intros [= H] Hab. f_equal. apply Z.compare_gt_iff in H.
    apply Z.compare_gt_iff. lia.
  - destruct (Z.leb_spec 0 e) as [He | He]; intros [= H] Hab; f_equal;
      apply Z.compare_gt_iff in H; apply Z.compare_gt_iff; [lia |].
    assert (0 < 2 ^ (- e)) by (apply Z.pow_pos_nonneg; lia). nia.
Qed.

(** [x < a] excludes [b <= x] for integers [a <= b]. *)
Lemma lt_int_not_le_int (x : num) (a b : Z) :
  lt x (Int a) = true -> a <= b -> le (Int b) x = false.
Proof.
  intros Hlt Hab. destruct x as [z | f]; unfold lt, le in *; cbn in *.
  - revert Hlt. destruct (Z.compare_spec z a); try discriminate. intros _.
    destruct (Z.compare_spec b z); try reflexivity; lia.
  - destruct (compare_int_float a f) as [[] |] eqn:Haf; try discriminate.
    rewrite (compare_int_float_Gt_mono a b f Haf Hab). reflexivity.
Qed.

(** [f < c1] excludes [c2 <= f] for positive doubles [c1 <= c2]. *)
Lemma lt_float_not_le_float (f : float) (m1 m2 : positive) (e1 e2 : Z) :
  lt (Flt f) (Flt (S754_finite false m1 e1)) = true ->
  e1 < e2 \/ (e1 = e2 /\ (m1 <= m2)%positive) ->
  le (Flt (S754_finite false m2 e2)) (Flt f) = false.
Proof.
  unfold lt, le. cbn [compare].
  destruct f as [s | s | | s m e]; cbn; try congruence;
    try (destruct s; congruence).
  destruct s; [congruence |].
  rewrite !Pos.compare_cont_spec. cbn [Pos.switch_Eq].
  destruct (Z.compare_spec e e1) as [-> | He1 | He1]; try discriminate.
  - destruct (Pos.compare_spec m m1) as [Hm1 | Hm1 | Hm1]; try discriminate.
    intros _ [Hlt' | [-> Hm]].
    + rewrite (proj2 (Z.compare_gt_iff e2 e1) Hlt'). reflexivity.
    + rewrite Z.compare_refl.
      rewrite (proj2 (Pos.compare_gt_iff m2 m)) by lia. reflexivity.
  - intros _ Hle.
    rewrite (proj2 (Z.compare_gt_iff e2 e)) by lia. reflexivity.
Qed.

(** An integer below a positive double is below the double of the same
mantissa and a larger exponent. *)
Lemma compare_int_float_exp_mono (c : Z) (m : positive) (e d : Z) :
  0 <= d ->
  compare_int_float c (S754_finite false m e) = Some Lt ->
  compare_int_float c (S754_finite false m (e + d)) = Some Lt.
Proof.
  intros Hd. cbn.
  assert (forall k, 0 <= k -> 1 <= 2 ^ k) as Hpow
      by (intros k Hk; pose proof (Z.pow_pos_nonneg 2 k); lia).
  destruct (Z.leb_spec 0 e) as [He | He];
    destruct (Z.leb_spec 0 (e + d)) as [Hed | Hed]; try lia;
    intros [= H]; f_equal;
    rewrite Z.compare_lt_iff in H; rewrite Z.compare_lt_iff.
  - rewrite Z.pow_add_r, Z.mul_assoc by lia.
    pose proof (Hpow e He). pose proof (Hpow d Hd).
    assert (0 <= Z.pos m * 2 ^ e) by (apply Z.mul_nonneg_nonneg; lia).
    assert (Z.pos m * 2 ^ e * 1 <= Z.pos m * 2 ^ e * 2 ^ d)
      by (apply Z.mul_le_mono_nonneg_l; lia).
    lia.
  - pose proof (Hpow (- e) ltac:(lia)). pose proof (Hpow (e + d) Hed).
    destruct (Z.le_gt_cases 0 c) as [Hc | Hc].
    + assert (c * 1 <= c * 2 ^ (- e)) by (apply Z.mul_le_mono_nonneg_l; lia).
      assert (Z.pos m * 1 <= Z.pos m * 2 ^ (e + d))
        by (apply Z.mul_le_mono_nonneg_l; lia).
      lia.
    + assert (0 < Z.pos m * 2 ^ (e + d)) by (apply Z.mul_pos_pos; lia). lia.
  - pose proof (Hpow (- (e + d)) ltac:(lia)). pose proof (Hpow d Hd).
    destruct (Z.le_gt_cases 0 c) as [Hc | Hc].
    + replace (- e) with (- (e + d) + d) in H by lia.
      rewrite Z.pow_add_r in H by lia.
      assert (c * 2 ^ (- (e + d)) * 1 <= c * 2 ^ (- (e + d)) * 2 ^ d)
        by (apply Z.mul_le_mono_nonneg_l; [apply Z.mul_nonneg_nonneg |]; lia).
      lia.
    + assert (c * 2 ^ (- (e + d)) < 0) by (apply Z.mul_neg_pos; lia). lia.
Qed.


Import Design.

(** ** The composite score *)

(** The literals of the code are the doubles nearest to the decimal
numbers. *)
Lemma literals_nearest :
  Monitor.lit_0_01 = Flt (literal 1 100)
  /\ Monitor.lit_0_001 = Flt (literal 1 1000)
  /\ Monitor.lit_0_03 = Flt (literal 3 100)
  /\ Monitor.lit_0_005 = Flt (literal 5 1000)
  /\ Monitor.lit_0_02 = Flt (literal 2 100).
Proof. repeat split; vm_compute; reflexivity. Qed.

Lemma level_of_score_total (total : Z) :
  Monitor.level_of_score total = level_of_total total.
Proof. reflexivity. Qed.

Lemma level_of_total_range (total : Z) : 0 <= level_of_total total <= 3.
Proof. unfold level_of_total. repeat destruct (_ <? _); lia. Qed.

(** An [if]/[elif] chain over conditions of which no two hold together adds
the points of the condition that holds. *)
Lemma bands_sum (b1 b2 b3 : bool) :
  (b1 = true -> b2 = false) -> (b1 = true -> b3 = false) ->
  (b2 = true -> b3 = false) ->
  (if b1 then 10 else if b2 then 20 else if b3 then 30 else 0)
  = points b1 10 + points b2 20 + points b3 30.
Proof.
  destruct b1, b2, b3; cbn; intros H12 H13 H23; try reflexivity;
    try (discriminate (H12 eq_refl)); try (discriminate (H13 eq_refl));
    discriminate (H23 eq_refl).
Qed.

Lemma dex_bands (r : num) :
  (if le (Int 1) r && lt r (Int 2) then 10
   else if le (Int 2) r && lt r (Int 5) then 20
   else if ge r (Int 5) then 30 else 0)
  = points (le (Int 1) r && lt r (Int 2)) 10
    + points (le (Int 2) r && lt r (Int 5)) 20
    + points (le (Int 5) r) 30.
Proof.
  apply bands_sum; rewrite ?andb_true_iff; intros H.
  - rewrite (lt_not_le r (Int 2)) by apply H. reflexivity.
  - apply (lt_int_not_le_int r 2 5); [apply H | lia].
  - apply (lt_not_le r (Int 5)), H.
Qed.

Lemma whale_bands (p : float) :
  (if le Monitor.lit_0_001 (Flt p) && lt (Flt p) Monitor.lit_0_01 then 10
   else if le Monitor.lit_0_01 (Flt p) && lt (Flt p) Monitor.lit_0_03 then 20
   else if ge (Flt p) Monitor.lit_0_03 then 30 else 0)
  = points (le Monitor.lit_0_001 (Flt p) && lt (Flt p) Monitor.lit_0_01) 10
    + points (le Monitor.lit_0_01 (Flt p) && lt (Flt p) Monitor.lit_0_03) 20
    + points (le Monitor.lit_0_03 (Flt p)) 30.
Proof.
  apply bands_sum; rewrite ?andb_true_iff; intros H.
  - rewrite (lt_not_le (Flt p) Monitor.lit_0_01) by apply H. reflexivity.
  - unfold Monitor.lit_0_03.
    eapply lt_float_not_le_float; [apply H | left; lia].
  - apply (lt_not_le (Flt p) Monitor.lit_0_03), H.
Qed.

Lemma lt_0_finite (m : positive) (e : Z) :
  lt (Int 0) (Flt (S754_finite false m e)) = true.
Proof.
  unfold lt, compare, compare_int_float.
  destruct (Z.leb_spec 0 e) as [He | He]; [| reflexivity].
  assert (0 < Z.pos m * 2 ^ e) as H
      by (apply Z.mul_pos_pos; [lia | apply Z.pow_pos_nonneg; lia]).
  apply Z.compare_lt_iff in H. rewrite H. reflexivity.
Qed.

(** For a pool of positive size the amount of the lower band is not above
the amount of the upper band: an inflow below the first is not at or above
the second. *)
Lemma cex_bands_apart (ml : positive) (el c : Z) :
  -52 <= el ->
  let f := S754_finite false ml el in
  lt (Int c) (Flt (SFmul prec emax (S754_finite false 5764607523034235 (-60)) f))
  = true ->
  le (Flt (SFmul prec emax (S754_finite false 5764607523034235 (-58)) f)) (Int c)
  = false.
Proof.
  intros Hel f. subst f.
  destruct (SFmul_pos 5764607523034235 ml (-60) el ltac:(lia))
    as (m & k & Hcore & Hk & ->).
  destruct (SFmul_pos 5764607523034235 ml (-58) el ltac:(lia))
    as (m' & k' & Hcore' & _ & ->).
  rewrite Hcore in Hcore'. injection Hcore' as <- <-.
  unfold lt, le. cbn [compare].
  destruct (Z.leb_spec (-58 + el + k) 971) as [Hhi | Hhi]; [| reflexivity].
  rewrite (proj2 (Z.leb_le (-60 + el + k) 971)) by lia.
  destruct (compare_int_float c (S754_finite false m (-60 + el + k)))
    as [[] |] eqn:Hlo; try discriminate. intros _.
  replace (-58 + el + k) with (-60 + el + k + 2) by lia.
  rewrite (compare_int_float_exp_mono c m _ 2 ltac:(lia) Hlo). reflexivity.
Qed.

Lemma literals_as_doubles :
  literal 1 100 = S754_finite false 5764607523034235 (-59)
  /\ literal 1 1000 = S754_finite false 4611686018427388 (-62)
  /\ literal 3 100 = S754_finite false 8646911284551352 (-58)
  /\ literal 5 1000 = S754_finite false 5764607523034235 (-60)
  /\ literal 2 100 = S754_finite false 5764607523034235 (-58).
Proof. repeat split; vm_compute; reflexivity. Qed.

Lemma add_points (holds : bool) (s n : Z) :
  (if holds then s + n else s) = s + points holds n.
Proof. destruct holds; cbn; lia. Qed.

Section Components.

Variables liquidity : Z.
Hypothesis liquidity_range : 1 <= liquidity < 2 ^ 1023.

Lemma dex_activity_score_double (dex_volume dex_trades : Z) :
  in_range dex_volume ->
  Monitor.dex_activity_score liquidity dex_volume dex_trades
  = Ok (double_dex liquidity dex_volume dex_trades).
Proof.
  intros Hv.
  destruct (nearest_double_of_int_pos liquidity liquidity_range)
    as (ml & el & HfL & Hel).
  destruct literals_as_doubles as (H01 & _).
  unfold Monitor.dex_activity_score, Monitor.dex_ratio,
    Monitor.baseline_volume_of, double_dex, times, over, double.
  rewrite H01, HfL.
  unfold Monitor.lit_0_01, mul. cbn [to_float].
  rewrite (float_of_int_in_range liquidity), HfL by lia.
  unfold mbind, result_bind.
  destruct (SFmul_pos ml 5764607523034235 el (-59) ltac:(lia))
    as (mb & k & _ & Hk & ->).
  unfold truediv. cbn [to_float].
  rewrite (float_of_int_in_range dex_volume) by exact Hv.
  destruct (_ <=? _).
  - unfold gt. rewrite lt_0_finite.
    unfold mbind, result_bind. cbn [float_is_zero]. cbv beta iota.
    rewrite dex_bands, add_points. reflexivity.
  - unfold gt, lt at 1. cbn [compare compare_int_float].
    unfold mbind, result_bind. cbn [float_is_zero]. cbv beta iota.
    rewrite dex_bands, add_points. reflexivity.
Qed.

Lemma whale_pressure_score_double (whale_sell_total whale_count_selling : Z) :
  in_range whale_sell_total ->
  Monitor.whale_pressure_score liquidity whale_sell_total whale_count_selling
  = Ok (double_whale liquidity whale_sell_total whale_count_selling).
Proof.
  intros Hw.
  destruct literals_as_doubles as (H01 & H001 & H03 & _).
  unfold Monitor.whale_pressure_score, double_whale, truediv.
  rewrite int_truediv_in_range by (try exact Hw; lia).
  rewrite H01, H001, H03.
  unfold fmap, result_fmap, mbind, result_bind.
  rewrite whale_bands, add_points. reflexivity.
Qed.

Lemma cex_inflow_score_double (cex_net_inflow : Z) :
  Monitor.cex_inflow_score liquidity cex_net_inflow
  = Ok (double_cex liquidity cex_net_inflow).
Proof.
  destruct (nearest_double_of_int_pos liquidity liquidity_range)
    as (ml & el & HfL & Hel).
  destruct literals_as_doubles as (_ & _ & _ & H005 & H02).
  unfold Monitor.cex_inflow_score, double_cex, times, double.
  rewrite H005, H02, HfL.
  unfold Monitor.lit_0_005, Monitor.lit_0_02, mul. cbn [to_float].
  rewrite (float_of_int_in_range liquidity), HfL by lia.
  unfold mbind, result_bind.
  set (c := Int cex_net_inflow).
  set (lo := Flt (SFmul prec emax (S754_finite false 5764607523034235 (-60))
                        (S754_finite false ml el))).
  set (hi := Flt (SFmul prec emax (S754_finite false 5764607523034235 (-58))
                        (S754_finite false ml el))).
  pose proof (lt_not_le c lo) as H12.
  pose proof (cex_bands_apart ml el cex_net_inflow Hel) as H13.
  cbn zeta in H13. fold c lo hi in H13.
  pose proof (lt_not_le c hi) as H23.
  unfold ge.
  destruct (lt (Int 0) c), (lt c lo), (le lo c), (lt c hi), (le hi c);
    cbn; try reflexivity;
    try (discriminate (H12 eq_refl)); try (discriminate (H13 eq_refl));
    discriminate (H23 eq_refl).
Qed.

End Components.

Lemma liquidity_or_1_floor (m : Monitor.Metrics) :
  Monitor.liquidity_or_1 m <> 0
  /\ (Monitor.pool_liquidity m = 0 -> Monitor.liquidity_or_1 m = 1)
  /\ (0 <= Monitor.pool_liquidity m ->
      Monitor.liquidity_or_1 m = Z.max 1 (Monitor.pool_liquidity m)).
Proof.
  unfold Monitor.liquidity_or_1.
  destruct (Z.eqb_spec (Monitor.pool_liquidity m) 0); lia.
Qed.

(** The code computes the scores of section 4.7 read over the doubles. *)
Lemma score_metrics_double (m : Monitor.Metrics) :
  0 <= Monitor.pool_liquidity m ->
  in_range (Monitor.pool_liquidity m) ->
  in_range (Monitor.dex_volume m) ->
  in_range (Monitor.whale_sell_total m) ->
  Monitor.score_metrics m = Ok (double_scored m).
Proof.
  intros H0 HL Hv Hw. unfold Monitor.score_metrics, double_scored.
  rewrite (proj2 (proj2 (liquidity_or_1_floor m)) H0).
  assert (1 <= Z.max 1 (Monitor.pool_liquidity m) < 2 ^ 1023) as Hrange
      by (unfold in_range in HL; lia).
  rewrite (dex_activity_score_double _ Hrange _ _ Hv).
  rewrite (whale_pressure_score_double _ Hrange _ _ Hw).
  rewrite (cex_inflow_score_double _ Hrange).
  reflexivity.
Qed.

(** ** Exceptions of the score *)

Lemma float_of_int_raises (z : Z) (e : exn) :
  float_of_int z = Raise e -> e = OverflowError.
Proof.
  unfold float_of_int. destruct (nearest_double_of_int z); congruence.
Qed.

Lemma to_float_raises (x : num) (e : exn) :
  to_float x = Raise e -> e = OverflowError.
Proof. destruct x; cbn; [apply float_of_int_raises | discriminate]. Qed.

Lemma mul_raises (x y : num) (e : exn) :
  mul x y = Raise e -> e = OverflowError.
Proof.
  unfold mul, mbind, result_bind.
  destruct x as [a | f], y as [b | g]; try discriminate;
    repeat match goal with
           | |- context [to_float ?x] =>
             let H := fresh in
             destruct (to_float x) eqn:H;
             [| apply to_float_raises in H; congruence]
           end; discriminate.
Qed.

Lemma int_truediv_raises (a b : Z) (e : exn) :
  b <> 0 -> int_truediv a b = Raise e -> e = OverflowError.
Proof.
  intros Hb. unfold int_truediv. rewrite (proj2 (Z.eqb_neq b 0) Hb).
  destruct (nearest_double_of_quotient a b); congruence.
Qed.

(** A double above 0 is not a zero. *)
Lemma gt_0_not_zero (b : float) :
  gt (Flt b) (Int 0) = true -> float_is_zero b = false.
Proof. destruct b; cbn; congruence. Qed.

Lemma dex_ratio_raises (liquidity dex_volume : Z) (e : exn) :
  Monitor.dex_ratio liquidity dex_volume = Raise e -> e = OverflowError.
Proof.
  unfold Monitor.dex_ratio, Monitor.baseline_volume_of, Monitor.lit_0_01, mul.
  cbn [to_float]. unfold mbind, result_bind.
  destruct (float_of_int liquidity) as [fl |] eqn:Hl;
    [| intros [= <-]; apply (float_of_int_raises _ _ Hl)].
  set (b := SFmul prec emax fl _).
  destruct (gt (Flt b) (Int 0)) eqn:Hgt; [| discriminate].
  unfold truediv, mbind, result_bind. cbn [to_float].
  destruct (float_of_int dex_volume) eqn:Hv;
    [| intros [= <-]; apply (float_of_int_raises _ _ Hv)].
  rewrite (gt_0_not_zero b Hgt). discriminate.
Qed.

(** Whatever the integers of the bundle, the only exception the score can
raise is [OverflowError]. *)
Lemma score_metrics_raises (m : Monitor.Metrics) (e : exn) :
  Monitor.score_metrics m = Raise e -> e = OverflowError.
Proof.
  unfold Monitor.score_metrics, Monitor.dex_activity_score,
    Monitor.whale_pressure_score, Monitor.cex_inflow_score.
  destruct (liquidity_or_1_floor m) as (Hnz & _).
  set (liquidity := Monitor.liquidity_or_1 m) in *.
  unfold mbind at 1, result_bind at 1.
  unfold mbind at 1, result_bind at 1.
  destruct (Monitor.dex_ratio liquidity _) as [r |] eqn:Hr;
    [| intros [= <-]; apply (dex_ratio_raises _ _ _ Hr)].
  unfold mbind at 1, result_bind at 1.
  unfold mbind at 1, result_bind at 1.
  unfold truediv, fmap, result_fmap.
  destruct (int_truediv _ liquidity) as [p |] eqn:Hp;
    [| intros [= <-]; apply (int_truediv_raises _ _ _ Hnz Hp)].
  unfold mbind, result_bind.
  repeat match goal with
         | |- context [mul ?x ?y] =>
           let H := fresh in
           destruct (mul x y) eqn:H;
           [| repeat match goal with
                     | |- context [if ?c then _ else _] => destruct c
                     end;
              try discriminate; intros [= <-]; apply (mul_raises _ _ _ H)]
         end.
  repeat match goal with
         | |- context [if ?c then _ else _] => destruct c
         end; discriminate.
Qed.


(** ** Division by zero *)

(** One step of a sequence of calls that may raise, when the call
returns. *)
Ltac bind_ok := change (mbind ?f (Ok ?x)) with (f x); cbv beta.

Lemma mul_int_literal (z : Z) (g : float) :
  in_range z ->
  mul (Int z) (Flt g) = Ok (Flt (SFmul prec emax (nearest_double_of_int z) g))
  /\ mul (Flt g) (Int z) = Ok (Flt (SFmul prec emax g (nearest_double_of_int z))).
Proof.
  intros Hz. unfold mul. cbn [to_float].
  rewrite (float_of_int_in_range z Hz). split; reflexivity.
Qed.

(** With integers that doubles hold, the score is computed, whatever the
sign of the liquidity. *)
Lemma score_metrics_total (m : Monitor.Metrics) :
  in_range (Monitor.pool_liquidity m) ->
  in_range (Monitor.dex_volume m) ->
  in_range (Monitor.whale_sell_total m) ->
  exists s, Monitor.score_metrics m = Ok s.
Proof.
  intros HL Hv Hw.
  assert (in_range (Monitor.liquidity_or_1 m)
          /\ Monitor.liquidity_or_1 m <> 0) as [HL1 HL0].
  { unfold Monitor.liquidity_or_1, in_range in *.
    destruct (Z.eqb_spec (Monitor.pool_liquidity m) 0); split; lia. }
  unfold Monitor.score_metrics.
  set (L := Monitor.liquidity_or_1 m) in *.
  assert (exists dex, Monitor.dex_activity_score L (Monitor.dex_volume m)
                        (Monitor.dex_trades m) = Ok dex) as [dex ->].
  { unfold Monitor.dex_activity_score, Monitor.dex_ratio,
      Monitor.baseline_volume_of, Monitor.lit_0_01.
    rewrite (proj1 (mul_int_literal L _ HL1)). bind_ok.
    destruct (gt _ (Int 0)) eqn:Hgt; [| bind_ok; eauto].
    unfold truediv. cbn [to_float].
    rewrite (float_of_int_in_range _ Hv). do 2 bind_ok.
    rewrite (gt_0_not_zero _ Hgt). bind_ok. eauto. }
  assert (exists whale, Monitor.whale_pressure_score L (Monitor.whale_sell_total m)
                          (Monitor.whale_count_selling m) = Ok whale)
    as [whale ->].
  { unfold Monitor.whale_pressure_score, truediv.
    rewrite (int_truediv_in_range _ _ Hw HL0). cbn [fmap result_fmap].
    bind_ok. eauto. }
  assert (exists cex, Monitor.cex_inflow_score L (Monitor.cex_net_inflow m) = Ok cex)
    as [cex ->].
  { unfold Monitor.cex_inflow_score, Monitor.lit_0_005, Monitor.lit_0_02.
    rewrite !(proj2 (mul_int_literal L _ HL1)).
    unfold mbind, result_bind. repeat case_match; eauto; discriminate. }
  do 3 bind_ok. eauto.
Qed.

Lemma level_of_score_range (score : Z) : 0 <= Monitor.level_of_score score <= 3.
Proof. unfold Monitor.level_of_score. repeat case_match; lia. Qed.

Lemma score_metrics_level m s :
  Monitor.score_metrics m = Ok s -> 0 <= Monitor.level s <= 3.
Proof.
  unfold Monitor.score_metrics, mbind, result_bind.
  repeat case_match; try discriminate. intros [= <-]. apply level_of_score_range.
Qed.

(** C9, as stated, at a negative liquidity: [or 1] replaces a liquidity of
0 only, so that a liquidity of -100 is used as it is and is not floored at
1. With a net outflow of 1 the code compares it with 0.02 * (-100) = -2,
scores 30 for the exchanges and returns level 1; with the liquidity floored
at 1 all scores are 0 and the level is 0, in exact arithmetic and over the
doubles. *)
Lemma liquidity_below_zero_is_not_floored :
  Monitor.liquidity_or_1 Sample.negative_pool = -100
  /\ Monitor.score_metrics Sample.negative_pool
     = Ok {| Monitor.dex_score := 0; Monitor.whale_score := 0;
             Monitor.cex_score := 30; Monitor.score := 30;
             Monitor.level := 1 |}
  /\ exact_level Sample.negative_pool = 0
  /\ Monitor.level (double_scored Sample.negative_pool) = 0.
Proof. repeat split; vm_compute; reflexivity. Qed.

(** C9 (amended). For every metrics bundle of integers, whatever the pool
liquidity, [compute_risk_level] raises no division error: the only
exception it can raise is the overflow of an integer that no double holds.
The liquidity used as a denominator is never 0: a liquidity of 0 is
replaced by 1, so that a liquidity that is not negative is floored at 1; a
negative liquidity is used as it is. The DEX ratio is 0 when the baseline
volume is not positive. With a liquidity, a DEX volume and a whale total
below 2^1023 in absolute value the function returns a level between 0 and
3. *)
Theorem compute_risk_level_no_zero_division :
  (forall m e, Monitor.compute_risk_level m = Raise e -> e = OverflowError)
  /\ (forall m,
        Monitor.liquidity_or_1 m <> 0
        /\ (Monitor.pool_liquidity m = 0 -> Monitor.liquidity_or_1 m = 1)
        /\ (0 <= Monitor.pool_liquidity m ->
            Monitor.liquidity_or_1 m = Z.max 1 (Monitor.pool_liquidity m))
        /\ (Monitor.pool_liquidity m < 0 ->
            Monitor.liquidity_or_1 m = Monitor.pool_liquidity m))
  /\ (forall liquidity dex_volume baseline,
        Monitor.baseline_volume_of liquidity = Ok baseline ->
        gt baseline (Int 0) = false ->
        Monitor.dex_ratio liquidity dex_volume = Ok (Int 0))
  /\ (forall m,
        in_range (Monitor.pool_liquidity m) ->
        in_range (Monitor.dex_volume m) ->
        in_range (Monitor.whale_sell_total m) ->
        exists level,
          Monitor.compute_risk_level m = Ok level /\ 0 <= level <= 3).
Proof.
  split; [| split; [| split]].
  - intros m e. unfold Monitor.compute_risk_level, fmap, result_fmap.
    destruct (Monitor.score_metrics m) eqn:Hs; [discriminate |].
    intros [= <-]. apply (score_metrics_raises m _ Hs).
  - intros m. destruct (liquidity_or_1_floor m) as (Hne & H0 & Hfloor).
    repeat split; try assumption.
    unfold Monitor.liquidity_or_1.
    destruct (Z.eqb_spec (Monitor.pool_liquidity m) 0); lia.
  - intros liquidity dex_volume baseline Hb Hgt.
    unfold Monitor.dex_ratio, mbind, result_bind. rewrite Hb, Hgt. reflexivity.
  - intros m HL Hv Hw. unfold Monitor.compute_risk_level.
    destruct (score_metrics_total m HL Hv Hw) as [s Hs]. rewrite Hs.
    exists (Monitor.level s). split; [reflexivity |].
    apply (score_metrics_level m s Hs).
Qed.

(** The vector of section 8.2 over a pool with liquidity 0, and the pool
with a negative liquidity. *)
Lemma compute_risk_level_no_zero_division_witness :
  Monitor.liquidity_or_1 Sample.zero_liquidity = 1
  /\ (exists level,
        Monitor.compute_risk_level Sample.zero_liquidity = Ok level
        /\ 0 <= level <= 3)
  /\ Monitor.liquidity_or_1 Sample.negative_pool = -100
  /\ (exists level,
        Monitor.compute_risk_level Sample.negative_pool = Ok level
        /\ 0 <= level <= 3).
Proof.
  destruct compute_risk_level_no_zero_division as (_ & Hfloor & _ & Htotal).
  split; [| split; [| split]].
  - apply (proj1 (proj2 (Hfloor Sample.zero_liquidity))). reflexivity.
  - apply (Htotal Sample.zero_liquidity); reflexivity.
  - apply (proj2 (proj2 (proj2 (Hfloor Sample.negative_pool)))). reflexivity.
  - apply (Htotal Sample.negative_pool); reflexivity.
Defined.

(** ** The level of a metrics bundle *)

(** C2, as stated, with the ratios and thresholds of section 4.7 taken as
exact numbers.  For a pool of 140 units, a volume of 7 and 201 swaps the
ratio is 7 / 1.4 = 5, which scores 30 + 10 and gives level 2; the code
computes 140 * 0.01 = 1.4000000000000001 and a ratio below 5, scores
20 + 10 and returns level 1.  For a volume of 2^1024 the code raises an
overflow error and returns no level. *)
Lemma compute_risk_level_not_exact :
  Monitor.compute_risk_level Sample.ratio_five = Ok 1
  /\ exact_level Sample.ratio_five = 2
  /\ Monitor.compute_risk_level Sample.huge_volume = Raise OverflowError.
Proof. repeat split; vm_compute; reflexivity. Qed.

(** C2 (amended). For every metrics bundle whose pool liquidity is not
negative and whose pool liquidity, DEX volume and whale sell total are
below 2^1023 in absolute value, [compute_risk_level] returns the level
obtained by summing the component scores of section 4.7 and mapping the
total (below 20 to 0, below 40 to 1, below 70 to 2, otherwise 3), where the
liquidity L is floored at 1 and the quantities of section 4.7 are computed
in binary64 arithmetic: a decimal literal is its nearest double; the
baseline 0.01 L and the thresholds 0.005 L and 0.02 L are the rounded
products of a literal and the double nearest to L; r is the rounded
quotient of the double nearest to the DEX volume by the baseline; p is the
exact quotient of the whale total by L, rounded once; integers are
compared with doubles exactly. The vector of section 8.2 yields the
component scores 10, 10, 10, the total 30 and level 1. *)
Theorem compute_risk_level_binary64 :
  (forall m,
      0 <= Monitor.pool_liquidity m ->
      in_range (Monitor.pool_liquidity m) ->
      in_range (Monitor.dex_volume m) ->
      in_range (Monitor.whale_sell_total m) ->
      Monitor.score_metrics m = Ok (double_scored m)
      /\ Monitor.compute_risk_level m
         = Ok (level_of_total
                 (Monitor.dex_score (double_scored m)
                  + Monitor.whale_score (double_scored m)
                  + Monitor.cex_score (double_scored m))))
  /\ Monitor.score_metrics Sample.boundaries
     = Ok {| Monitor.dex_score := 10; Monitor.whale_score := 10;
             Monitor.cex_score := 10; Monitor.score := 30;
             Monitor.level := 1 |}
  /\ Monitor.compute_risk_level Sample.boundaries = Ok 1.
Proof.
  split; [| split; vm_compute; reflexivity].
  intros m H0 HL Hv Hw. unfold Monitor.compute_risk_level.
  rewrite (score_metrics_double m H0 HL Hv Hw). split; reflexivity.
Qed.

(** The high-risk vector of section 8.3. *)
Lemma compute_risk_level_binary64_witness :
  Monitor.score_metrics Sample.high_case = Ok (double_scored Sample.high_case)
  /\ Monitor.compute_risk_level Sample.high_case = Ok 3.
Proof.
  destruct (proj1 compute_risk_level_binary64 Sample.high_case)
    as [Hs Hl]; [cbn; lia | reflexivity ..|].
  split; [exact Hs |]. rewrite Hl. vm_compute. reflexivity.
Defined.

(** * Further properties of the code *)

(** ** The block explorer: letter case *)

Lemma lower_ascii_idempotent (c : ascii) : lower_ascii (lower_ascii c) = lower_ascii c.
Proof. destruct c as [[] [] [] [] [] [] [] []]; reflexivity. Qed.

Lemma lower_idempotent (s : string) : lower (lower s) = lower s.
Proof.
  unfold lower. rewrite list_ascii_of_string_of_list_ascii, map_map.
  f_equal. apply map_ext. intros c. apply lower_ascii_idempotent.
Qed.

(** X1. The address of the block explorer depends on the network name
only up to letter case: it is the Sepolia address exactly for the names
sepolia and sepolia-testnet, in any case, and the mainnet address for every
other name, known or not. *)
Theorem etherscan_base_url_by_network (network : string) :
  WhaleCex._etherscan_base_url (lower network) = WhaleCex._etherscan_base_url network
  /\ (lower network ∈ ["sepolia"; "sepolia-testnet"] ->
      WhaleCex._etherscan_base_url network = "https://api-sepolia.etherscan.io/api")
  /\ (lower network ∉ ["sepolia"; "sepolia-testnet"] ->
      WhaleCex._etherscan_base_url network = "https://api.etherscan.io/api").
Proof.
  unfold WhaleCex._etherscan_base_url. rewrite lower_idempotent.
  split; [reflexivity |]. split; intros H.
  - rewrite (bool_decide_eq_true_2 _ H).
    rewrite bool_decide_eq_false_2; [reflexivity |].
    intros H'. apply list_elem_of_In in H, H'. cbn in H, H'.
    intuition congruence.
  - rewrite (bool_decide_eq_false_2 _ H). destruct (bool_decide _); reflexivity.
Qed.

Lemma etherscan_base_url_by_network_witness :
  WhaleCex._etherscan_base_url "Sepolia" = "https://api-sepolia.etherscan.io/api"
  /\ WhaleCex._etherscan_base_url "goerli" = "https://api.etherscan.io/api".
Proof.
  split.
  - apply (etherscan_base_url_by_network "Sepolia"). constructor.
  - apply (etherscan_base_url_by_network "goerli").
    intros H. apply list_elem_of_In in H. cbn in H. intuition discriminate.
Defined.

(** ** Loops *)

Lemma for_each_app {A S} (f : S -> A -> result S) (s : S) (l1 l2 : list A) :
  for_each f s (l1 ++ l2) = for_each f s l1 ≫= fun s' => for_each f s' l2.
Proof.
  revert s. induction l1 as [| a l1 IH]; intros s; [reflexivity |].
  cbn [for_each app]. unfold mbind, result_bind in *.
  destruct (f s a); [apply IH | reflexivity].
Qed.

Lemma for_each_shift {A S} (f : S -> A -> result S) (g : S -> S) (l : list A) :
  (forall s a, In a l -> f (g s) a = g <$> f s a) ->
  forall s, for_each f (g s) l = g <$> for_each f s l.
Proof.
  induction l as [| a l IH]; intros Hf s; [reflexivity |].
  cbn [for_each]. rewrite Hf by (left; reflexivity).
  unfold mbind, result_bind. destruct (f s a); cbn; [| reflexivity].
  apply IH. intros s' a' Ha'. apply Hf. right. exact Ha'.
Qed.

Lemma for_each_invariant {A St} (f : St -> A -> result St) (P : nat -> St -> Prop)
      (l : list A) :
  (forall n s a s', In a l -> P n s -> f s a = Ok s' -> P (S n) s') ->
  forall n s s', P n s -> for_each f s l = Ok s' -> P (n + length l)%nat s'.
Proof.
  induction l as [| a l IH]; intros Hf n s s' Hs; cbn [for_each length].
  - intros [= <-]. rewrite Nat.add_0_r. exact Hs.
  - unfold mbind, result_bind. destruct (f s a) as [s1 |] eqn:H1; [| discriminate].
    intros Hrest. replace (n + S (length l))%nat with (S n + length l)%nat by lia.
    eapply IH; [| | exact Hrest].
    + intros n' s2 a' s3 Ha'. apply Hf. right. exact Ha'.
    + eapply Hf; [left; reflexivity | exact Hs | exact H1].
Qed.

Lemma for_each_fixed {A St} (f : St -> A -> result St) (s : St) (l : list A) :
  (forall a, In a l -> f s a = Ok s) -> for_each f s l = Ok s.
Proof.
  induction l as [| a l IH]; intros Hf; [reflexivity |].
  cbn [for_each]. rewrite Hf by (left; reflexivity). cbn.
  apply IH. intros a' Ha'. apply Hf. right. exact Ha'.
Qed.

(** ** Whale metrics *)

(** X2. Whatever the block explorer answers, the whale metrics that
[fetch_whale_metrics] returns are consistent: the number of selling whales
lies between 0 and the number of whales asked about, every selling whale
adds at least 1 wei, so that the total is at least the count, and the total
is 0 when no whale sells. *)
Theorem whale_metrics_bounds
        (env : WhaleCex.Env) (whales cex_addresses : list string)
        (pair_address : string) (blocks_back : Z) (network : string)
        (whale_sell_total whale_count_selling : Z) :
  WhaleCex.fetch_whale_metrics_body env whales cex_addresses pair_address
                                    blocks_back network
  = Ok (whale_sell_total, whale_count_selling) ->
  0 <= whale_count_selling <= Z.of_nat (length whales)
  /\ whale_count_selling <= whale_sell_total
  /\ (whale_count_selling = 0 -> whale_sell_total = 0).
Proof.
  unfold WhaleCex.fetch_whale_metrics_body.
  destruct whales as [| w ws]; [intros [= <- <-]; cbn; lia |].
  unfold mbind at 1, result_bind at 1.
  destruct (WhaleCex.block_number env network) as [latest |]; [| discriminate].
  match goal with |- for_each ?f _ ?l = _ -> _ => set (step := f); set (l0 := l) end.
  intros H.
  apply (for_each_invariant step
           (fun n '(t, c) => 0 <= c <= Z.of_nat n /\ c <= t /\ (c = 0 -> t = 0))
           l0) with (n := 0%nat) in H; [exact H | | cbn; lia].
  clear H. intros n [t c] a [t' c'] _ (Hc & Ht & H0). unfold step.
  unfold mbind, result_bind. repeat case_match; try discriminate;
    intros [= <- <-]; lia.
Qed.

Lemma whale_metrics_bounds_witness :
  WhaleCex.fetch_whale_metrics_body Sample.env_indexed [Sample.whale]
    [Sample.exchange] Sample.pool 2000 "mainnet" = Ok (1500, 1)
  /\ 1 <= 1500.
Proof.
  split; [vm_compute; reflexivity |].
  apply (whale_metrics_bounds Sample.env_indexed [Sample.whale]
           [Sample.exchange] Sample.pool 2000 "mainnet" 1500 1).
  vm_compute. reflexivity.
Defined.

Lemma etherscan_get_silent env params network :
  explorer_silent env -> WhaleCex._etherscan_get env params network = Ok [].
Proof.
  unfold WhaleCex._etherscan_get. intros [-> | [-> | H]]; [reflexivity .. |].
  destruct (WhaleCex.ETHERSCAN_API_KEY env) as [[| c key] |]; try reflexivity.
  specialize (H (WhaleCex._etherscan_base_url network)
                (params ∪ {["apikey" := VStr (String c key)]})).
  destruct (WhaleCex.requests_get_json env _ _) as [[data | python_type] |];
    [| contradiction | reflexivity].
  rewrite bool_decide_eq_false_2 by exact H. reflexivity.
Qed.

Lemma fetch_normal_txs_silent env address start_block end_block network c :
  explorer_silent env ->
  WhaleCex.to_checksum_address env address = Ok c ->
  WhaleCex._fetch_normal_txs_in_range env address start_block end_block network
  = Ok [].
Proof.
  intros Hsilent Hc. unfold WhaleCex._fetch_normal_txs_in_range.
  rewrite Hc. cbn. apply (etherscan_get_silent _ _ _ Hsilent).
Qed.

(** An answer that is not a JSON object: [data.get] raises. *)
Lemma etherscan_get_not_an_object env python_type params network :
  explorer_not_an_object env python_type ->
  WhaleCex._etherscan_get env params network
  = Raise (AttributeError ("'" ++ python_type
                               ++ "' object has no attribute 'get'")%string).
Proof.
  intros [(key & Hkey & Hne) Hreply]. unfold WhaleCex._etherscan_get.
  rewrite Hkey, Hreply. destruct key; [contradiction | reflexivity].
Qed.

Lemma fetch_normal_txs_not_an_object
      env python_type address start_block end_block network c :
  explorer_not_an_object env python_type ->
  WhaleCex.to_checksum_address env address = Ok c ->
  WhaleCex._fetch_normal_txs_in_range env address start_block end_block network
  = Raise (AttributeError ("'" ++ python_type
                               ++ "' object has no attribute 'get'")%string).
Proof.
  intros Hreply Hc. unfold WhaleCex._fetch_normal_txs_in_range.
  rewrite Hc. cbn. apply (etherscan_get_not_an_object _ _ _ _ Hreply).
Qed.

(** X3. With the node answering and the addresses accepted by the codec:
when the block explorer gives nothing (no API key, an empty key, or every
request failing or answered by a JSON object whose status is not 1), the
whale metrics are [(0, 0)] and the net inflow of the exchanges is 0, without
an exception; when a key is set and the explorer answers with JSON that is
not an object, both calls raise [AttributeError] as soon as there is an
address to ask about, because [data.get] stands after the [try]. *)
Theorem metrics_zero_without_explorer
        (env : WhaleCex.Env) (whales cex_addresses : list string)
        (pair_address : string) (blocks_back latest : Z) (network : string) :
  WhaleCex.block_number env network = Ok latest ->
  valid_addresses env whales ->
  valid_addresses env cex_addresses ->
  (explorer_silent env ->
   WhaleCex.fetch_whale_metrics_body env whales cex_addresses pair_address
                                     blocks_back network = Ok (0, 0)
   /\ WhaleCex.fetch_cex_net_inflow_body env cex_addresses blocks_back network
      = Ok 0)
  /\ (forall python_type,
        explorer_not_an_object env python_type ->
        let error :=
          AttributeError ("'" ++ python_type
                              ++ "' object has no attribute 'get'")%string in
        (whales <> [] ->
         WhaleCex.fetch_whale_metrics_body env whales cex_addresses pair_address
                                           blocks_back network = Raise error)
        /\ (cex_addresses <> [] ->
            WhaleCex.fetch_cex_net_inflow_body env cex_addresses blocks_back
                                               network = Raise error)).
Proof.
  intros Hlatest Hwhales Hcexs. unfold valid_addresses in Hwhales, Hcexs.
  split.
  - intros Hsilent. rewrite List.Forall_forall in Hwhales, Hcexs. split.
    + unfold WhaleCex.fetch_whale_metrics_body.
      destruct whales as [| w ws]; [reflexivity |].
      rewrite Hlatest. bind_ok.
      apply for_each_fixed. intros a Ha.
      destruct (Hwhales a Ha) as (c & c' & Hc & Hc').
      rewrite Hc. bind_ok.
      rewrite (fetch_normal_txs_silent _ _ _ _ _ _ Hsilent Hc'). reflexivity.
    + unfold WhaleCex.fetch_cex_net_inflow_body.
      destruct cex_addresses as [| w ws]; [reflexivity |].
      rewrite Hlatest. bind_ok.
      rewrite for_each_fixed; [reflexivity |]. intros a Ha.
      destruct (Hcexs a Ha) as (c & c' & Hc & Hc').
      rewrite Hc. bind_ok.
      rewrite (fetch_normal_txs_silent _ _ _ _ _ _ Hsilent Hc'). reflexivity.
  - intros python_type Hreply error. split; intros Hne.
    + unfold WhaleCex.fetch_whale_metrics_body.
      destruct Hwhales as [| w ws (c & c' & Hc & Hc') _]; [contradiction |].
      rewrite Hlatest. bind_ok. cbn [for_each].
      rewrite Hc. bind_ok.
      rewrite (fetch_normal_txs_not_an_object _ _ _ _ _ _ _ Hreply Hc').
      reflexivity.
    + unfold WhaleCex.fetch_cex_net_inflow_body.
      destruct Hcexs as [| w ws (c & c' & Hc & Hc') _]; [contradiction |].
      rewrite Hlatest. bind_ok. cbn [for_each].
      rewrite Hc. bind_ok.
      rewrite (fetch_normal_txs_not_an_object _ _ _ _ _ _ _ Hreply Hc').
      reflexivity.
Qed.

Lemma metrics_zero_without_explorer_witness :
  (WhaleCex.fetch_whale_metrics_body Sample.env [Sample.whale] [Sample.exchange]
                                     Sample.pool 2000 "mainnet" = Ok (0, 0)
   /\ WhaleCex.fetch_cex_net_inflow_body Sample.env [Sample.exchange] 2000
                                         "mainnet" = Ok 0)
  /\ WhaleCex.fetch_cex_net_inflow_body Sample.env_null [Sample.exchange] 2000
                                        "mainnet"
     = Raise (AttributeError "'NoneType' object has no attribute 'get'").
Proof.
  split.
  - apply (metrics_zero_without_explorer Sample.env [Sample.whale]
             [Sample.exchange] Sample.pool 2000 19000000 "mainnet");
      [reflexivity | | | left; reflexivity];
      repeat constructor; eexists _, _; split; reflexivity.
  - destruct (metrics_zero_without_explorer Sample.env_null [Sample.whale]
                [Sample.exchange] Sample.pool 2000 19000000 "mainnet")
      as [_ Hraise];
      [reflexivity | repeat constructor; eexists _, _; split; reflexivity ..
      |].
    apply (Hraise "NoneType"); [| discriminate].
    split; [exists "KEY"; split; [reflexivity | discriminate] | reflexivity].
Defined.

(** X4. The whale metrics depend on the exchange addresses and the pool
address only through the set of their lower-case forms: letter case, order
and repetition do not matter, and the pool address is one more sell target
beside the exchange wallets. *)
Theorem whale_sell_targets_as_a_set
        (env : WhaleCex.Env) (whales cex_addresses cex_addresses' : list string)
        (pair_address pair_address' : string) (blocks_back : Z) (network : string) :
  (forall a, a ∈ map lower (pair_address :: cex_addresses)
             <-> a ∈ map lower (pair_address' :: cex_addresses')) ->
  WhaleCex.fetch_whale_metrics_body env whales cex_addresses pair_address
                                    blocks_back network
  = WhaleCex.fetch_whale_metrics_body env whales cex_addresses' pair_address'
                                      blocks_back network.
Proof.
  intros Hsame. unfold WhaleCex.fetch_whale_metrics_body.
  assert ((list_to_set (map lower cex_addresses) : gset string)
            ∪ {[ lower pair_address ]}
          = list_to_set (map lower cex_addresses') ∪ {[ lower pair_address' ]}) as ->;
    [| reflexivity].
  apply set_eq. intros a. specialize (Hsame a). cbn [map] in Hsame.
  rewrite !elem_of_cons in Hsame.
  rewrite !elem_of_union, !elem_of_list_to_set, !elem_of_singleton. tauto.
Qed.

Lemma whale_sell_targets_as_a_set_witness :
  WhaleCex.fetch_whale_metrics_body Sample.env_indexed [Sample.whale]
    [Sample.exchange] Sample.pool 2000 "mainnet"
  = WhaleCex.fetch_whale_metrics_body Sample.env_indexed [Sample.whale]
      [lower Sample.pool; lower Sample.exchange; Sample.exchange]
      Sample.exchange 2000 "mainnet".
Proof.
  apply whale_sell_targets_as_a_set. intros a. cbn [map].
  rewrite !lower_idempotent, !elem_of_cons. tauto.
Defined.

(** X5. The whale metrics are additive over the list of whales: when both
parts of a list give a result, the whole list gives the sums of the totals
and of the counts. *)
Theorem whale_metrics_additive
        (env : WhaleCex.Env) (whales1 whales2 cex_addresses : list string)
        (pair_address : string) (blocks_back : Z) (network : string)
        (total1 count1 total2 count2 : Z) :
  WhaleCex.fetch_whale_metrics_body env whales1 cex_addresses pair_address
                                    blocks_back network = Ok (total1, count1) ->
  WhaleCex.fetch_whale_metrics_body env whales2 cex_addresses pair_address
                                    blocks_back network = Ok (total2, count2) ->
  WhaleCex.fetch_whale_metrics_body env (whales1 ++ whales2) cex_addresses
                                    pair_address blocks_back network
  = Ok (total1 + total2, count1 + count2).
Proof.
  intros H1 H2.
  destruct whales1 as [| w1 ws1];
    [injection H1 as <- <-; cbn [app]; rewrite H2; reflexivity |].
  destruct whales2 as [| w2 ws2];
    [injection H2 as <- <-; rewrite app_nil_r, H1; do 2 f_equal; lia |].
  revert H1 H2. cbn [app]. unfold WhaleCex.fetch_whale_metrics_body.
  destruct (WhaleCex.block_number env network) as [latest |]; [| discriminate].
  bind_ok.
  match goal with |- for_each ?f _ _ = _ -> _ => set (step := f) end.
  intros H1 H2.
  change (w1 :: ws1 ++ w2 :: ws2) with ((w1 :: ws1) ++ (w2 :: ws2)).
  rewrite for_each_app, H1. bind_ok.
  change (total1, count1)
    with ((fun '(t, c) => (t + total1, c + count1)) (0, 0)).
  rewrite for_each_shift, H2; [cbn; do 2 f_equal; lia |].
  clear. intros [t c] a _. unfold step, mbind, result_bind.
  repeat case_match; try reflexivity; cbn; do 2 f_equal; lia.
Qed.

Lemma whale_metrics_additive_witness :
  WhaleCex.fetch_whale_metrics_body Sample.env_indexed
    ([Sample.whale] ++ [Sample.whale]) [Sample.exchange] Sample.pool 2000
    "mainnet"
  = Ok (1500 + 1500, 1 + 1).
Proof.
  apply whale_metrics_additive; vm_compute; reflexivity.
Defined.

(** ** Net inflow of the exchanges *)



(** ** The ranges of the scores *)

Lemma dex_activity_score_range liquidity dex_volume dex_trades score :
  Monitor.dex_activity_score liquidity dex_volume dex_trades = Ok score ->
  (score = 0 \/ score = 10 \/ score = 20 \/ score = 30 \/ score = 40)
  /\ (score = 40 -> 200 < dex_trades).
Proof.
  unfold Monitor.dex_activity_score, mbind, result_bind.
  destruct (Monitor.dex_ratio liquidity dex_volume) as [r |]; [| discriminate].
  destruct (Z.gtb_spec dex_trades 200); repeat case_match; intros [= <-]; lia.
Qed.

Lemma whale_pressure_score_range liquidity whale_sell_total whale_count_selling score :
  Monitor.whale_pressure_score liquidity whale_sell_total whale_count_selling
  = Ok score ->
  score = 0 \/ score = 5 \/ score = 10 \/ score = 15 \/ score = 20
  \/ score = 25 \/ score = 30 \/ score = 35.
Proof.
  unfold Monitor.whale_pressure_score, mbind, result_bind.
  destruct (truediv _ _) as [p |]; [| discriminate].
  repeat case_match; intros [= <-]; lia.
Qed.

Lemma cex_inflow_score_range liquidity cex_net_inflow score :
  Monitor.cex_inflow_score liquidity cex_net_inflow = Ok score ->
  score = 0 \/ score = 10 \/ score = 20 \/ score = 30.
Proof.
  unfold Monitor.cex_inflow_score, mbind, result_bind.
  repeat case_match; try discriminate; intros [= <-]; lia.
Qed.

(** X7. Whenever [compute_risk_level] returns, the DEX score is one of 0,
10, 20, 30, 40, the whale score a multiple of 5 up to 35, the exchange score
one of 0, 10, 20, 30; the total is their sum, between 0 and 105, and the
level is between 0 and 3. Level 3 needs a DEX score above 0 together with a
whale or an exchange score above 0: the whale and exchange factors alone
reach 65 at most. *)
Theorem score_ranges (m : Monitor.Metrics) (s : Monitor.Scored) :
  Monitor.score_metrics m = Ok s ->
  Monitor.dex_score s ∈ [0; 10; 20; 30; 40]
  /\ Monitor.whale_score s ∈ [0; 5; 10; 15; 20; 25; 30; 35]
  /\ Monitor.cex_score s ∈ [0; 10; 20; 30]
  /\ Monitor.score s
     = Monitor.dex_score s + Monitor.whale_score s + Monitor.cex_score s
  /\ 0 <= Monitor.score s <= 105
  /\ Monitor.compute_risk_level m = Ok (Monitor.level s)
  /\ 0 <= Monitor.level s <= 3
  /\ (Monitor.level s = 3 ->
      0 < Monitor.dex_score s
      /\ (0 < Monitor.whale_score s \/ 0 < Monitor.cex_score s)).
Proof.
  intros Hs. unfold Monitor.compute_risk_level. rewrite Hs. revert Hs.
  unfold Monitor.score_metrics, mbind, result_bind.
  destruct (Monitor.dex_activity_score _ _ _) as [dex |] eqn:Hdex; [| discriminate].
  destruct (Monitor.whale_pressure_score _ _ _) as [whale |] eqn:Hwhale;
    [| discriminate].
  destruct (Monitor.cex_inflow_score _ _) as [cex |] eqn:Hcex; [| discriminate].
  intros [= <-]. cbn.
  apply dex_activity_score_range in Hdex as [Hdex _].
  apply whale_pressure_score_range in Hwhale.
  apply cex_inflow_score_range in Hcex.
  unfold Monitor.level_of_score.
  repeat split; try (rewrite !elem_of_cons; lia); try lia;
    repeat case_match; lia.
Qed.

Lemma score_ranges_witness :
  Monitor.compute_risk_level Sample.high_case = Ok 3
  /\ Monitor.score <$> Monitor.score_metrics Sample.high_case = Ok 105.
Proof.
  split; [| vm_compute; reflexivity].
  eapply proj1, proj2, proj2, proj2, proj2, proj2,
    (score_ranges Sample.high_case
       {| Monitor.dex_score := 40; Monitor.whale_score := 35;
          Monitor.cex_score := 30; Monitor.score := 105; Monitor.level := 3 |}).
  vm_compute. reflexivity.
Defined.

(** ** A quiet market *)

Lemma lt_nonpos_finite (c : Z) (m : positive) (e : Z) :
  c <= 0 -> lt (Int c) (Flt (S754_finite false m e)) = true.
Proof.
  intros Hc. unfold lt, compare, compare_int_float.
  destruct (Z.leb_spec 0 e) as [He | He].
  - assert (0 < Z.pos m * 2 ^ e) as H
        by (apply Z.mul_pos_pos; [lia | apply Z.pow_pos_nonneg; lia]).
    assert (c < Z.pos m * 2 ^ e) as H' by lia.
    apply Z.compare_lt_iff in H'. rewrite H'. reflexivity.
  - assert (0 < 2 ^ (- e)) as H by (apply Z.pow_pos_nonneg; lia).
    assert (c * 2 ^ (- e) <= 0) as H' by nia.
    assert (c * 2 ^ (- e) < Z.pos m) as H'' by lia.
    apply Z.compare_lt_iff in H''. rewrite H''. reflexivity.
Qed.

Lemma times_positive (m1 m2 : positive) (e1 e2 : Z) :
  -1021 <= e1 + e2 ->
  positive_double (SFmul prec emax (S754_finite false m1 e1) (S754_finite false m2 e2)).
Proof.
  intros H. destruct (SFmul_pos m1 m2 e1 e2 H) as (m & k & _ & _ & ->).
  destruct (_ <=? _); [left; eauto | right; reflexivity].
Qed.

Lemma le_positive_nonpos (f : float) (c : Z) :
  positive_double f -> c <= 0 -> le (Flt f) (Int c) = false.
Proof.
  intros [(m & e & ->) | ->] Hc.
  - apply lt_not_le, lt_nonpos_finite, Hc.
  - reflexivity.
Qed.

Lemma zero_over_positive (f : float) :
  positive_double f ->
  float_is_zero f = false /\ SFdiv prec emax (S754_zero false) f = S754_zero false.
Proof. intros [(m & e & ->) | ->]; split; reflexivity. Qed.

(** X8. A quiet market scores nothing: with no DEX volume, at most 200
swaps, no whale sale, fewer than 3 selling whales and no net inflow into the
exchanges, over a pool whose liquidity is below 2^1023 and not negative, the
three scores, the total and the level are 0. *)
Theorem quiet_market_scores_zero (m : Monitor.Metrics) :
  0 <= Monitor.pool_liquidity m < 2 ^ 1023 ->
  Monitor.dex_volume m = 0 ->
  Monitor.dex_trades m <= 200 ->
  Monitor.whale_sell_total m = 0 ->
  Monitor.whale_count_selling m < 3 ->
  Monitor.cex_net_inflow m <= 0 ->
  Monitor.score_metrics m
  = Ok {| Monitor.dex_score := 0; Monitor.whale_score := 0;
          Monitor.cex_score := 0; Monitor.score := 0; Monitor.level := 0 |}.
Proof.
  intros HL Hv Ht Hw Hc Hcex.
  rewrite score_metrics_double; unfold in_range; rewrite ?Hv, ?Hw; try lia.
  unfold double_scored. rewrite Hv, Hw.
  set (L := Z.max 1 (Monitor.pool_liquidity m)).
  assert (1 <= L < 2 ^ 1023) as HLrange by (unfold L; lia).
  destruct (nearest_double_of_int_pos L HLrange) as (ml & el & HfL & Hel).
  destruct literals_as_doubles as (H01 & H001 & H03 & H005 & H02).
  assert (double_dex L 0 (Monitor.dex_trades m) = 0) as ->.
  { unfold double_dex, times, over, double. rewrite H01, HfL.
    destruct (zero_over_positive _ (times_positive ml 5764607523034235 el (-59)
                                      ltac:(lia))) as [-> Hdiv].
    change (nearest_double_of_int 0) with (S754_zero false). rewrite Hdiv.
    destruct (Z.gtb_spec (Monitor.dex_trades m) 200); [lia | reflexivity]. }
  assert (double_whale L 0 (Monitor.whale_count_selling m) = 0) as ->.
  { unfold double_whale. rewrite H01, H001, H03.
    change (nearest_double_of_quotient 0 L) with (S754_zero (L <? 0)).
    destruct (Z.geb_spec (Monitor.whale_count_selling m) 3); [lia |].
    destruct (L <? 0); reflexivity. }
  assert (double_cex L (Monitor.cex_net_inflow m) = 0) as ->.
  { unfold double_cex, times, double. rewrite H005, H02, HfL.
    rewrite !le_positive_nonpos by (try apply times_positive; lia).
    assert (lt (Int 0) (Int (Monitor.cex_net_inflow m)) = false) as ->.
    { unfold lt, compare. destruct (Z.compare_spec 0 (Monitor.cex_net_inflow m));
        try reflexivity; lia. }
    reflexivity. }
  reflexivity.
Qed.

Lemma quiet_market_scores_zero_witness :
  Monitor.compute_risk_level Sample.quiet = Ok 0.
Proof.
  unfold Monitor.compute_risk_level.
  rewrite quiet_market_scores_zero; [reflexivity | cbn; lia ..].
Defined.

(** ** The market the monitor watches *)

(** X9. [get_default_dex_market] returns the first entry of type
[dex_pool], in the order of the file; it raises a [RuntimeError] exactly
when the file has no such entry. *)
Theorem default_dex_market_is_first (markets : list (gmap string string)) :
  match Monitor.get_default_dex_market markets with
  | Ok m =>
    m !! "type" = Some "dex_pool"
    /\ exists before after,
         markets = before ++ m :: after
         /\ Forall (fun c => c !! "type" <> Some "dex_pool") before
  | Raise e =>
    (exists msg, e = RuntimeError msg)
    /\ Forall (fun c => c !! "type" <> Some "dex_pool") markets
  end.
Proof.
  unfold Monitor.get_default_dex_market.
  induction markets as [| c cs IH]; [cbn; eauto |].
  destruct (decide (c !! "type" = Some "dex_pool")) as [Hc | Hc].
  - rewrite filter_cons_True by exact Hc.
    split; [exact Hc |]. exists [], cs. split; [reflexivity | constructor].
  - rewrite filter_cons_False by exact Hc.
    destruct (filter _ cs) as [| m ms].
    + destruct IH as [Hmsg Hcs]. split; [exact Hmsg | constructor; assumption].
    + destruct IH as (Hm & before & after & -> & Hbefore).
      split; [exact Hm |]. exists (c :: before), after.
      split; [reflexivity | constructor; assumption].
Qed.

(** X10. The monitor reads the pool address under the key [pairAddress]
only. For a pool entry that carries its address under [address], which the
API server accepts and shows, the monitor stops before its first cycle with
[KeyError: 'pairAddress']. *)
Theorem monitor_needs_pairAddress
        (markets : list (gmap string string)) (dex : gmap string string)
        (blocks_back : Z) :
  Monitor.get_default_dex_market markets = Ok dex ->
  dex !! "pairAddress" = None ->
  Monitor.setup (Ok tt) (Store.Json markets) blocks_back
  = Raise (KeyError "pairAddress")
  /\ forall db m,
       ApiServer.market_of_config db dex = Ok m ->
       ApiServer.address m = default "" (dex !! "address").
Proof.
  intros Hdex Hpair. split.
  - unfold Monitor.setup, Monitor.load_markets. cbn [Store.open_json_load].
    do 2 bind_ok. rewrite Hdex. bind_ok. unfold getitem. rewrite Hpair.
    reflexivity.
  - intros db m. unfold ApiServer.market_of_config, getitem, mbind, result_bind.
    destruct (dex !! "label"); [| discriminate].
    destruct (ApiServer.get_latest_risk_level db _) as [[[level score] lu] |];
      [| discriminate].
    destruct (if bool_decide _ || _ then _ else _).
    intros [= <-]. cbn. unfold ApiServer.address_of. rewrite Hpair. reflexivity.
Qed.

Lemma monitor_needs_pairAddress_witness :
  Monitor.setup (Ok tt) (Store.Json [Sample.pool_by_address]) 2000
  = Raise (KeyError "pairAddress").
Proof.
  apply (monitor_needs_pairAddress [Sample.pool_by_address]
           Sample.pool_by_address 2000); reflexivity.
Defined.

(** ** Publishing without a key *)

(** X11. Lines 240-253 without a signing key: the row is stored first.
When the level is the one last published, no key is needed and the step
succeeds; when it is the first level or a new one, the step raises a
[RuntimeError] after the row has been stored, and nothing is broadcast. *)
Theorem publish_without_key
        (w : Monitor.World) (c : Monitor.Setup) (last_level : option Z)
        (level : Z) (s : Monitor.Sys) :
  Monitor.PRIVATE_KEY w = None \/ Monitor.PRIVATE_KEY w = Some "" ->
  let stored :=
    Store.save_risk_level (Monitor.now w) (Keccak.hex (Monitor.market_id c))
                          level "multi_factor" (Monitor.db s) in
  (last_level = Some level ->
   Monitor.persist_and_publish w c last_level level s
   = (Ok last_level,
      {| Monitor.db := stored; Monitor.broadcast := Monitor.broadcast s |}))
  /\ (last_level <> Some level ->
      exists msg,
        Monitor.persist_and_publish w c last_level level s
        = (Raise (RuntimeError msg),
           {| Monitor.db := stored; Monitor.broadcast := Monitor.broadcast s |})).
Proof.
  intros Hkey stored. unfold Monitor.persist_and_publish.
  unfold mbind at 1, Monitor.M_bind at 1, Monitor.modify_db. fold stored.
  split.
  - intros ->. rewrite bool_decide_eq_false_2 by discriminate.
    rewrite bool_decide_eq_true_2 by reflexivity. reflexivity.
  - intros Hne.
    assert (bool_decide (last_level = None)
            || negb (bool_decide (Some level = last_level)) = true) as ->.
    { destruct last_level as [l |]; [| reflexivity].
      rewrite (bool_decide_eq_false_2 (Some level = Some l)) by congruence.
      apply orb_true_r. }
    unfold Monitor.send_update_risk_tx.
    destruct Hkey as [-> | ->]; eexists; reflexivity.
Qed.

Lemma publish_without_key_witness :
  exists msg s',
    Monitor.persist_and_publish Sample.world_without_key Sample.setup None 1
                                Sample.sys
    = (Raise (RuntimeError msg), s')
    /\ Monitor.broadcast s' = [].
Proof.
  edestruct (publish_without_key Sample.world_without_key Sample.setup None 1
                                 Sample.sys) as [_ [msg Hraise]];
    [left; reflexivity | discriminate |].
  exists msg. eexists. split; [exact Hraise | reflexivity].
Defined.

(** ** Scoring with the estimated liquidity *)

Lemma estimate_pool_liquidity_range env pair_address network :
  uint112_reserves env ->
  1 <= WhaleCex.estimate_pool_liquidity env pair_address network < 2 ^ 113.
Proof.
  intros Huint. unfold WhaleCex.estimate_pool_liquidity, WhaleCex.read_liquidity.
  unfold mbind, result_bind.
  destruct (WhaleCex.to_checksum_address env pair_address) as [address |];
    [| unfold WhaleCex.default_liquidity; lia].
  destruct (WhaleCex.getReserves env network address) as [[[r0 r1] ts] |] eqn:Hr;
    [| unfold WhaleCex.default_liquidity; lia].
  apply Huint in Hr.
  destruct (Z.leb_spec (r0 + r1) 0); unfold WhaleCex.default_liquidity; lia.
Qed.

(** X12. The liquidity that [estimate_pool_liquidity] returns suits the
score: with reserves that are [uint112] values it is at least 1 and below
2^113, the fallback [or 1] of [compute_risk_level] leaves it as it is, and
for a DEX volume and a whale total below 2^1023 [compute_risk_level]
returns a level between 0 and 3. *)
Theorem score_with_estimated_liquidity
        (env : WhaleCex.Env) (pair_address network : string)
        (dex_volume dex_trades whale_sell_total whale_count_selling
         cex_net_inflow : Z) :
  uint112_reserves env ->
  in_range dex_volume ->
  in_range whale_sell_total ->
  let metrics :=
    {| Monitor.dex_volume := dex_volume; Monitor.dex_trades := dex_trades;
       Monitor.whale_sell_total := whale_sell_total;
       Monitor.whale_count_selling := whale_count_selling;
       Monitor.cex_net_inflow := cex_net_inflow;
       Monitor.pool_liquidity :=
         WhaleCex.estimate_pool_liquidity env pair_address network |} in
  1 <= WhaleCex.estimate_pool_liquidity env pair_address network < 2 ^ 113
  /\ Monitor.liquidity_or_1 metrics
     = WhaleCex.estimate_pool_liquidity env pair_address network
  /\ exists level,
       Monitor.compute_risk_level metrics = Ok level /\ 0 <= level <= 3.
Proof.
  intros Huint Hv Hw metrics.
  pose proof (estimate_pool_liquidity_range env pair_address network Huint) as HL.
  split; [exact HL |]. split.
  - unfold Monitor.liquidity_or_1, metrics. cbn [Monitor.pool_liquidity].
    destruct (Z.eqb_spec (WhaleCex.estimate_pool_liquidity env pair_address network) 0);
      [lia | reflexivity].
  - unfold Monitor.compute_risk_level.
    rewrite score_metrics_double; unfold in_range, metrics;
      cbn [Monitor.pool_liquidity Monitor.dex_volume Monitor.whale_sell_total];
      try assumption; try lia.
    eexists. split; [reflexivity |]. apply level_of_total_range.
Qed.

Lemma score_with_estimated_liquidity_witness :
  1 <= WhaleCex.estimate_pool_liquidity Sample.env Sample.pool "mainnet" < 2 ^ 113
  /\ exists level,
       Monitor.compute_risk_level
         {| Monitor.dex_volume := 15; Monitor.dex_trades := 50;
            Monitor.whale_sell_total := 5; Monitor.whale_count_selling := 1;
            Monitor.cex_net_inflow := 3;
            Monitor.pool_liquidity :=
              WhaleCex.estimate_pool_liquidity Sample.env Sample.pool "mainnet" |}
       = Ok level
       /\ 0 <= level <= 3.
Proof.
  destruct (score_with_estimated_liquidity Sample.env Sample.pool "mainnet"
              15 50 5 1 3) as (Hrange & _ & Hlevel).
  - intros network address r0 r1 ts [= <- <- <-]. lia.
  - unfold in_range. cbn. lia.
  - unfold in_range. cbn. lia.
  - split; [exact Hrange | exact Hlevel].
Defined.

(** ** More activity never lowers the level *)

Lemma le_float_int_mono (f : float) (a b : Z) :
  le (Flt f) (Int a) = true -> a <= b -> le (Flt f) (Int b) = true.
Proof.
  unfold le, compare, fmap, option_fmap, option_map.
  destruct f as [s | s | | s m e]; cbn [compare_int_float]; try congruence.
  - destruct (Z.compare_spec a 0), (Z.compare_spec b 0); cbn; try congruence; lia.
  - destruct (Z.leb_spec 0 e) as [He | He].
    + destruct (Z.compare_spec a ((if s then Z.neg m else Z.pos m) * 2 ^ e)),
        (Z.compare_spec b ((if s then Z.neg m else Z.pos m) * 2 ^ e));
        cbn; try congruence; lia.
    + assert (0 < 2 ^ (- e)) by (apply Z.pow_pos_nonneg; lia).
      destruct (Z.compare_spec (a * 2 ^ (- e)) (if s then Z.neg m else Z.pos m)),
        (Z.compare_spec (b * 2 ^ (- e)) (if s then Z.neg m else Z.pos m));
        cbn; try congruence; nia.
Qed.

Lemma lt_int_positive (c : Z) (f : float) :
  positive_double f -> lt (Int c) (Flt f) = negb (le (Flt f) (Int c)).
Proof.
  intros [(m & e & ->) | ->]; [| reflexivity].
  unfold lt, le, compare, fmap, option_fmap, option_map. cbn [compare_int_float].
  destruct (0 <=? e); destruct (_ ?= _); reflexivity.
Qed.

Lemma le_positive_pos (f : float) (c : Z) :
  positive_double f -> le (Flt f) (Int c) = true -> 0 < c.
Proof.
  intros Hf Hle. destruct (Z.lt_ge_cases 0 c) as [Hc | Hc]; [exact Hc |].
  rewrite le_positive_nonpos in Hle by (try exact Hf; lia). discriminate.
Qed.

Lemma lt_0_int (c : Z) : lt (Int 0) (Int c) = (0 <? c).
Proof.
  unfold lt, compare, Z.ltb. destruct (0 ?= c); reflexivity.
Qed.

Lemma double_cex_mono (liquidity c c' : Z) :
  1 <= liquidity < 2 ^ 1023 -> c <= c' ->
  double_cex liquidity c <= double_cex liquidity c'.
Proof.
  intros HL Hc.
  destruct (nearest_double_of_int_pos liquidity HL) as (ml & el & HfL & Hel).
  destruct literals_as_doubles as (_ & _ & _ & H005 & H02).
  unfold double_cex, times, double. rewrite H005, H02, HfL.
  set (lo := SFmul prec emax (S754_finite false 5764607523034235 (-60))
                   (S754_finite false ml el)).
  set (hi := SFmul prec emax (S754_finite false 5764607523034235 (-58))
                   (S754_finite false ml el)).
  assert (positive_double lo) as Hlo by (apply times_positive; lia).
  assert (positive_double hi) as Hhi by (apply times_positive; lia).
  pose proof (cex_bands_apart ml el c Hel) as Hapart.
  pose proof (cex_bands_apart ml el c' Hel) as Hapart'.
  cbn zeta in Hapart, Hapart'. fold lo hi in Hapart, Hapart'.
  rewrite !(lt_int_positive _ _ Hlo), !(lt_int_positive _ _ Hhi), !lt_0_int
    in *.
  pose proof (le_float_int_mono lo c c') as Hmlo.
  pose proof (le_float_int_mono hi c c') as Hmhi.
  pose proof (le_positive_pos lo c Hlo) as Hplo.
  pose proof (le_positive_pos lo c' Hlo) as Hplo'.
  destruct (le (Flt lo) (Int c)), (le (Flt lo) (Int c')),
    (le (Flt hi) (Int c)), (le (Flt hi) (Int c'));
    destruct (Z.ltb_spec 0 c), (Z.ltb_spec 0 c'); cbn in *;
    try lia; try (discriminate (Hmlo eq_refl Hc));
    try (discriminate (Hmhi eq_refl Hc));
    try (discriminate (Hapart eq_refl)); try (discriminate (Hapart' eq_refl));
    try (specialize (Hplo eq_refl); lia); try (specialize (Hplo' eq_refl); lia).
Qed.

Lemma level_of_total_mono (t t' : Z) :
  t <= t' -> level_of_total t <= level_of_total t'.
Proof.
  intros H. unfold level_of_total.
  destruct (Z.ltb_spec t 20), (Z.ltb_spec t' 20), (Z.ltb_spec t 40),
    (Z.ltb_spec t' 40), (Z.ltb_spec t 70), (Z.ltb_spec t' 70); lia.
Qed.

(** X13. More activity never lowers the level: with the pool liquidity,
the DEX volume and the whale total unchanged (liquidity not negative, all
three below 2^1023), a bundle with at least as many swaps, as many selling
whales and as large a net inflow gets a level that is at least as high, and
both levels are returned. *)
Theorem risk_level_monotone (m m' : Monitor.Metrics) :
  0 <= Monitor.pool_liquidity m < 2 ^ 1023 ->
  in_range (Monitor.dex_volume m) ->
  in_range (Monitor.whale_sell_total m) ->
  Monitor.pool_liquidity m' = Monitor.pool_liquidity m ->
  Monitor.dex_volume m' = Monitor.dex_volume m ->
  Monitor.whale_sell_total m' = Monitor.whale_sell_total m ->
  Monitor.dex_trades m <= Monitor.dex_trades m' ->
  Monitor.whale_count_selling m <= Monitor.whale_count_selling m' ->
  Monitor.cex_net_inflow m <= Monitor.cex_net_inflow m' ->
  exists level level',
    Monitor.compute_risk_level m = Ok level
    /\ Monitor.compute_risk_level m' = Ok level'
    /\ level <= level'.
Proof.
  intros HL Hv Hw HeqL Heqv Heqw Ht Hc Hcex.
  unfold Monitor.compute_risk_level.
  rewrite (score_metrics_double m), (score_metrics_double m');
    rewrite ?HeqL, ?Heqv, ?Heqw; unfold in_range in *; try lia.
  eexists _, _. split; [reflexivity |]. split; [reflexivity |].
  unfold double_scored. cbn [Monitor.level fmap result_fmap].
  rewrite HeqL, Heqv, Heqw. apply level_of_total_mono.
  set (L := Z.max 1 (Monitor.pool_liquidity m)).
  assert (1 <= L < 2 ^ 1023) as HLrange by (unfold L; lia).
  pose proof (double_cex_mono L _ _ HLrange Hcex).
  assert (double_dex L (Monitor.dex_volume m) (Monitor.dex_trades m)
          <= double_dex L (Monitor.dex_volume m) (Monitor.dex_trades m')).
  { unfold double_dex, points.
    destruct (Z.gtb_spec (Monitor.dex_trades m) 200),
      (Z.gtb_spec (Monitor.dex_trades m') 200); lia. }
  assert (double_whale L (Monitor.whale_sell_total m) (Monitor.whale_count_selling m)
          <= double_whale L (Monitor.whale_sell_total m)
                          (Monitor.whale_count_selling m')).
  { unfold double_whale, points.
    destruct (Z.geb_spec (Monitor.whale_count_selling m) 3),
      (Z.geb_spec (Monitor.whale_count_selling m') 3); lia. }
  lia.
Qed.

Lemma risk_level_monotone_witness :
  exists level level',
    Monitor.compute_risk_level Sample.boundaries = Ok level
    /\ Monitor.compute_risk_level Sample.busier = Ok level'
    /\ level <= level'.
Proof.
  apply (risk_level_monotone Sample.boundaries Sample.busier);
    try reflexivity; unfold in_range; cbn; lia.
Defined.

(** ** The DEX volume of a cycle *)

Lemma sum_amount_in_from (trades trades' : list Store.Trade) :
  trades ≡ₚ trades' ->
  forall acc v,
    for_each (fun acc t => v ← int_of (Store.amount_in t); Ok (acc + v)) acc trades
    = Ok v ->
    for_each (fun acc t => v ← int_of (Store.amount_in t); Ok (acc + v)) acc trades'
    = Ok v.
Proof.
  induction 1 as [| t l l' _ IH | t1 t2 l | l1 l2 l3 _ IH12 _ IH23];
    intros acc v; cbn [for_each]; unfold mbind, result_bind.
  - auto.
  - destruct (int_of (Store.amount_in t)); [apply IH | discriminate].
  - destruct (int_of (Store.amount_in t1)) as [v1 |],
      (int_of (Store.amount_in t2)) as [v2 |]; try discriminate.
    replace (acc + v1 + v2) with (acc + v2 + v1) by lia. auto.
  - intros H. apply IH23, IH12, H.
Qed.

(** X14. The DEX volume and the swap count of a cycle do not depend on the
order in which the swaps arrive: when the amounts of a list of swaps sum to
a volume, every rearrangement of the list sums to the same volume and has
the same length. *)
Theorem dex_volume_ignores_order (trades trades' : list Store.Trade) (volume : Z) :
  trades ≡ₚ trades' ->
  Monitor.sum_amount_in trades = Ok volume ->
  Monitor.sum_amount_in trades' = Ok volume
  /\ Z.of_nat (length trades') = Z.of_nat (length trades).
Proof.
  intros Hperm Hsum. split.
  - apply (sum_amount_in_from trades trades' Hperm 0 volume Hsum).
  - rewrite (Permutation_length Hperm). reflexivity.
Qed.

Lemma dex_volume_ignores_order_witness :
  Monitor.sum_amount_in (rev Sample.swaps) = Ok 12.
Proof.
  apply (dex_volume_ignores_order Sample.swaps (rev Sample.swaps) 12);
    [apply Permutation_rev | reflexivity].
Defined.

(** ** Sorted results *)

Lemma string_ltb_leb (s1 s2 : string) :
  String.ltb s1 s2 = false <-> String.leb s2 s1 = true.
Proof.
  unfold String.ltb, String.leb. rewrite (String.compare_antisym s2 s1).
  destruct (String.compare s1 s2); cbn; intuition congruence.
Qed.

Lemma string_ltb_asym (s1 s2 : string) :
  String.ltb s1 s2 = true -> String.ltb s2 s1 = false.
Proof.
  unfold String.ltb. rewrite (String.compare_antisym s2 s1).
  destruct (String.compare s1 s2); cbn; congruence.
Qed.

Lemma string_leb_trans (s1 s2 s3 : string) :
  String.leb s1 s2 = true -> String.leb s2 s3 = true -> String.leb s1 s3 = true.
Proof.
  unfold String.leb.
  destruct (String.compare s1 s2) eqn:H12; [| | discriminate].
  - apply String.compare_eq_iff in H12 as ->. auto.
  - destruct (String.compare s2 s3) eqn:H23; [| | discriminate]; intros _ _.
    + apply String.compare_eq_iff in H23 as <-. now rewrite H12.
    + now rewrite (string_compare_lt_trans _ _ _ H12 H23).
Qed.

Section Sorting.

Context {A : Type} (later : A -> A -> bool).

(** [earlier a b]: nothing makes [a] come after [b]. *)
Let earlier (a b : A) : Prop := later a b = false.

Hypothesis later_asym : forall a b, later a b = true -> later b a = false.
Hypothesis earlier_trans : forall a b c, earlier a b -> earlier b c -> earlier a c.

Lemma insert_by_sorted (a : A) (l : list A) :
  StronglySorted earlier l -> StronglySorted earlier (ApiServer.insert_by later a l).
Proof.
  induction 1 as [| b l Hl IH Hb]; cbn; [repeat constructor |].
  destruct (later a b) eqn:Hab.
  - constructor; [exact IH |].
    rewrite (insert_by_Permutation later a l). constructor; [| exact Hb].
    apply later_asym, Hab.
  - constructor; [constructor; assumption |].
    constructor; [exact Hab |].
    eapply Forall_impl; [exact Hb |]. intros c Hc. exact (earlier_trans _ _ _ Hab Hc).
Qed.

Lemma order_by_sorted (l : list A) :
  StronglySorted earlier (ApiServer.order_by later l).
Proof.
  induction l as [| a l IH]; [constructor |].
  apply insert_by_sorted, IH.
Qed.

End Sorting.

Lemma order_by_asc_sorted {A} (key : A -> string) (l : list A) :
  StronglySorted (fun a b => String.leb (key a) (key b) = true)
                 (ApiServer.order_by (ApiServer.created_at_asc key) l).
Proof.
  eapply StronglySorted_weaken;
    [| apply (order_by_sorted (ApiServer.created_at_asc key))].
  - intros a b. unfold ApiServer.created_at_asc. apply string_ltb_leb.
  - intros a b. unfold ApiServer.created_at_asc. apply string_ltb_asym.
  - intros a b c. unfold ApiServer.created_at_asc.
    rewrite !string_ltb_leb. apply string_leb_trans.
Qed.

Lemma order_by_desc_sorted {A} (key : A -> string) (l : list A) :
  StronglySorted (fun a b => String.leb (key b) (key a) = true)
                 (ApiServer.order_by (ApiServer.created_at_desc key) l).
Proof.
  eapply StronglySorted_weaken;
    [| apply (order_by_sorted (ApiServer.created_at_desc key))].
  - intros a b. unfold ApiServer.created_at_desc. apply string_ltb_leb.
  - intros a b. unfold ApiServer.created_at_desc. apply string_ltb_asym.
  - intros a b c. unfold ApiServer.created_at_desc.
    rewrite !string_ltb_leb. intros; eapply string_leb_trans; eassumption.
Qed.

(** ** Risk history *)

Lemma Forall2_sorted {A B} (RA : relation A) (RB : relation B)
      (link : A -> B -> Prop) (l : list A) (k : list B) :
  (forall a a' b b', link a b -> link a' b' -> RA a a' -> RB b b') ->
  Forall2 link l k -> StronglySorted RA l -> StronglySorted RB k.
Proof.
  intros Hlink H. induction H as [| a b l k Hab Hlk IH]; [constructor |].
  intros Hs. apply StronglySorted_inv in Hs as [Hs Ha].
  constructor; [apply IH, Hs |].
  clear IH Hs. induction Hlk as [| a' b' l k Hab' _ IH]; [constructor |].
  apply Forall_cons in Ha as [Ha' Ha].
  constructor; [exact (Hlink _ _ _ _ Hab Hab' Ha') | apply IH, Ha].
Qed.

Lemma Forall2_map_eq {A B C} (f : A -> C) (g : B -> C) (l : list A) (k : list B) :
  Forall2 (fun a b => f a = g b) l k -> map f l = map g k.
Proof. induction 1; cbn; congruence. Qed.

(** X15. The risk history that GET /api/markets/{id}/risk-history returns
is in ascending order of the timestamps, holds no point before the cutoff,
and holds exactly the rows of the market at or after the cutoff, each with
its timestamp and level; it is returned for [hours] between 1 and 168
only. *)
Theorem risk_history_sorted_in_window
        (db : Store.Database) (cutoff : Z -> string) (market_id : string)
        (hours : Z) (points : list ApiServer.RiskHistoryPoint) :
  ApiServer.get_risk_history db cutoff market_id hours = Ok points ->
  1 <= hours <= 168
  /\ StronglySorted
       (fun p q => String.leb (ApiServer.timestamp p) (ApiServer.timestamp q) = true)
       points
  /\ Forall (fun p => String.leb (cutoff hours) (ApiServer.timestamp p) = true)
            points
  /\ map (fun p => (ApiServer.timestamp p, ApiServer.level p)) points
     ≡ₚ map (fun r => (Store.created_at r, Store.level r))
          (filter (fun r => Store.market_id r = ApiServer.calc_market_id market_id
                            /\ String.leb (cutoff hours) (Store.created_at r) = true)
                  (Store.risk_levels db)).
Proof.
  unfold ApiServer.get_risk_history.
  destruct (negb _) eqn:Hb; [discriminate |].
  apply negb_false_iff, andb_true_iff in Hb as [H1 H2].
  intros Hmap. apply mapM_Ok in Hmap.
  set (rows := ApiServer.order_by _ _) in Hmap.
  assert (Hlink : Forall2 (fun r p => Store.created_at r = ApiServer.timestamp p
                                      /\ Store.level r = ApiServer.level p)
                          rows points).
  { eapply Forall2_impl; [exact Hmap |]. intros r p Hp.
    unfold mbind, result_bind in Hp.
    destruct (ApiServer.score_of_level _); [| discriminate].
    injection Hp as <-. split; reflexivity. }
  split; [lia |]. split; [| split].
  - refine (Forall2_sorted
              (fun a b => String.leb (Store.created_at a) (Store.created_at b) = true)
              _ _ rows points _ Hlink (order_by_asc_sorted Store.created_at _)).
    intros a a' b b' [<- _] [<- _]. auto.
  - assert (Hrows : Forall (fun r => String.leb (cutoff hours) (Store.created_at r)
                                     = true) rows).
    { apply List.Forall_forall. intros r Hr. apply list_elem_of_In in Hr.
      unfold rows in Hr. rewrite order_by_Permutation in Hr.
      apply list_elem_of_filter in Hr. tauto. }
    clear Hmap. induction Hlink as [| r p l k [Hrp _] _ IH]; [constructor |].
    apply Forall_cons in Hrows as [Hr Hrows].
    constructor; [rewrite <- Hrp; exact Hr | apply IH, Hrows].
  - transitivity (map (fun r => (Store.created_at r, Store.level r)) rows).
    + apply eq_subrelation; [typeclasses eauto |]. symmetry.
      apply Forall2_map_eq. eapply Forall2_impl; [exact Hlink |].
      intros r p [-> ->]. reflexivity.
    + apply Permutation_map. apply order_by_Permutation.
Qed.

Lemma risk_history_sorted_in_window_witness :
  exists points,
    ApiServer.get_risk_history Sample.history (fun _ => "2024-01-01T00:02:00")
                               Sample.label 24 = Ok points
    /\ length points = 3%nat
    /\ StronglySorted
         (fun p q => String.leb (ApiServer.timestamp p) (ApiServer.timestamp q) = true)
         points.
Proof.
  eexists. split; [vm_compute; reflexivity |]. split; [reflexivity |].
  eapply proj1, proj2,
    (risk_history_sorted_in_window Sample.history
       (fun _ => "2024-01-01T00:02:00") Sample.label 24).
  vm_compute. reflexivity.
Defined.

(** ** The current level of a market *)

Lemma add_raises (x y : num) (e : exn) : add x y = Raise e -> e = OverflowError.
Proof.
  destruct x as [a | f], y as [b | g]; cbn; try discriminate;
    unfold mbind, result_bind;
    repeat match goal with
           | |- context [float_of_int ?z] =>
             let H := fresh in
             destruct (float_of_int z) eqn:H;
             [| intros [= <-]; apply (float_of_int_raises _ _ H)]
           end; discriminate.
Qed.

Lemma score_of_level_raises (level : Z) (e : exn) :
  ApiServer.score_of_level level = Raise e -> e = OverflowError.
Proof. apply add_raises. Qed.

Lemma score_of_level_in_range (level : Z) :
  Design.in_range (level * 25) -> is_ok (ApiServer.score_of_level level) = true.
Proof.
  intros H. unfold ApiServer.score_of_level, ApiServer.lit_12_5, add.
  cbn [to_float]. rewrite (float_of_int_in_range _ H). reflexivity.
Qed.

Lemma get_latest_risk_level_raises db market_id e :
  ApiServer.get_latest_risk_level db market_id = Raise e -> e = OverflowError.
Proof.
  unfold ApiServer.get_latest_risk_level.
  destruct (head _) as [row |]; [| discriminate].
  unfold mbind, result_bind.
  destruct (ApiServer.score_of_level _) eqn:Hs; [discriminate |].
  intros [= <-]. apply (score_of_level_raises _ _ Hs).
Qed.

(** X16. [get_latest_risk_level] returns the level and the timestamp of a
row of the market whose timestamp no other row of the market exceeds; it
returns level 0 and no timestamp exactly when the market has no row. *)
Theorem latest_risk_level_is_newest
        (db : Store.Database) (market_id : string)
        (level : Z) (score : num) (last_updated : option string) :
  ApiServer.get_latest_risk_level db market_id = Ok (level, score, last_updated) ->
  match last_updated with
  | None =>
    level = 0
    /\ Forall (fun r => Store.market_id r <> market_id) (Store.risk_levels db)
  | Some t =>
    (exists row,
        row ∈ Store.risk_levels db
        /\ Store.market_id row = market_id
        /\ Store.level row = level
        /\ Store.created_at row = t)
    /\ Forall (fun r => Store.market_id r = market_id ->
                        String.leb (Store.created_at r) t = true)
              (Store.risk_levels db)
  end.
Proof.
  unfold ApiServer.get_latest_risk_level.
  pose proof (order_by_desc_sorted Store.created_at
                (filter (fun r => Store.market_id r = market_id)
                        (Store.risk_levels db))) as Hsorted.
  pose proof (order_by_Permutation (ApiServer.created_at_desc Store.created_at)
                (filter (fun r => Store.market_id r = market_id)
                        (Store.risk_levels db))) as Hperm.
  destruct (ApiServer.order_by _ _) as [| row rows]; cbn [head].
  - intros [= <- <- <-]. split; [reflexivity |].
    apply List.Forall_forall. intros r Hr Hm. apply list_elem_of_In in Hr.
    assert (r ∈ @nil Store.RiskLevelRow) as Hnil
        by (rewrite Hperm; apply list_elem_of_filter; auto).
    inversion Hnil.
  - unfold mbind, result_bind.
    destruct (ApiServer.score_of_level _); [| discriminate].
    intros [= <- <- <-]. split.
    + assert (row ∈ row :: rows) as Hrow by constructor.
      rewrite Hperm in Hrow. apply list_elem_of_filter in Hrow as [Hm Hrow].
      exists row. auto.
    + apply StronglySorted_inv in Hsorted as [_ Hle].
      apply List.Forall_forall. intros r Hr Hm. apply list_elem_of_In in Hr.
      assert (r ∈ row :: rows) as Hin
          by (rewrite Hperm; apply list_elem_of_filter; auto).
      apply elem_of_cons in Hin as [-> | Hin].
      * destruct (String.leb_total (Store.created_at row) (Store.created_at row));
          assumption.
      * rewrite List.Forall_forall in Hle. apply Hle, list_elem_of_In, Hin.
Qed.

Lemma latest_risk_level_is_newest_witness :
  exists score,
    ApiServer.get_latest_risk_level Sample.history
      (ApiServer.calc_market_id Sample.label)
    = Ok (2, score, Some "2024-01-01T00:04:00")
    /\ Forall (fun r => Store.market_id r = ApiServer.calc_market_id Sample.label ->
                        String.leb (Store.created_at r) "2024-01-01T00:04:00" = true)
              (Store.risk_levels Sample.history).
Proof.
  eexists. split; [vm_compute; reflexivity |].
  eapply proj2,
    (latest_risk_level_is_newest Sample.history
       (ApiServer.calc_market_id Sample.label) 2 _ (Some "2024-01-01T00:04:00")).
  vm_compute. reflexivity.
Defined.

(** ** The market list and the market detail *)

Lemma market_of_config_fields db config m :
  ApiServer.market_of_config db config = Ok m ->
  config !! "label" = Some (ApiServer.id m)
  /\ ApiServer.label m = ApiServer.id m
  /\ ApiServer.type m = default "dex_pool" (config !! "type")
  /\ ApiServer.address m = ApiServer.address_of config
  /\ ApiServer.isActive m = true
  /\ ApiServer.get_latest_risk_level db (ApiServer.calc_market_id (ApiServer.id m))
     = Ok (ApiServer.riskLevel m, ApiServer.riskScore m, ApiServer.lastUpdated m).
Proof.
  unfold ApiServer.market_of_config, getitem, mbind, result_bind.
  destruct (config !! "label") as [label |]; [| discriminate].
  destruct (ApiServer.get_latest_risk_level db _)
    as [[[level score] last_updated] |] eqn:Hlatest; [| discriminate].
  destruct (if _ : bool then _ else _) as [token0 token1].
  intros [= <-]. cbn. auto 10.
Qed.

Lemma Forall2_mapM_Ok {A B} (f : A -> result B) (l : list A) :
  Forall (fun a => is_ok (f a) = true) l -> exists k, mapM f l = Ok k.
Proof.
  induction 1 as [| a l Ha _ [k IH]]; [exists []; reflexivity |].
  destruct (f a) as [b |] eqn:Hb; [| discriminate].
  exists (b :: k). cbn. unfold mbind, result_bind at 1. rewrite Hb.
  unfold mbind, result_bind at 1. cbn in IH. rewrite IH. reflexivity.
Qed.

Lemma get_latest_risk_level_total db market_id :
  Forall (fun r => Design.in_range (Store.level r * 25)) (Store.risk_levels db) ->
  is_ok (ApiServer.get_latest_risk_level db market_id) = true.
Proof.
  intros Hrange. unfold ApiServer.get_latest_risk_level.
  pose proof (order_by_Permutation (ApiServer.created_at_desc Store.created_at)
                (filter (fun r => Store.market_id r = market_id)
                        (Store.risk_levels db))) as Hperm.
  destruct (ApiServer.order_by _ _) as [| row rows]; [reflexivity |]. cbn [head].
  assert (row ∈ row :: rows) as Hrow by constructor.
  rewrite Hperm in Hrow. apply list_elem_of_filter in Hrow as [_ Hrow].
  rewrite List.Forall_forall in Hrange.
  apply list_elem_of_In, Hrange, score_of_level_in_range in Hrow.
  unfold mbind, result_bind.
  destruct (ApiServer.score_of_level _); [reflexivity | discriminate].
Qed.

(** X17. GET /api/markets lists the [dex_pool] entries of markets.json and
nothing else, in the order of the file: each market has the label of its
entry as id and label, type [dex_pool], the address of the entry, and is
active. It succeeds when every [dex_pool] entry has a label and the stored
levels fit a double; entries of other types need no label. *)
Theorem get_markets_lists_dex_pools
        (file : Store.ConfigFile) (db : Store.Database)
        (config : list (gmap string string)) :
  ApiServer.load_markets_config file = Ok config ->
  (forall markets,
      ApiServer.get_markets file db = Ok markets ->
      Forall2 (fun c m =>
                 c !! "label" = Some (ApiServer.id m)
                 /\ ApiServer.label m = ApiServer.id m
                 /\ ApiServer.type m = "dex_pool"
                 /\ ApiServer.address m = ApiServer.address_of c
                 /\ ApiServer.isActive m = true)
              (filter is_dex_pool config) markets)
  /\ (Forall (fun c => is_dex_pool c -> is_Some (c !! "label")) config ->
      Forall (fun r => Design.in_range (Store.level r * 25)) (Store.risk_levels db) ->
      exists markets, ApiServer.get_markets file db = Ok markets).
Proof.
  intros Hload. unfold ApiServer.get_markets. rewrite Hload.
  unfold mbind at 1, result_bind at 1. split.
  - intros markets Hmap. apply mapM_Ok in Hmap.
    assert (Hdex : Forall is_dex_pool (filter is_dex_pool config)).
    { apply List.Forall_forall. intros c Hc. apply list_elem_of_In in Hc.
      apply list_elem_of_filter in Hc. tauto. }
    induction Hmap as [| c m cs ms Hm _ IH]; [constructor |].
    apply Forall_cons in Hdex as [Hc Hdex].
    constructor; [| exact (IH Hdex)].
    apply market_of_config_fields in Hm as (Hlabel & Hl & Ht & Ha & Hact & _).
    rewrite Hc in Ht. auto.
  - intros Hlabels Hrange. apply Forall2_mapM_Ok.
    apply List.Forall_forall. intros c Hc. apply list_elem_of_In in Hc.
    apply list_elem_of_filter in Hc as [Hdex Hc].
    rewrite List.Forall_forall in Hlabels.
    destruct (Hlabels c (proj1 (list_elem_of_In _ _) Hc) Hdex) as [label Hlabel].
    unfold ApiServer.market_of_config, getitem. rewrite Hlabel.
    unfold mbind, result_bind.
    pose proof (get_latest_risk_level_total db (ApiServer.calc_market_id label) Hrange)
      as Hok.
    destruct (ApiServer.get_latest_risk_level db _) as [[[level score] lu] |];
      [| discriminate].
    destruct (if _ : bool then _ else _) as [token0 token1]. reflexivity.
Qed.

Lemma get_markets_lists_dex_pools_witness :
  exists markets,
    ApiServer.get_markets Sample.file Sample.history = Ok markets
    /\ Forall2 (fun c m =>
                  c !! "label" = Some (ApiServer.id m)
                  /\ ApiServer.label m = ApiServer.id m
                  /\ ApiServer.type m = "dex_pool"
                  /\ ApiServer.address m = ApiServer.address_of c
                  /\ ApiServer.isActive m = true)
               (filter is_dex_pool Sample.markets) markets.
Proof.
  eexists. split; [vm_compute; reflexivity |].
  apply (proj1 (get_markets_lists_dex_pools Sample.file Sample.history
                  Sample.markets eq_refl)).
  vm_compute. reflexivity.
Defined.

(** The search of the detail endpoint, when every entry has a label. *)
Lemma find_config_labelled market_id configs :
  Forall (fun c : gmap string string => is_Some (c !! "label")) configs ->
  match ApiServer.find_config market_id configs with
  | Ok None => Forall (fun c => c !! "label" <> Some market_id) configs
  | Ok (Some c) => c ∈ configs /\ c !! "label" = Some market_id
  | Raise _ => False
  end.
Proof.
  induction 1 as [| c cs [label Hlabel] _ IH]; cbn; [constructor |].
  unfold getitem, mbind, result_bind. rewrite Hlabel.
  destruct (bool_decide (label = market_id)) eqn:Hd.
  - apply bool_decide_eq_true in Hd as ->. split; [constructor | exact Hlabel].
  - apply bool_decide_eq_false in Hd.
    destruct (ApiServer.find_config market_id cs) as [[c' |] |].
    + destruct IH. split; [constructor |]; assumption.
    + constructor; [congruence | exact IH].
    + exact IH.
Qed.

(** X18. When markets.json loads and every entry has a label, GET
/api/markets/{id} answers 404 exactly when no entry has that label,
whatever the type of the entry. *)
Theorem market_detail_not_found
        (file : Store.ConfigFile) (db : Store.Database)
        (config : list (gmap string string)) (market_id : string) :
  ApiServer.load_markets_config file = Ok config ->
  Forall (fun c => is_Some (c !! "label")) config ->
  ApiServer.get_market_detail file db market_id
  = Raise (HTTPException 404 "Market not found")
  <-> Forall (fun c => c !! "label" <> Some market_id) config.
Proof.
  intros Hload Hlabels. unfold ApiServer.get_market_detail. rewrite Hload.
  unfold mbind at 1, result_bind at 1.
  pose proof (find_config_labelled market_id config Hlabels) as Hfind.
  destruct (ApiServer.find_config market_id config) as [[c |] |];
    unfold mbind at 1, result_bind at 1; [| tauto | tauto].
  destruct Hfind as [Hc Hlabel]. split.
  - unfold mbind, result_bind.
    destruct (ApiServer.get_latest_risk_level db _) as [[[level score] lu] |] eqn:Hl.
    + destruct (ApiServer.tokens_of_label market_id). discriminate.
    + intros [= ->]. apply get_latest_risk_level_raises in Hl. discriminate.
  - intros Hnone. rewrite List.Forall_forall in Hnone.
    apply list_elem_of_In, Hnone in Hc. contradiction.
Qed.

Lemma market_detail_not_found_witness :
  ApiServer.get_market_detail Sample.file Sample.history "UNISWAP_DAI_WETH"
  = Raise (HTTPException 404 "Market not found").
Proof.
  apply (market_detail_not_found Sample.file Sample.history Sample.markets
           "UNISWAP_DAI_WETH" eq_refl).
  - repeat constructor; eexists; reflexivity.
  - repeat constructor; intros [=].
Defined.

(** X19. Every market of the list can be fetched by its id: the detail
endpoint answers with the same id and label, the same level, score and
update time, and the same activity flag. *)
Theorem market_detail_agrees_with_list
        (file : Store.ConfigFile) (db : Store.Database)
        (config : list (gmap string string))
        (markets : list ApiServer.Market) (m : ApiServer.Market) :
  ApiServer.load_markets_config file = Ok config ->
  Forall (fun c => is_Some (c !! "label")) config ->
  ApiServer.get_markets file db = Ok markets ->
  m ∈ markets ->
  exists m',
    ApiServer.get_market_detail file db (ApiServer.id m) = Ok m'
    /\ ApiServer.id m' = ApiServer.id m
    /\ ApiServer.label m' = ApiServer.label m
    /\ ApiServer.riskLevel m' = ApiServer.riskLevel m
    /\ ApiServer.riskScore m' = ApiServer.riskScore m
    /\ ApiServer.lastUpdated m' = ApiServer.lastUpdated m
    /\ ApiServer.isActive m' = ApiServer.isActive m.
Proof.
  intros Hload Hlabels Hmarkets Hm.
  unfold ApiServer.get_markets in Hmarkets. rewrite Hload in Hmarkets.
  unfold mbind at 1, result_bind at 1 in Hmarkets. apply mapM_Ok in Hmarkets.
  apply list_elem_of_lookup in Hm as [i Hi].
  destruct (Forall2_lookup_r _ _ _ _ _ Hmarkets Hi) as (c & Hc & Hcm).
  apply list_elem_of_lookup_2, list_elem_of_filter in Hc as [_ Hc].
  apply market_of_config_fields in Hcm as (Hlabel & Hl & _ & _ & Hact & Hlatest).
  unfold ApiServer.get_market_detail. rewrite Hload.
  unfold mbind at 1, result_bind at 1.
  pose proof (find_config_labelled (ApiServer.id m) config Hlabels) as Hfind.
  destruct (ApiServer.find_config _ config) as [[c' |] |];
    unfold mbind at 1, result_bind at 1.
  - rewrite Hlatest. unfold mbind, result_bind.
    destruct (ApiServer.tokens_of_label _) as [token0 token1].
    eexists. split; [reflexivity |]. cbn. auto 10.
  - rewrite List.Forall_forall in Hfind.
    apply list_elem_of_In, Hfind in Hc. contradiction.
  - contradiction.
Qed.

Lemma market_detail_agrees_with_list_witness :
  exists m',
    ApiServer.get_market_detail Sample.file Sample.history Sample.label = Ok m'
    /\ ApiServer.riskLevel m' = 2.
Proof.
  edestruct (market_detail_agrees_with_list Sample.file Sample.history
               Sample.markets) as (m' & Hdetail & _ & _ & Hlevel & _);
    [reflexivity
    | repeat constructor; eexists; reflexivity
    | vm_compute; reflexivity
    | constructor |].
  exists m'. split; [exact Hdetail | exact Hlevel].
Defined.

(** ** Token names *)

Lemma split_on_not_nil (sep : ascii) (s : string) : ApiServer.split_on sep s <> [].
Proof.
  destruct s as [| c s]; cbn [ApiServer.split_on]; [discriminate |].
  destruct (Ascii.eqb c sep); [discriminate |].
  destruct (ApiServer.split_on sep s); discriminate.
Qed.

Lemma split_on_whole (sep : ascii) (s : string) :
  Forall (fun c => c <> sep) (list_ascii_of_string s) ->
  ApiServer.split_on sep s = [s].
Proof.
  induction s as [| c s IH]; cbn [ApiServer.split_on list_ascii_of_string];
    [reflexivity |].
  intros H. apply Forall_cons in H as [Hc H].
  apply Ascii.eqb_neq in Hc. rewrite Hc, (IH H). reflexivity.
Qed.

Lemma split_on_app (sep : ascii) (s1 s2 : string) :
  ApiServer.split_on sep (s1 ++ String sep s2)%string
  = (ApiServer.split_on sep s1 ++ ApiServer.split_on sep s2)%list.
Proof.
  induction s1 as [| c s1 IH].
  - change ("" ++ String sep s2)%string with (String sep s2).
    cbn [ApiServer.split_on]. rewrite Ascii.eqb_refl. reflexivity.
  - change (String c s1 ++ String sep s2)%string
      with (String c (s1 ++ String sep s2)%string).
    cbn [ApiServer.split_on].
    destruct (Ascii.eqb c sep); [rewrite IH; reflexivity |].
    rewrite IH. pose proof (split_on_not_nil sep s1).
    destruct (ApiServer.split_on sep s1); [contradiction | reflexivity].
Qed.

(** X20. The token names shown for a label are its last two segments
between underscores: a label [a_b] and a label [prefix_a_b] give tokens [a]
and [b]; a label without underscore gives the placeholder TOKEN0 and the
label itself. *)
Theorem tokens_of_label_last_two (a b : string) :
  no_underscore a -> no_underscore b ->
  ApiServer.tokens_of_label b = ("TOKEN0", b)
  /\ ApiServer.tokens_of_label (a ++ "_" ++ b)%string = (a, b)
  /\ forall prefix,
       ApiServer.tokens_of_label (prefix ++ "_" ++ a ++ "_" ++ b)%string
       = (a, b).
Proof.
  intros Ha Hb. unfold ApiServer.tokens_of_label. repeat split.
  - rewrite (split_on_whole _ _ Hb). reflexivity.
  - change (a ++ "_" ++ b)%string with (a ++ String "_" b)%string.
    rewrite split_on_app, (split_on_whole _ _ Ha), (split_on_whole _ _ Hb).
    reflexivity.
  - intros prefix.
    change (prefix ++ "_" ++ a ++ "_" ++ b)%string
      with (prefix ++ String "_" (a ++ String "_" b))%string.
    rewrite !split_on_app, (split_on_whole _ _ Ha), (split_on_whole _ _ Hb).
    rewrite !rev_app_distr. reflexivity.
Qed.

Lemma tokens_of_label_last_two_witness :
  ApiServer.tokens_of_label Sample.label = ("USDC", "WETH").
Proof.
  apply (tokens_of_label_last_two "USDC" "WETH"); repeat constructor; discriminate.
Defined.

(** ** Alerts, whatever the rows *)

Lemma get_alerts_Ok file db severity alerts :
  ApiServer.get_alerts file db severity = Ok alerts ->
  exists config labels,
    ApiServer.load_markets_config file = Ok config
    /\ ApiServer.market_labels_of config = Ok labels
    /\ alerts = omap (ApiServer.alert_of_row labels severity) (ApiServer.alert_rows db).
Proof.
  unfold ApiServer.get_alerts, mbind, result_bind.
  destruct (ApiServer.load_markets_config file) as [config |]; [| discriminate].
  destruct (ApiServer.market_labels_of config) as [labels |] eqn:Hlabels;
    [| discriminate].
  intros [= <-]. eauto 10.
Qed.

Lemma alert_of_row_Some labels severity row a :
  ApiServer.alert_of_row labels severity row = Some a ->
  a = ApiServer.make_alert labels row
  /\ row.2 <> Some (Store.level row.1)
  /\ (forall wanted, severity = Some wanted -> wanted <> "" ->
      ApiServer.severity a = wanted).
Proof.
  unfold ApiServer.alert_of_row.
  destruct (bool_decide (row.2 = None) || _) eqn:Ht; [| discriminate].
  assert (row.2 <> Some (Store.level row.1)) as Hne.
  { apply orb_true_iff in Ht as [Ht | Ht].
    - apply bool_decide_eq_true in Ht. congruence.
    - apply negb_true_iff, bool_decide_eq_false in Ht. exact Ht. }
  destruct severity as [wanted |].
  - destruct (negb (bool_decide (wanted = "")) && _) eqn:Hskip; [discriminate |].
    intros [= <-]. split; [reflexivity |]. split; [exact Hne |].
    intros ? [= <-] Hw. apply andb_false_iff in Hskip as [Hskip | Hskip].
    + apply negb_false_iff, bool_decide_eq_true in Hskip. contradiction.
    + apply negb_false_iff, bool_decide_eq_true in Hskip. exact Hskip.
  - intros [= <-]. split; [reflexivity |]. split; [exact Hne |]. discriminate.
Qed.

Lemma omap_sorted {A B} (RA : relation A) (RB : relation B)
      (f : A -> option B) (l : list A) :
  (forall a a' b b', f a = Some b -> f a' = Some b' -> RA a a' -> RB b b') ->
  StronglySorted RA l -> StronglySorted RB (omap f l).
Proof.
  intros Hf. induction 1 as [| a l _ IH Ha]; cbn; [constructor |].
  destruct (f a) as [b |] eqn:Hb; [| exact IH].
  constructor; [exact IH |].
  apply List.Forall_forall. intros b' Hb'.
  apply list_elem_of_In, list_elem_of_omap in Hb' as (a' & Ha' & Hfa').
  rewrite List.Forall_forall in Ha.
  apply (Hf _ _ _ _ Hb Hfa'), Ha, list_elem_of_In, Ha'.
Qed.

Lemma length_omap {A B} (f : A -> option B) (l : list A) :
  (length (omap f l) <= length l)%nat.
Proof. induction l as [| a l IH]; cbn; [lia |]. destruct (f a); cbn; lia. Qed.

Lemma firstn_sorted {A} (R : relation A) (n : nat) (l : list A) :
  StronglySorted R l -> StronglySorted R (firstn n l).
Proof.
  intros H. revert n. induction H as [| a l _ IH Ha]; intros [| n]; cbn;
    try constructor; [apply IH |].
  apply List.Forall_forall. intros b Hb.
  apply list_elem_of_In, (subseteq_take n l), list_elem_of_In in Hb.
  rewrite List.Forall_forall in Ha. auto.
Qed.

Lemma alert_rows_spec db :
  (length (ApiServer.alert_rows db) <= 50)%nat
  /\ StronglySorted
       (fun a b => String.leb (Store.created_at b.1) (Store.created_at a.1) = true)
       (ApiServer.alert_rows db)
  /\ Forall (fun rp => rp.1 ∈ Store.risk_levels db
                       /\ rp.2 = ApiServer.prev_level_of (Store.risk_levels db) rp.1)
            (ApiServer.alert_rows db).
Proof.
  unfold ApiServer.alert_rows. split; [| split].
  - rewrite length_firstn. lia.
  - apply firstn_sorted.
    apply (order_by_desc_sorted (fun rp : Store.RiskLevelRow * option Z =>
                                   Store.created_at rp.1)).
  - apply List.Forall_forall. intros rp Hrp.
    apply list_elem_of_In, subseteq_take in Hrp.
    rewrite order_by_Permutation in Hrp.
    apply list_elem_of_fmap in Hrp as (r & -> & Hr). auto.
Qed.

(** X21. Whatever the rows and the filter, GET /api/alerts returns at most
50 alerts, the newest first; each one repeats the id, market id, level and
timestamp of a stored row together with the level of the row before it in
the same market, which differs from the new level or does not exist; its
severity is the name of the new level, one of low, medium, high,
critical. *)
Theorem alerts_are_recent_transitions
        (file : Store.ConfigFile) (db : Store.Database)
        (severity : option string) (alerts : list ApiServer.Alert) :
  ApiServer.get_alerts file db severity = Ok alerts ->
  (length alerts <= 50)%nat
  /\ StronglySorted
       (fun a b => String.leb (ApiServer.createdAt b) (ApiServer.createdAt a) = true)
       alerts
  /\ Forall (fun a =>
               ApiServer.previousLevel a <> Some (ApiServer.newLevel a)
               /\ ApiServer.severity a
                  = default "low" (ApiServer.severity_map !! ApiServer.newLevel a)
               /\ ApiServer.severity a ∈ ["low"; "medium"; "high"; "critical"]
               /\ exists row,
                    row ∈ Store.risk_levels db
                    /\ ApiServer.alert_id a = Store.id row
                    /\ ApiServer.marketId a = Store.market_id row
                    /\ ApiServer.newLevel a = Store.level row
                    /\ ApiServer.createdAt a = Store.created_at row
                    /\ ApiServer.previousLevel a
                       = ApiServer.prev_level_of (Store.risk_levels db) row)
            alerts.
Proof.
  intros H. apply get_alerts_Ok in H as (config & labels & _ & _ & ->).
  destruct (alert_rows_spec db) as (Hlen & Hsorted & Hrows).
  split; [| split].
  - pose proof (length_omap (ApiServer.alert_of_row labels severity)
                            (ApiServer.alert_rows db)). lia.
  - eapply omap_sorted; [| exact Hsorted].
    intros rp rp' a a' Ha Ha'.
    apply alert_of_row_Some in Ha as [-> _], Ha' as [-> _]. cbn. auto.
  - apply List.Forall_forall. intros a Ha.
    apply list_elem_of_In, list_elem_of_omap in Ha as (rp & Hrp & Ha).
    apply alert_of_row_Some in Ha as (-> & Hne & _).
    rewrite List.Forall_forall in Hrows.
    apply list_elem_of_In, Hrows in Hrp as [Hin Hprev]. cbn.
    split; [exact Hne |]. split; [reflexivity |].
    split; [apply severity_of_level |]. exists rp.1. auto 10.
Qed.

Lemma alerts_are_recent_transitions_witness :
  exists alerts,
    ApiServer.get_alerts Sample.file Sample.history (Some "high") = Ok alerts
    /\ (length alerts <= 50)%nat.
Proof.
  eexists. split; [vm_compute; reflexivity |].
  eapply proj1,
    (alerts_are_recent_transitions Sample.file Sample.history (Some "high")).
  vm_compute. reflexivity.
Defined.

(** A filter that is not empty keeps the alerts of that severity. *)
Lemma alert_of_row_severity labels wanted row :
  wanted <> "" ->
  ApiServer.alert_of_row labels (Some wanted) row
  = match ApiServer.alert_of_row labels None row with
    | Some a => if bool_decide (ApiServer.severity a = wanted) then Some a else None
    | None => None
    end.
Proof.
  intros Hw. unfold ApiServer.alert_of_row.
  destruct (bool_decide (row.2 = None) || _); [| reflexivity].
  rewrite (bool_decide_eq_false_2 _ Hw). cbn [negb andb ApiServer.severity
                                              ApiServer.make_alert].
  destruct (bool_decide (_ = wanted)); reflexivity.
Qed.

Lemma omap_severity labels wanted (rows : list (Store.RiskLevelRow * option Z)) :
  wanted <> "" ->
  omap (ApiServer.alert_of_row labels (Some wanted)) rows
  = filter (fun a => ApiServer.severity a = wanted)
           (omap (ApiServer.alert_of_row labels None) rows).
Proof.
  intros Hw. induction rows as [| row rows IH]; [reflexivity |].
  cbn [omap list_omap]. rewrite IH, (alert_of_row_severity _ _ _ Hw). clear IH.
  destruct (ApiServer.alert_of_row labels None row) as [a |]; [| reflexivity].
  destruct (bool_decide (_ = wanted)) eqn:Hd.
  - apply bool_decide_eq_true in Hd. rewrite filter_cons_True; done.
  - apply bool_decide_eq_false in Hd. rewrite filter_cons_False; done.
Qed.

(** X22. A severity filter that is not empty keeps exactly the alerts of
that severity among those of the unfiltered call, in the same order, and
fails when the unfiltered call fails. *)
Theorem alerts_severity_filter
        (file : Store.ConfigFile) (db : Store.Database) (wanted : string) :
  wanted <> "" ->
  ApiServer.get_alerts file db (Some wanted)
  = filter (fun a => ApiServer.severity a = wanted)
      <$> ApiServer.get_alerts file db None.
Proof.
  intros Hw. unfold ApiServer.get_alerts, mbind, result_bind.
  destruct (ApiServer.load_markets_config file) as [config |]; [| reflexivity].
  destruct (ApiServer.market_labels_of config) as [labels |]; [| reflexivity].
  cbn. rewrite (omap_severity _ _ _ Hw). reflexivity.
Qed.

Lemma alerts_severity_filter_witness :
  exists a,
    ApiServer.get_alerts Sample.file Sample.history (Some "high") = Ok [a]
    /\ ApiServer.newLevel a = 2.
Proof.
  rewrite (alerts_severity_filter Sample.file Sample.history "high");
    [| discriminate].
  eexists. split; vm_compute; reflexivity.
Defined.

(** ** The labels of the alerts *)

Lemma market_labels_of_spec configs (labels : gmap string string) :
  ApiServer.market_labels_of configs = Ok labels ->
  Forall (fun c : gmap string string => is_Some (c !! "label")) configs
  /\ forall market_id,
       match labels !! market_id with
       | Some label =>
         ApiServer.calc_market_id label = market_id
         /\ exists c, c ∈ configs /\ c !! "label" = Some label
       | None =>
         Forall (fun c : gmap string string =>
                   forall label, c !! "label" = Some label ->
                                 ApiServer.calc_market_id label <> market_id)
                configs
       end.
Proof.
  unfold ApiServer.market_labels_of.
  assert (forall (d0 : gmap string string),
             for_each (fun (d : gmap string string) (m : gmap string string) =>
                         label ← getitem m "label";
                         Ok (<[ApiServer.calc_market_id label := label]> d))
                      d0 configs = Ok labels ->
             Forall (fun c : gmap string string => is_Some (c !! "label")) configs
             /\ forall market_id,
                  match labels !! market_id with
                  | Some label =>
                    d0 !! market_id = Some label
                    \/ (ApiServer.calc_market_id label = market_id
                        /\ exists c, c ∈ configs /\ c !! "label" = Some label)
                  | None =>
                    d0 !! market_id = None
                    /\ Forall (fun c : gmap string string =>
                                 forall label, c !! "label" = Some label ->
                                   ApiServer.calc_market_id label <> market_id)
                              configs
                  end) as Hgen.
  { induction configs as [| c cs IH]; intros d0; cbn [for_each].
    - intros [= <-]. split; [constructor |]. intros market_id.
      destruct (d0 !! market_id); auto.
    - unfold getitem, mbind at 1, result_bind at 1.
      destruct (c !! "label") as [l |] eqn:Hl; [| discriminate].
      unfold mbind at 1, result_bind at 1. intros Hrest.
      apply IH in Hrest as [Hlabels Hrest].
      split; [constructor; [exists l; exact Hl | exact Hlabels] |].
      intros market_id. specialize (Hrest market_id).
      destruct (labels !! market_id) as [label |].
      + destruct Hrest as [Hd | (Hh & c' & Hc' & Hl')].
        * destruct (decide (ApiServer.calc_market_id l = market_id)) as [<- | Hne].
          -- rewrite lookup_insert_eq in Hd. injection Hd as <-.
             right. split; [reflexivity |]. exists c. split; [constructor | exact Hl].
          -- rewrite lookup_insert_ne in Hd by exact Hne. left. exact Hd.
        * right. split; [exact Hh |]. exists c'. split; [constructor |]; assumption.
      + destruct Hrest as [Hd Hcs].
        destruct (decide (ApiServer.calc_market_id l = market_id)) as [<- | Hne].
        * rewrite lookup_insert_eq in Hd. discriminate.
        * rewrite lookup_insert_ne in Hd by exact Hne. split; [exact Hd |].
          constructor; [| exact Hcs].
          intros label. rewrite Hl. intros [= <-]. exact Hne. }
  intros H. apply Hgen in H as [Hlabels H]. split; [exact Hlabels |].
  intros market_id. specialize (H market_id).
  destruct (labels !! market_id) as [label |].
  - destruct H as [H | H]; [rewrite lookup_empty in H; discriminate | exact H].
  - apply H.
Qed.

(** X23. The label of an alert is a label of markets.json whose hash is the
market id of the alert; when no configured label hashes to the market id,
it is the first 8 characters of the market id. *)
Theorem alert_labels_hash_to_market_ids
        (file : Store.ConfigFile) (db : Store.Database)
        (severity : option string)
        (config : list (gmap string string)) (alerts : list ApiServer.Alert) :
  ApiServer.load_markets_config file = Ok config ->
  ApiServer.get_alerts file db severity = Ok alerts ->
  Forall (fun a =>
            (ApiServer.calc_market_id (ApiServer.marketLabel a) = ApiServer.marketId a
             /\ exists c, c ∈ config /\ c !! "label" = Some (ApiServer.marketLabel a))
            \/ (ApiServer.marketLabel a = substring 0 8 (ApiServer.marketId a)
                /\ Forall (fun c : gmap string string =>
                             forall label, c !! "label" = Some label ->
                               ApiServer.calc_market_id label <> ApiServer.marketId a)
                          config))
         alerts.
Proof.
  intros Hload H. apply get_alerts_Ok in H as (config' & labels & Hload' & Hlabels & ->).
  rewrite Hload in Hload'. injection Hload' as <-.
  apply market_labels_of_spec in Hlabels as [_ Hlabels].
  apply List.Forall_forall. intros a Ha.
  apply list_elem_of_In, list_elem_of_omap in Ha as (rp & _ & Ha).
  apply alert_of_row_Some in Ha as (-> & _ & _).
  cbn [ApiServer.marketLabel ApiServer.marketId ApiServer.make_alert].
  specialize (Hlabels (Store.market_id rp.1)).
  destruct (labels !! Store.market_id rp.1) as [label |]; cbn [default]; auto.
Qed.

Lemma alert_labels_hash_to_market_ids_witness :
  exists alerts,
    ApiServer.get_alerts Sample.file Sample.history None = Ok alerts
    /\ Forall (fun a =>
                 (ApiServer.calc_market_id (ApiServer.marketLabel a)
                  = ApiServer.marketId a
                  /\ exists c, c ∈ Sample.markets
                               /\ c !! "label" = Some (ApiServer.marketLabel a))
                 \/ (ApiServer.marketLabel a = substring 0 8 (ApiServer.marketId a)
                     /\ Forall (fun c : gmap string string =>
                                  forall label, c !! "label" = Some label ->
                                    ApiServer.calc_market_id label
                                    <> ApiServer.marketId a)
                               Sample.markets))
              alerts.
Proof.
  eexists. split; [vm_compute; reflexivity |].
  apply (alert_labels_hash_to_market_ids Sample.file Sample.history None
           Sample.markets); [reflexivity | vm_compute; reflexivity].
Defined.

(** X24. GET /api/alerts reads the label of every entry of markets.json:
it succeeds when all entries have one, and raises [KeyError: 'label'] as
soon as one entry, of whatever type, has none. *)
Theorem get_alerts_needs_every_label
        (file : Store.ConfigFile) (db : Store.Database)
        (severity : option string) (config : list (gmap string string)) :
  ApiServer.load_markets_config file = Ok config ->
  (Forall (fun c => is_Some (c !! "label")) config ->
   exists alerts, ApiServer.get_alerts file db severity = Ok alerts)
  /\ (Exists (fun c => c !! "label" = None) config ->
      ApiServer.get_alerts file db severity = Raise (KeyError "label")).
Proof.
  intros Hload. unfold ApiServer.get_alerts. rewrite Hload.
  unfold mbind at 1 3, result_bind at 1 3.
  assert (forall d0 : gmap string string,
             (Forall (fun c : gmap string string => is_Some (c !! "label")) config ->
              exists d, for_each
                          (fun (d : gmap string string) (m : gmap string string) =>
                             label ← getitem m "label";
                             Ok (<[ApiServer.calc_market_id label := label]> d))
                          d0 config = Ok d)
             /\ (Exists (fun c : gmap string string => c !! "label" = None) config ->
                 for_each
                   (fun (d : gmap string string) (m : gmap string string) =>
                      label ← getitem m "label";
                      Ok (<[ApiServer.calc_market_id label := label]> d))
                   d0 config = Raise (KeyError "label"))) as Hgen.
  { clear Hload. induction config as [| c cs IH]; intros d0; cbn [for_each].
    - split; [eauto | intros H; inversion H].
    - unfold getitem, mbind at 1 3, result_bind at 1 3.
      destruct (c !! "label") as [l |] eqn:Hl.
      + unfold mbind at 1 2, result_bind at 1 2. split.
        * intros H. apply Forall_cons in H as [_ H]. apply IH, H.
        * intros H. apply Exists_cons in H as [H | H]; [congruence | apply IH, H].
      + split; [| reflexivity].
        intros H. apply Forall_cons in H as [[l' Hl'] _]. congruence. }
  unfold ApiServer.market_labels_of. destruct (Hgen ∅) as [Hall Hsome]. split.
  - intros H. destruct (Hall H) as [d ->]. eauto.
  - intros H. rewrite (Hsome H). reflexivity.
Qed.

Lemma get_alerts_needs_every_label_witness :
  ApiServer.get_alerts
    (Store.Json [ {[ "type" := "whale" ]} ]) Sample.history None
  = Raise (KeyError "label").
Proof.
  apply (get_alerts_needs_every_label
           (Store.Json [ {[ "type" := "whale" ]} ]) Sample.history None
           [ {[ "type" := "whale" ]} ] eq_refl).
  constructor. reflexivity.
Defined.


(** ** The overview *)

Lemma count_if_high_risk_market db n c :
  ApiServer.count_if_high_risk db n c
  = (fun m => if ApiServer.riskLevel m >=? 2 then n + 1 else n)
      <$> ApiServer.market_of_config db c.
Proof.
  unfold ApiServer.count_if_high_risk, ApiServer.market_of_config, getitem,
    mbind, result_bind.
  destruct (c !! "label") as [label |]; [| reflexivity].
  destruct (ApiServer.get_latest_risk_level db _) as [[[level score] lu] |];
    [| reflexivity].
  destruct (if bool_decide _ || _ then _ else _) as [token0 token1]. reflexivity.
Qed.

Lemma high_risk_loop db (configs : list (gmap string string)) (n : Z) :
  for_each (ApiServer.count_if_high_risk db) n configs
  = (fun markets => n + count_high_risk markets)
      <$> mapM (ApiServer.market_of_config db) configs.
Proof.
  revert n. induction configs as [| c cs IH]; intros n.
  - cbn. f_equal. unfold count_high_risk. cbn. lia.
  - cbn [mapM for_each]. rewrite count_if_high_risk_market.
    unfold mbind at 1 2, result_bind at 1 2.
    destruct (ApiServer.market_of_config db c) as [m |]; [| reflexivity].
    cbn [fmap result_fmap]. rewrite IH.
    unfold mbind, result_bind.
    destruct (mapM (ApiServer.market_of_config db) cs) as [ms |]; [| reflexivity].
    cbn. f_equal. unfold count_high_risk.
    destruct (Z.geb_spec (ApiServer.riskLevel m) 2).
    + rewrite filter_cons_True by lia. cbn [length]. lia.
    + rewrite filter_cons_False by lia. lia.
Qed.

(** X25. The overview agrees with the market list: when GET /api/markets
succeeds, GET /api/stats/overview succeeds, its [totalMarkets] is the
number of markets listed and its [highRiskMarkets] the number of those at
level 2 or 3, at most [totalMarkets]; when the list fails, the overview
fails with the same exception. *)
Theorem overview_agrees_with_market_list
        (file : Store.ConfigFile) (db : Store.Database) (today day_ago : string) :
  match ApiServer.get_markets file db with
  | Ok markets =>
    exists stats,
      ApiServer.get_overview_stats file db today day_ago = Ok stats
      /\ ApiServer.totalMarkets stats = Z.of_nat (length markets)
      /\ ApiServer.highRiskMarkets stats = count_high_risk markets
      /\ 0 <= ApiServer.highRiskMarkets stats <= ApiServer.totalMarkets stats
  | Raise e => ApiServer.get_overview_stats file db today day_ago = Raise e
  end.
Proof.
  unfold ApiServer.get_markets, ApiServer.get_overview_stats.
  destruct (ApiServer.load_markets_config file) as [config |]; [| reflexivity].
  unfold mbind, result_bind. cbv beta iota.
  rewrite high_risk_loop.
  destruct (mapM _ _) as [markets | e] eqn:Hmap.
  - eexists. split; [reflexivity |].
    cbn. apply mapM_Ok, Forall2_length in Hmap. rewrite Hmap.
    split; [reflexivity |]. split; [lia |].
    unfold count_high_risk.
    pose proof (length_filter (fun m => 2 <= ApiServer.riskLevel m) markets). lia.
  - reflexivity.
Qed.
